(** * CPUFREQ governors common code (drivers/cpufreq/cpufreq_governor.c)

    A shallow embedding of the common part of the demand based switching
    governors: the sysfs store of the sampling rate, the load evaluation
    [dbs_update], the utilisation update hook [dbs_update_util_handler]
    and the governor life cycle ([cpufreq_governor_dbs] and its five
    events).

    C objects reached through pointers live in finite maps, one per
    structure type, and a pointer is a key of the map.  Functions of the
    C file are computations of a state monad over these maps; reading
    through a pointer that names no object makes the computation fail.
    What the file does to its environment (mutexes, the frequency driver,
    the irq work) is appended to a trace of events. *)

From Stdlib Require Import ZArith Lia Bool String.
From stdpp Require Import base option list gmap.

Local Open Scope Z_scope.

(** ** Machine integers *)

(** [unsigned int]. *)
Definition u32 (z : Z) : Z := z mod 2 ^ 32.

(** [u64]. *)
Definition u64 (z : Z) : Z := z mod 2 ^ 64.

(** The cast [(s64)] of a 64 bit value. *)
Definition s64 (z : Z) : Z :=
  let w := z mod 2 ^ 64 in if w <? 2 ^ 63 then w else w - 2 ^ 64.

(** [int], as the value of an [atomic_t] or of an [int] result. *)
Definition s32 (z : Z) : Z :=
  let w := z mod 2 ^ 32 in if w <? 2 ^ 31 then w else w - 2 ^ 32.

(** A C truth value. *)
Definition truthy (z : Z) : bool := negb (z =? 0).

(** Error numbers of include/uapi/asm-generic/errno-base.h. *)
Definition ENOMEM : Z := 12.
Definition EBUSY : Z := 16.
Definition EINVAL : Z := 22.

(** ** Data structures *)

(** A pointer names an object of its type; objects are numbered. *)
Abbreviation ptr := nat (only parsing).

(** [struct cpumask]: bit [j] of the bitmap is processor [j]. *)
Definition cpumask := list bool.

Fixpoint cpumask_from (j : nat) (m : cpumask) : list nat :=
  match m with
  | [] => []
  | b :: m' => (if b then [j] else []) ++ cpumask_from (S j) m'
  end.

(** The processors [for_each_cpu] visits, in the order it visits them. *)
Definition for_each_cpu (m : cpumask) : list nat := cpumask_from 0 m.

Definition cpumask_weight (m : cpumask) : Z :=
  Z.of_nat (length (for_each_cpu m)).

(** Modelled from the spec: [struct cpu_dbs_info] is declared in
    cpufreq_governor.h, which is not among the sources.  It is the
    per-processor load tracker of the spec (previous idle, wall and nice
    time, cached previous load, back reference to the policy data), with
    the field names the C file uses and the widths of the locals it
    assigns them from. *)
Record cpu_dbs_info := mk_cpu_dbs_info {
  prev_cpu_idle : Z;                (* u64 *)
  prev_cpu_wall : Z;                (* u64 *)
  prev_cpu_nice : Z;                (* u64 *)
  prev_load : Z;                    (* unsigned int *)
  update_util_func : bool;          (* update_util.func is the handler *)
  cdbs_policy_dbs : option ptr      (* policy_dbs, NULL is None *)
}.

(** A per-CPU variable starts zeroed. *)
Definition cpu_dbs_zero : cpu_dbs_info :=
  mk_cpu_dbs_info 0 0 0 0 false None.

(** Modelled from the spec: [struct policy_dbs_info], also of
    cpufreq_governor.h, is the policy domain of the spec: the sample delay
    in nanoseconds (compared as a signed 64 bit number by the hook), the
    time stamp of the last sample, the rate multiplier, the shared flag,
    the work in progress flag and the escalation counter. *)
Record policy_dbs_info := mk_policy_dbs_info {
  pd_policy : ptr;                  (* policy *)
  last_sample_time : Z;             (* u64 *)
  sample_delay_ns : Z;              (* s64 *)
  work_count : Z;                   (* atomic_t *)
  pd_dbs_data : option ptr;         (* dbs_data *)
  rate_mult : Z;                    (* unsigned int *)
  is_shared : bool;
  work_in_progress : bool
}.

(** Modelled from the spec: [struct gov_attr_set] of cpufreq_governor.h,
    the list of member policies and the usage counter of the shared
    tunables. *)
Record gov_attr_set := mk_gov_attr_set {
  policy_list : list ptr;           (* the policy_dbs objects on the list *)
  usage_count : Z                   (* int *)
}.

(** Modelled from the spec: [struct dbs_data] of cpufreq_governor.h, the
    shared tunables ([sampling_rate], [min_sampling_rate],
    [ignore_nice_load], [io_is_busy]) around their attribute set. *)
Record dbs_data := mk_dbs_data {
  attr_set : gov_attr_set;
  min_sampling_rate : Z;            (* unsigned int *)
  ignore_nice_load : Z;             (* unsigned int *)
  sampling_rate : Z;                (* unsigned int *)
  io_is_busy : Z                    (* unsigned int *)
}.

(** [kzalloc(sizeof(struct dbs_data))]. *)
Definition dbs_data_zero : dbs_data :=
  mk_dbs_data (mk_gov_attr_set [] 0) 0 0 0 0.

(** The fields of [struct cpufreq_policy] (include/linux/cpufreq.h) that
    the C file reads and writes. *)
Record cpufreq_policy := mk_cpufreq_policy {
  cpus : cpumask;                   (* online processors of the policy *)
  related_cpus : cpumask;           (* online and offline processors *)
  policy_min : Z;                   (* min, unsigned int, kHz *)
  policy_max : Z;                   (* max *)
  cur : Z;                          (* cur *)
  transition_latency : Z;           (* cpuinfo.transition_latency, ns *)
  governor_initialized : Z;         (* governor->initialized *)
  governor_data : option ptr        (* governor_data, NULL is None *)
}.

(** Field updates. *)

Definition set_prev_cpu_idle (v : Z) (c : cpu_dbs_info) : cpu_dbs_info :=
  mk_cpu_dbs_info v (prev_cpu_wall c) (prev_cpu_nice c) (prev_load c)
    (update_util_func c) (cdbs_policy_dbs c).
Definition set_prev_cpu_wall (v : Z) (c : cpu_dbs_info) : cpu_dbs_info :=
  mk_cpu_dbs_info (prev_cpu_idle c) v (prev_cpu_nice c) (prev_load c)
    (update_util_func c) (cdbs_policy_dbs c).
Definition set_prev_cpu_nice (v : Z) (c : cpu_dbs_info) : cpu_dbs_info :=
  mk_cpu_dbs_info (prev_cpu_idle c) (prev_cpu_wall c) v (prev_load c)
    (update_util_func c) (cdbs_policy_dbs c).
Definition set_prev_load (v : Z) (c : cpu_dbs_info) : cpu_dbs_info :=
  mk_cpu_dbs_info (prev_cpu_idle c) (prev_cpu_wall c) (prev_cpu_nice c) v
    (update_util_func c) (cdbs_policy_dbs c).
Definition set_cdbs_link (pd : option ptr) (f : bool) (c : cpu_dbs_info)
  : cpu_dbs_info :=
  mk_cpu_dbs_info (prev_cpu_idle c) (prev_cpu_wall c) (prev_cpu_nice c)
    (prev_load c) f pd.

Definition set_last_sample_time (v : Z) (p : policy_dbs_info) :=
  mk_policy_dbs_info (pd_policy p) v (sample_delay_ns p) (work_count p)
    (pd_dbs_data p) (rate_mult p) (is_shared p) (work_in_progress p).
Definition set_sample_delay_ns (v : Z) (p : policy_dbs_info) :=
  mk_policy_dbs_info (pd_policy p) (last_sample_time p) v (work_count p)
    (pd_dbs_data p) (rate_mult p) (is_shared p) (work_in_progress p).
Definition set_work_count (v : Z) (p : policy_dbs_info) :=
  mk_policy_dbs_info (pd_policy p) (last_sample_time p) (sample_delay_ns p) v
    (pd_dbs_data p) (rate_mult p) (is_shared p) (work_in_progress p).
Definition set_pd_dbs_data (v : option ptr) (p : policy_dbs_info) :=
  mk_policy_dbs_info (pd_policy p) (last_sample_time p) (sample_delay_ns p)
    (work_count p) v (rate_mult p) (is_shared p) (work_in_progress p).
Definition set_rate_mult (v : Z) (p : policy_dbs_info) :=
  mk_policy_dbs_info (pd_policy p) (last_sample_time p) (sample_delay_ns p)
    (work_count p) (pd_dbs_data p) v (is_shared p) (work_in_progress p).
Definition set_is_shared (v : bool) (p : policy_dbs_info) :=
  mk_policy_dbs_info (pd_policy p) (last_sample_time p) (sample_delay_ns p)
    (work_count p) (pd_dbs_data p) (rate_mult p) v (work_in_progress p).
Definition set_work_in_progress (v : bool) (p : policy_dbs_info) :=
  mk_policy_dbs_info (pd_policy p) (last_sample_time p) (sample_delay_ns p)
    (work_count p) (pd_dbs_data p) (rate_mult p) (is_shared p) v.

Definition set_policy_list (l : list ptr) (a : gov_attr_set) :=
  mk_gov_attr_set l (usage_count a).
Definition set_usage_count (v : Z) (a : gov_attr_set) :=
  mk_gov_attr_set (policy_list a) v.

Definition set_attr_set (a : gov_attr_set) (d : dbs_data) :=
  mk_dbs_data a (min_sampling_rate d) (ignore_nice_load d) (sampling_rate d)
    (io_is_busy d).
Definition set_min_sampling_rate (v : Z) (d : dbs_data) :=
  mk_dbs_data (attr_set d) v (ignore_nice_load d) (sampling_rate d)
    (io_is_busy d).
Definition set_sampling_rate (v : Z) (d : dbs_data) :=
  mk_dbs_data (attr_set d) (min_sampling_rate d) (ignore_nice_load d) v
    (io_is_busy d).

Definition set_governor_data (v : option ptr) (p : cpufreq_policy) :=
  mk_cpufreq_policy (cpus p) (related_cpus p) (policy_min p) (policy_max p)
    (cur p) (transition_latency p) (governor_initialized p) v.

(** ** The environment *)

(** The mutexes of the file. *)
Inductive mutex :=
| gov_dbs_data_mutex
| timer_mutex (policy_dbs : ptr)
| update_lock (attr_set_of : ptr).

(** [CPUFREQ_RELATION_L]: lowest frequency at or above the target;
    [CPUFREQ_RELATION_H]: highest frequency below or at the target. *)
Inductive relation := CPUFREQ_RELATION_L | CPUFREQ_RELATION_H.

(** The governor events of [cpufreq_governor_dbs]; [unsigned int event]
    may hold any other number. *)
Inductive gov_event :=
| CPUFREQ_GOV_START
| CPUFREQ_GOV_STOP
| CPUFREQ_GOV_LIMITS
| CPUFREQ_GOV_POLICY_INIT
| CPUFREQ_GOV_POLICY_EXIT
| CPUFREQ_GOV_OTHER (n : Z).

(** What the code does to the rest of the kernel, in program order. *)
Inductive event :=
| EvMutexLock (m : mutex)
| EvMutexUnlock (m : mutex)
| EvSampleDelay (policy_dbs : ptr) (ns : Z)
| EvDriverTarget (policy : ptr) (target_freq : Z) (rel : relation)
| EvIrqWorkQueue (policy_dbs : ptr)
| EvIrqWorkSync (policy_dbs : ptr)
| EvCancelWorkSync (policy_dbs : ptr)
| EvSynchronizeRcu
| EvGovStart (policy : ptr)
| EvGovExit (dbs : ptr) (notify : bool)
| EvKobjectPut (dbs : ptr).

Global Instance mutex_eq_dec : EqDecision mutex.
Proof. solve_decision. Defined.
Global Instance relation_eq_dec : EqDecision relation.
Proof. solve_decision. Defined.
Global Instance event_eq_dec : EqDecision event.
Proof. solve_decision. Defined.

(** The idle time source: [get_cpu_idle_time(cpu, &wall, io_busy)] gives
    the idle time and the wall time of a processor, [kcpustat_nice] is
    [kcpustat_cpu(cpu).cpustat[CPUTIME_NICE]]; all are [u64] counters. *)
Record idle_source := mk_idle_source {
  get_cpu_idle_time : nat -> Z -> Z * Z;
  kcpustat_nice : nat -> Z
}.

(** The memory the governor code works on. *)
Record kstate := mk_kstate {
  cpu_dbs : gmap nat cpu_dbs_info;            (* DEFINE_PER_CPU(cpu_dbs) *)
  update_util_data : gset nat;                (* processors with the hook set *)
  policies : gmap ptr cpufreq_policy;
  policy_dbs_objs : gmap ptr policy_dbs_info;
  dbs_data_objs : gmap ptr dbs_data;
  gdbs_data : option ptr;                     (* gov->gdbs_data *)
  trace : list event
}.

Definition with_cpu_dbs (f : gmap nat cpu_dbs_info -> gmap nat cpu_dbs_info)
  (s : kstate) : kstate :=
  mk_kstate (f (cpu_dbs s)) (update_util_data s) (policies s)
    (policy_dbs_objs s) (dbs_data_objs s) (gdbs_data s) (trace s).
Definition with_update_util_data (f : gset nat -> gset nat) (s : kstate) :=
  mk_kstate (cpu_dbs s) (f (update_util_data s)) (policies s)
    (policy_dbs_objs s) (dbs_data_objs s) (gdbs_data s) (trace s).
Definition with_policies
  (f : gmap ptr cpufreq_policy -> gmap ptr cpufreq_policy) (s : kstate) :=
  mk_kstate (cpu_dbs s) (update_util_data s) (f (policies s))
    (policy_dbs_objs s) (dbs_data_objs s) (gdbs_data s) (trace s).
Definition with_policy_dbs_objs
  (f : gmap ptr policy_dbs_info -> gmap ptr policy_dbs_info) (s : kstate) :=
  mk_kstate (cpu_dbs s) (update_util_data s) (policies s)
    (f (policy_dbs_objs s)) (dbs_data_objs s) (gdbs_data s) (trace s).
Definition with_dbs_data_objs
  (f : gmap ptr dbs_data -> gmap ptr dbs_data) (s : kstate) :=
  mk_kstate (cpu_dbs s) (update_util_data s) (policies s)
    (policy_dbs_objs s) (f (dbs_data_objs s)) (gdbs_data s) (trace s).
Definition with_gdbs_data (v : option ptr) (s : kstate) :=
  mk_kstate (cpu_dbs s) (update_util_data s) (policies s)
    (policy_dbs_objs s) (dbs_data_objs s) v (trace s).
Definition with_trace (f : list event -> list event) (s : kstate) :=
  mk_kstate (cpu_dbs s) (update_util_data s) (policies s)
    (policy_dbs_objs s) (dbs_data_objs s) (gdbs_data s) (f (trace s)).

(** [per_cpu(cpu_dbs, j)]. *)
Definition per_cpu (s : kstate) (j : nat) : cpu_dbs_info :=
  default cpu_dbs_zero (cpu_dbs s !! j).

(** ** The monad of the C functions

    A computation takes the memory and gives a result and the new memory,
    or nothing when it reads or writes through a pointer to no object. *)

Definition M (A : Type) : Type := kstate -> option (A * kstate).

Definition mreturn {A} (a : A) : M A := fun s => Some (a, s).

Definition mbind' {A B} (m : M A) (k : A -> M B) : M B :=
  fun s => match m s with
           | Some (a, s') => k a s'
           | None => None
           end.

Definition fault {A} : M A := fun _ => None.

Notation "'let*' x ':=' c1 'in' c2" := (mbind' c1 (fun x => c2))
  (at level 10, x pattern, c1 at level 100, c2 at level 200).
Notation "c1 ';;;' c2" := (mbind' c1 (fun _ => c2))
  (at level 100, c2 at level 200, right associativity).

Definition emit (e : event) : M unit :=
  fun s => Some (tt, with_trace (fun t => t ++ [e]) s).

Definition mutex_lock (m : mutex) : M unit := emit (EvMutexLock m).
Definition mutex_unlock (m : mutex) : M unit := emit (EvMutexUnlock m).

Definition load_cpu_dbs (j : nat) : M cpu_dbs_info :=
  fun s => Some (per_cpu s j, s).
Definition store_cpu_dbs (j : nat) (c : cpu_dbs_info) : M unit :=
  fun s => Some (tt, with_cpu_dbs (insert j c) s).

Definition load_policy (p : ptr) : M cpufreq_policy :=
  fun s => match policies s !! p with
           | Some x => Some (x, s)
           | None => None
           end.
Definition store_policy (p : ptr) (x : cpufreq_policy) : M unit :=
  fun s => match policies s !! p with
           | Some _ => Some (tt, with_policies (insert p x) s)
           | None => None
           end.

Definition load_policy_dbs (pd : ptr) : M policy_dbs_info :=
  fun s => match policy_dbs_objs s !! pd with
           | Some x => Some (x, s)
           | None => None
           end.
Definition store_policy_dbs (pd : ptr) (x : policy_dbs_info) : M unit :=
  fun s => match policy_dbs_objs s !! pd with
           | Some _ => Some (tt, with_policy_dbs_objs (insert pd x) s)
           | None => None
           end.

Definition load_dbs_data (d : ptr) : M dbs_data :=
  fun s => match dbs_data_objs s !! d with
           | Some x => Some (x, s)
           | None => None
           end.
Definition store_dbs_data (d : ptr) (x : dbs_data) : M unit :=
  fun s => match dbs_data_objs s !! d with
           | Some _ => Some (tt, with_dbs_data_objs (insert d x) s)
           | None => None
           end.

(** Following a pointer that may be NULL. *)
Definition nonnull {A} (o : option A) : M A :=
  match o with
  | Some a => mreturn a
  | None => fault
  end.

(** A loop over a list ([list_for_each_entry], [for_each_cpu]). *)
Fixpoint for_each {A} (l : list A) (body : A -> M unit) : M unit :=
  match l with
  | [] => mreturn tt
  | x :: l' => body x;;; for_each l' body
  end.

(** ** The functions of cpufreq_governor.c *)

Definition NSEC_PER_USEC : Z := 1000.

(** Modelled from the spec: [gov_update_sample_delay] is an inline
    function of cpufreq_governor.h, which is not among the sources.  The
    spec keeps the next due interval [sample_delay] in nanoseconds and the
    callers pass a delay in microseconds ([delay_us]), so the store
    converts microseconds to nanoseconds. *)
Definition gov_update_sample_delay (policy_dbs : ptr) (delay_us : Z)
  : M unit :=
  let* pd := load_policy_dbs policy_dbs in
  store_policy_dbs policy_dbs
    (set_sample_delay_ns (delay_us * NSEC_PER_USEC) pd);;;
  emit (EvSampleDelay policy_dbs (delay_us * NSEC_PER_USEC)).

(** [atomic_add_unless(v, a, u)]: adds [a] to [v] unless [v] is [u], and
    says whether it added. *)
Definition atomic_add_unless (v a u : Z) : Z * bool :=
  if v =? u then (v, false) else (s32 (v + a), true).

(** [list_add(node, head)] puts the node first; [list_del] unlinks it. *)
Definition list_add (node : ptr) (l : list ptr) : list ptr := node :: l.
Definition list_del (node : ptr) (l : list ptr) : list ptr :=
  filter (fun x => x <> node) l.

(** The body of the [dbs_update_util_handler] on the [policy_dbs_info] it
    works on: the new contents of the object and whether the irq work is
    queued.  Arguments are values of their C types ([u64 time]). *)
Definition util_handler (time : Z) (policy_dbs : policy_dbs_info)
  : policy_dbs_info * bool :=
  if work_in_progress policy_dbs then (policy_dbs, false) else
  let lst := last_sample_time policy_dbs in
  let delta_ns := u64 (time - lst) in
  if s64 delta_ns <? sample_delay_ns policy_dbs then (policy_dbs, false) else
  let queue_up pd :=
    (set_work_in_progress true (set_last_sample_time time pd), true) in
  if is_shared policy_dbs then
    let '(count, added) := atomic_add_unless (work_count policy_dbs) 1 1 in
    if negb added then (policy_dbs, false) else
    let policy_dbs := set_work_count count policy_dbs in
    if negb (lst =? last_sample_time policy_dbs)
    then (set_work_count 0 policy_dbs, false)
    else queue_up policy_dbs
  else queue_up policy_dbs.

Section Governor.

(** What the file takes from the rest of the kernel and from the governor
    that uses it. *)

(** [cputime_to_usecs], an architecture macro. *)
Variable cputime_to_usecs : Z -> Z.
(** [sscanf(buf, "%u", &rate)]: the number of conversions and [rate]. *)
Variable sscanf_u : string -> Z * Z.
(** [have_governor_per_policy()]. *)
Variable have_governor_per_policy : bool.
(** What [__cpufreq_driver_target] does to the policy it is given. *)
Variable cpufreq_driver_target :
  cpufreq_policy -> Z -> relation -> cpufreq_policy.
(** [MIN_LATENCY_MULTIPLIER] and [LATENCY_MULTIPLIER]. *)
Variable MIN_LATENCY_MULTIPLIER : Z.
Variable LATENCY_MULTIPLIER : Z.
(** [gov->alloc()], [kzalloc] and [kobject_init_and_add] may fail. *)
Variable gov_alloc_succeeds : kstate -> bool.
Variable kzalloc_succeeds : kstate -> bool.
Variable kobject_init_and_add : kstate -> Z.
(** [gov->init(dbs_data, notify)]: its result and the tunables it sets. *)
Variable gov_init : dbs_data -> bool -> Z * dbs_data.
(** [gov->gov_dbs_timer(policy)]: the governor's sample, giving the next
    delay in microseconds. *)
Variable gov_dbs_timer : ptr -> M Z.

(** *** Common sysfs tunables *)

Definition store_sampling_rate (attr_set_p : ptr) (buf : string) (count : Z)
  : M Z :=
  let '(ret, rate) := sscanf_u buf in
  if negb (ret =? 1) then mreturn (- EINVAL) else
  let* dbs := load_dbs_data attr_set_p in
  store_dbs_data attr_set_p
    (set_sampling_rate (Z.max rate (min_sampling_rate dbs)) dbs);;;
  for_each (policy_list (attr_set dbs)) (fun policy_dbs =>
    mutex_lock (timer_mutex policy_dbs);;;
    gov_update_sample_delay policy_dbs 0;;;
    mutex_unlock (timer_mutex policy_dbs));;;
  mreturn count.

Definition gov_update_cpu_data (src : idle_source) (dbs_p : ptr) : M unit :=
  let* dbs := load_dbs_data dbs_p in
  for_each (policy_list (attr_set dbs)) (fun policy_dbs =>
    let* pd := load_policy_dbs policy_dbs in
    let* policy := load_policy (pd_policy pd) in
    for_each (for_each_cpu (cpus policy)) (fun j =>
      let* j_cdbs := load_cpu_dbs j in
      let '(idle, wall) := get_cpu_idle_time src j (io_is_busy dbs) in
      let j_cdbs := set_prev_cpu_idle idle (set_prev_cpu_wall wall j_cdbs) in
      let j_cdbs :=
        if truthy (ignore_nice_load dbs)
        then set_prev_cpu_nice (kcpustat_nice src j) j_cdbs
        else j_cdbs in
      store_cpu_dbs j j_cdbs)).

(** [gattr_store] is the [store] callback of the attribute. *)
Definition governor_store (attr_set_p : ptr)
  (gattr_store : ptr -> string -> Z -> M Z) (buf : string) (count : Z)
  : M Z :=
  let ret := - EBUSY in
  mutex_lock (update_lock attr_set_p);;;
  let* dbs := load_dbs_data attr_set_p in
  let* ret :=
    (if truthy (usage_count (attr_set dbs))
     then let* r := gattr_store attr_set_p buf count in mreturn (s32 r)
     else mreturn ret) in
  mutex_unlock (update_lock attr_set_p);;;
  mreturn ret.

(** *** Load evaluation *)

(** One round of the loop of [dbs_update] for processor [j]: the new
    [cpu_dbs_info] of the processor and its load, or no load when the
    round ends in [continue]. *)
Definition dbs_update_cpu (src : idle_source)
  (ignore_nice io_busy sampling_rate : Z) (j : nat) (j_cdbs : cpu_dbs_info)
  : cpu_dbs_info * option Z :=
  let '(cur_idle_time, cur_wall_time) := get_cpu_idle_time src j io_busy in
  let wall_time := u32 (cur_wall_time - prev_cpu_wall j_cdbs) in
  let j_cdbs := set_prev_cpu_wall cur_wall_time j_cdbs in
  let idle_time := u32 (cur_idle_time - prev_cpu_idle j_cdbs) in
  let j_cdbs := set_prev_cpu_idle cur_idle_time j_cdbs in
  let '(idle_time, j_cdbs) :=
    if truthy ignore_nice then
      let cur_nice := kcpustat_nice src j in
      (u32 (idle_time
            + cputime_to_usecs (u64 (cur_nice - prev_cpu_nice j_cdbs))),
       set_prev_cpu_nice cur_nice j_cdbs)
    else (idle_time, j_cdbs) in
  if (wall_time =? 0) || (wall_time <? idle_time) then (j_cdbs, None)
  else if (wall_time >? u32 (2 * sampling_rate)) && truthy (prev_load j_cdbs)
  then
    let load := prev_load j_cdbs in
    (set_prev_load 0 j_cdbs, Some load)
  else
    let load := u32 (100 * (wall_time - idle_time)) / wall_time in
    (set_prev_load load j_cdbs, Some load).

Fixpoint dbs_update_loop (src : idle_source)
  (ignore_nice io_busy sampling_rate : Z) (js : list nat) (max_load : Z)
  : M Z :=
  match js with
  | [] => mreturn max_load
  | j :: js' =>
    let* j_cdbs := load_cpu_dbs j in
    let '(j_cdbs', load) :=
      dbs_update_cpu src ignore_nice io_busy sampling_rate j j_cdbs in
    store_cpu_dbs j j_cdbs';;;
    dbs_update_loop src ignore_nice io_busy sampling_rate js'
      (match load with
       | Some load => if load >? max_load then load else max_load
       | None => max_load
       end)
  end.

Definition dbs_update (src : idle_source) (policy : ptr) : M Z :=
  let* pol := load_policy policy in
  let* policy_dbs := nonnull (governor_data pol) in
  let* pd := load_policy_dbs policy_dbs in
  let* dbs_p := nonnull (pd_dbs_data pd) in
  let* dbs := load_dbs_data dbs_p in
  let ignore_nice := ignore_nice_load dbs in
  let sampling_rate := u32 (sampling_rate dbs * rate_mult pd) in
  let io_busy := io_is_busy dbs in
  dbs_update_loop src ignore_nice io_busy sampling_rate
    (for_each_cpu (cpus pol)) 0.

(** *** The utilisation update hook and the deferred work *)

Definition gov_set_update_util (policy_dbs : ptr) (delay_us : Z) : M unit :=
  let* pd := load_policy_dbs policy_dbs in
  let* policy := load_policy (pd_policy pd) in
  gov_update_sample_delay policy_dbs delay_us;;;
  let* pd := load_policy_dbs policy_dbs in
  store_policy_dbs policy_dbs (set_last_sample_time 0 pd);;;
  for_each (for_each_cpu (cpus policy)) (fun cpu =>
    fun s => Some (tt, with_update_util_data (fun h => {[cpu]} ∪ h) s)).

Definition gov_clear_update_util (policy : ptr) : M unit :=
  let* pol := load_policy policy in
  for_each (for_each_cpu (cpus pol)) (fun i =>
    fun s => Some (tt, with_update_util_data (fun h => h ∖ {[i]}) s));;;
  emit EvSynchronizeRcu.

Definition gov_cancel_work (policy : ptr) : M unit :=
  let* pol := load_policy policy in
  let* policy_dbs := nonnull (governor_data pol) in
  let* pd := load_policy_dbs policy_dbs in
  gov_clear_update_util (pd_policy pd);;;
  emit (EvIrqWorkSync policy_dbs);;;
  emit (EvCancelWorkSync policy_dbs);;;
  let* pd := load_policy_dbs policy_dbs in
  store_policy_dbs policy_dbs
    (set_work_in_progress false (set_work_count 0 pd)).

Definition dbs_work_handler (policy_dbs : ptr) : M unit :=
  let* pd := load_policy_dbs policy_dbs in
  let policy := pd_policy pd in
  mutex_lock (timer_mutex policy_dbs);;;
  let* delay := gov_dbs_timer policy in
  gov_update_sample_delay policy_dbs delay;;;
  mutex_unlock (timer_mutex policy_dbs);;;
  let* pd := load_policy_dbs policy_dbs in
  store_policy_dbs policy_dbs (set_work_count 0 pd);;;
  let* pd := load_policy_dbs policy_dbs in
  store_policy_dbs policy_dbs (set_work_in_progress false pd).

(** The hook as the scheduler calls it on processor [cpu], whose
    [update_util] is [data]. *)
Definition dbs_update_util_handler (cpu : nat) (time : Z) : M unit :=
  let* cdbs := load_cpu_dbs cpu in
  let* policy_dbs := nonnull (cdbs_policy_dbs cdbs) in
  let* pd := load_policy_dbs policy_dbs in
  let '(pd', queued) := util_handler time pd in
  store_policy_dbs policy_dbs pd';;;
  if queued then emit (EvIrqWorkQueue policy_dbs) else mreturn tt.

(** *** Allocation of the per-policy data *)

(** What [gov->alloc()] hands out: a zeroed object. *)
Definition policy_dbs_zero : policy_dbs_info :=
  mk_policy_dbs_info 0%nat 0 0 0 None 0 false false.

Definition alloc_policy_dbs_info (policy : ptr) : M (option ptr) :=
  fun s =>
  (let* pol := load_policy policy in
   if negb (gov_alloc_succeeds s) then mreturn None else
   let policy_dbs := fresh (dom (policy_dbs_objs s)) in
   (fun s' => Some (tt,
      with_policy_dbs_objs (insert policy_dbs policy_dbs_zero) s'));;;
   store_policy_dbs policy_dbs
     (mk_policy_dbs_info policy 0 0 0 None 0 false false);;;
   for_each (for_each_cpu (related_cpus pol)) (fun j =>
     let* j_cdbs := load_cpu_dbs j in
     store_cpu_dbs j (set_cdbs_link (Some policy_dbs) true j_cdbs));;;
   mreturn (Some policy_dbs)) s.

Definition free_policy_dbs_info (policy_dbs : ptr) : M unit :=
  let* pd := load_policy_dbs policy_dbs in
  let* pol := load_policy (pd_policy pd) in
  for_each (for_each_cpu (related_cpus pol)) (fun j =>
    let* j_cdbs := load_cpu_dbs j in
    store_cpu_dbs j (set_cdbs_link None false j_cdbs));;;
  fun s => Some (tt, with_policy_dbs_objs (delete policy_dbs) s).

Definition gov_attr_set_init (attr_set_p : ptr) (list_node : ptr) : M unit :=
  let* dbs := load_dbs_data attr_set_p in
  store_dbs_data attr_set_p
    (set_attr_set (mk_gov_attr_set (list_add list_node []) 1) dbs).

Definition gov_attr_set_get (attr_set_p : ptr) (list_node : ptr) : M unit :=
  mutex_lock (update_lock attr_set_p);;;
  let* dbs := load_dbs_data attr_set_p in
  let a := attr_set dbs in
  store_dbs_data attr_set_p
    (set_attr_set
       (mk_gov_attr_set (list_add list_node (policy_list a))
          (s32 (usage_count a + 1))) dbs);;;
  mutex_unlock (update_lock attr_set_p).

Definition gov_attr_set_put (attr_set_p : ptr) (list_node : ptr) : M Z :=
  mutex_lock (update_lock attr_set_p);;;
  let* dbs := load_dbs_data attr_set_p in
  let a := attr_set dbs in
  let usage := s32 (usage_count a - 1) in
  store_dbs_data attr_set_p
    (set_attr_set
       (mk_gov_attr_set (list_del list_node (policy_list a)) usage) dbs);;;
  let count := u32 usage in
  mutex_unlock (update_lock attr_set_p);;;
  if truthy count then mreturn count else
  emit (EvKobjectPut attr_set_p);;;
  mreturn 0.

(** *** The governor events *)

Definition set_policy_governor_data (policy : ptr) (v : option ptr)
  : M unit :=
  let* pol := load_policy policy in
  store_policy policy (set_governor_data v pol).

Definition set_gdbs_data (v : option ptr) : M unit :=
  fun s => Some (tt, with_gdbs_data v s).

Definition kfree_dbs_data (dbs_p : ptr) : M unit :=
  fun s => Some (tt, with_dbs_data_objs (delete dbs_p) s).

Definition cpufreq_governor_init (policy : ptr) : M Z :=
  let* pol := load_policy policy in
  (* State should be equivalent to EXIT *)
  match governor_data pol with
  | Some _ => mreturn (- EBUSY)
  | None =>
  let* allocated := alloc_policy_dbs_info policy in
  match allocated with
  | None => mreturn (- ENOMEM)
  | Some policy_dbs =>
  mutex_lock gov_dbs_data_mutex;;;
  let notify := negb (truthy (governor_initialized pol)) in
  let* ret :=
    (let* shared := (fun s => Some (gdbs_data s, s)) in
     match shared with
     | Some dbs_p =>
       if have_governor_per_policy
       then free_policy_dbs_info policy_dbs;;; mreturn (- EINVAL)
       else
         let* pd := load_policy_dbs policy_dbs in
         store_policy_dbs policy_dbs (set_pd_dbs_data (Some dbs_p) pd);;;
         set_policy_governor_data policy (Some policy_dbs);;;
         gov_attr_set_get dbs_p policy_dbs;;;
         mreturn 0
     | None =>
       let* zalloc := (fun s =>
         if kzalloc_succeeds s
         then let d := fresh (dom (dbs_data_objs s)) in
              Some (Some d, with_dbs_data_objs (insert d dbs_data_zero) s)
         else Some (None, s)) in
       match zalloc with
       | None => free_policy_dbs_info policy_dbs;;; mreturn (- ENOMEM)
       | Some dbs_p =>
         gov_attr_set_init dbs_p policy_dbs;;;
         let* dbs := load_dbs_data dbs_p in
         let '(ret, dbs) := gov_init dbs notify in
         store_dbs_data dbs_p dbs;;;
         if truthy ret
         then free_policy_dbs_info policy_dbs;;; mreturn ret
         else
           (* policy latency is in ns. Convert it to us first *)
           let latency := transition_latency pol / 1000 in
           let latency := if latency =? 0 then 1 else latency in
           (* Bring kernel and HW constraints together *)
           let dbs :=
             set_min_sampling_rate
               (Z.max (min_sampling_rate dbs)
                  (u32 (MIN_LATENCY_MULTIPLIER * latency))) dbs in
           let dbs :=
             set_sampling_rate
               (Z.max (min_sampling_rate dbs)
                  (u32 (LATENCY_MULTIPLIER * latency))) dbs in
           store_dbs_data dbs_p dbs;;;
           (if negb have_governor_per_policy
            then set_gdbs_data (Some dbs_p) else mreturn tt);;;
           let* pd := load_policy_dbs policy_dbs in
           store_policy_dbs policy_dbs (set_pd_dbs_data (Some dbs_p) pd);;;
           set_policy_governor_data policy (Some policy_dbs);;;
           let* ret := (fun s => Some (kobject_init_and_add s, s)) in
           if negb (truthy ret) then mreturn ret else
           (* Failure, so roll back. *)
           set_policy_governor_data policy None;;;
           (if negb have_governor_per_policy
            then set_gdbs_data None else mreturn tt);;;
           emit (EvGovExit dbs_p notify);;;
           kfree_dbs_data dbs_p;;;
           free_policy_dbs_info policy_dbs;;;
           mreturn ret
       end
     end) in
  mutex_unlock gov_dbs_data_mutex;;;
  mreturn ret
  end
  end.

Definition cpufreq_governor_exit (policy : ptr) : M Z :=
  let* pol := load_policy policy in
  let* policy_dbs := nonnull (governor_data pol) in
  let* pd := load_policy_dbs policy_dbs in
  let* dbs_p := nonnull (pd_dbs_data pd) in
  mutex_lock gov_dbs_data_mutex;;;
  let* count := gov_attr_set_put dbs_p policy_dbs in
  set_policy_governor_data policy None;;;
  (if negb (truthy count) then
     (if negb have_governor_per_policy
      then set_gdbs_data None else mreturn tt);;;
     emit (EvGovExit dbs_p (governor_initialized pol =? 1));;;
     kfree_dbs_data dbs_p
   else mreturn tt);;;
  free_policy_dbs_info policy_dbs;;;
  mutex_unlock gov_dbs_data_mutex;;;
  mreturn 0.

(** [policy_is_shared]: the policy has more than one online processor. *)
Definition policy_is_shared (pol : cpufreq_policy) : bool :=
  cpumask_weight (cpus pol) >? 1.

Definition cpufreq_governor_start (src : idle_source) (policy : ptr) : M Z :=
  let* pol := load_policy policy in
  let* policy_dbs := nonnull (governor_data pol) in
  let* pd := load_policy_dbs policy_dbs in
  if negb (truthy (cur pol)) then mreturn (- EINVAL) else
  store_policy_dbs policy_dbs
    (set_rate_mult 1 (set_is_shared (policy_is_shared pol) pd));;;
  let* dbs_p := nonnull (pd_dbs_data pd) in
  let* dbs := load_dbs_data dbs_p in
  let sampling_rate := sampling_rate dbs in
  let ignore_nice := ignore_nice_load dbs in
  let io_busy := io_is_busy dbs in
  for_each (for_each_cpu (cpus pol)) (fun j =>
    let* j_cdbs := load_cpu_dbs j in
    let '(idle, wall) := get_cpu_idle_time src j io_busy in
    let j_cdbs := set_prev_cpu_idle idle (set_prev_cpu_wall wall j_cdbs) in
    (* Make the first invocation of dbs_update() compute the load. *)
    let j_cdbs := set_prev_load 0 j_cdbs in
    let j_cdbs :=
      if truthy ignore_nice
      then set_prev_cpu_nice (kcpustat_nice src j) j_cdbs
      else j_cdbs in
    store_cpu_dbs j j_cdbs);;;
  emit (EvGovStart policy);;;
  gov_set_update_util policy_dbs sampling_rate;;;
  mreturn 0.

Definition cpufreq_governor_stop (policy : ptr) : M Z :=
  gov_cancel_work policy;;;
  mreturn 0.

(** The call of the frequency driver: it is recorded with its arguments
    and changes the policy as the driver does. *)
Definition __cpufreq_driver_target (policy : ptr) (target_freq : Z)
  (rel : relation) : M unit :=
  let* pol := load_policy policy in
  emit (EvDriverTarget policy target_freq rel);;;
  store_policy policy (cpufreq_driver_target pol target_freq rel).

Definition cpufreq_governor_limits (policy : ptr) : M Z :=
  let* pol := load_policy policy in
  let* policy_dbs := nonnull (governor_data pol) in
  mutex_lock (timer_mutex policy_dbs);;;
  (if policy_max pol <? cur pol
   then __cpufreq_driver_target policy (policy_max pol) CPUFREQ_RELATION_H
   else if policy_min pol >? cur pol
   then __cpufreq_driver_target policy (policy_min pol) CPUFREQ_RELATION_L
   else mreturn tt);;;
  gov_update_sample_delay policy_dbs 0;;;
  mutex_unlock (timer_mutex policy_dbs);;;
  mreturn 0.

Definition cpufreq_governor_dbs (src : idle_source) (policy : ptr)
  (event : gov_event) : M Z :=
  match event with
  | CPUFREQ_GOV_POLICY_INIT => cpufreq_governor_init policy
  | _ =>
    let* pol := load_policy policy in
    match governor_data pol with
    | Some _ =>
      match event with
      | CPUFREQ_GOV_POLICY_EXIT => cpufreq_governor_exit policy
      | CPUFREQ_GOV_START => cpufreq_governor_start src policy
      | CPUFREQ_GOV_STOP => cpufreq_governor_stop policy
      | CPUFREQ_GOV_LIMITS => cpufreq_governor_limits policy
      | _ => mreturn (- EINVAL)
      end
    | None => mreturn (- EINVAL)
    end
  end.

End Governor.

(** ** The hook on several processors at once

    On a shared policy the scheduler may run [dbs_update_util_handler] on
    every processor of the policy at the same time, all on one
    [policy_dbs_info].  A call is followed from one access of the shared
    object to the next; calls interleave between accesses, and every
    access sees the latest store (the barriers of the source are taken to
    give that order). *)

(** Where a call of the hook stands: before the access named. *)
Inductive hook_pc :=
| HCheckWork              (* policy_dbs->work_in_progress *)
| HReadLst                (* lst = READ_ONCE(last_sample_time) *)
| HCheckDelay (lst : Z)   (* (s64)delta_ns < sample_delay_ns *)
| HGate (lst : Z)         (* policy_dbs->is_shared *)
| HAddUnless (lst : Z)    (* atomic_add_unless(&work_count, 1, 1) *)
| HRecheck (lst : Z)      (* lst != READ_ONCE(last_sample_time) *)
| HStale                  (* atomic_set(&work_count, 0) *)
| HSetLst                 (* last_sample_time = time *)
| HSetWork                (* work_in_progress = true *)
| HQueue                  (* irq_work_queue(&irq_work) *)
| HDone (queued : bool).  (* returned; whether it queued the irq work *)

Definition hook_step (time : Z) (pc : hook_pc) (pd : policy_dbs_info)
  : hook_pc * policy_dbs_info :=
  match pc with
  | HCheckWork =>
    (if work_in_progress pd then HDone false else HReadLst, pd)
  | HReadLst => (HCheckDelay (last_sample_time pd), pd)
  | HCheckDelay lst =>
    (if s64 (u64 (time - lst)) <? sample_delay_ns pd
     then HDone false else HGate lst, pd)
  | HGate lst => (if is_shared pd then HAddUnless lst else HSetLst, pd)
  | HAddUnless lst =>
    let '(count, added) := atomic_add_unless (work_count pd) 1 1 in
    (if added then HRecheck lst else HDone false, set_work_count count pd)
  | HRecheck lst =>
    (if negb (lst =? last_sample_time pd) then HStale else HSetLst, pd)
  | HStale => (HDone false, set_work_count 0 pd)
  | HSetLst => (HSetWork, set_last_sample_time time pd)
  | HSetWork => (HQueue, set_work_in_progress true pd)
  | HQueue => (HDone true, pd)
  | HDone q => (HDone q, pd)
  end.

(** A call that runs alone, for at most [fuel] accesses. *)
Fixpoint hook_run (fuel : nat) (time : Z) (pc : hook_pc)
  (pd : policy_dbs_info) : hook_pc * policy_dbs_info :=
  match fuel with
  | O => (pc, pd)
  | S fuel' =>
    let '(pc', pd') := hook_step time pc pd in hook_run fuel' time pc' pd'
  end.

Record hook_call := mk_hook_call { hc_time : Z; hc_pc : hook_pc }.

Definition hook_finished (c : hook_call) : bool :=
  match hc_pc c with
  | HDone _ => true
  | _ => false
  end.

(** The shared object, the calls in flight and how often
    [irq_work_queue] was called. *)
Record hook_sys := mk_hook_sys {
  hs_obj : policy_dbs_info;
  hs_calls : list hook_call;
  hs_queued : nat
}.

Definition hook_sys_init (pd : policy_dbs_info) (times : list Z) : hook_sys :=
  mk_hook_sys pd (map (fun t => mk_hook_call t HCheckWork) times) 0.

Definition hook_sys_next (i : nat) (c : hook_call) (sys : hook_sys)
  : hook_sys :=
  let '(pc', pd') := hook_step (hc_time c) (hc_pc c) (hs_obj sys) in
  mk_hook_sys pd' (<[i := mk_hook_call (hc_time c) pc']> (hs_calls sys))
    (match hc_pc c with
     | HQueue => S (hs_queued sys)
     | _ => hs_queued sys
     end).

(** One access by one of the calls that has not returned. *)
Inductive hook_sys_step : hook_sys -> hook_sys -> Prop :=
| hook_sys_step_at (i : nat) (c : hook_call) (sys : hook_sys) :
    hs_calls sys !! i = Some c ->
    hook_finished c = false ->
    hook_sys_step sys (hook_sys_next i c sys).

Definition all_finished (sys : hook_sys) : Prop :=
  Forall (fun c => hook_finished c = true) (hs_calls sys).

(** ** Quantities the statements speak of *)

(** The test of the hook on the time since the last sample: true when the
    call returns because it is too early. *)
Definition too_early (time : Z) (pd : policy_dbs_info) : bool :=
  s64 (u64 (time - last_sample_time pd)) <? sample_delay_ns pd.

(** The deltas [dbs_update] computes for processor [j] from its snapshot
    [c] ([wall_time] and [idle_time] of the source, the latter with the
    nice time added when it is ignored). *)
Definition wall_delta (src : idle_source) (io_busy : Z) (j : nat)
  (c : cpu_dbs_info) : Z :=
  u32 (snd (get_cpu_idle_time src j io_busy) - prev_cpu_wall c).

Definition idle_delta (cputime_to_usecs : Z -> Z) (src : idle_source)
  (ignore_nice io_busy : Z) (j : nat) (c : cpu_dbs_info) : Z :=
  let idle := u32 (fst (get_cpu_idle_time src j io_busy) - prev_cpu_idle c) in
  if truthy ignore_nice
  then u32 (idle + cputime_to_usecs (u64 (kcpustat_nice src j
                                          - prev_cpu_nice c)))
  else idle.

(** The load of processor [j] in a sample, if it has one. *)
Definition cpu_load (cputime_to_usecs : Z -> Z) (src : idle_source)
  (ignore_nice io_busy sampling_rate : Z) (s : kstate) (j : nat)
  : option Z :=
  snd (dbs_update_cpu cputime_to_usecs src ignore_nice io_busy sampling_rate
         j (per_cpu s j)).

(** A policy with its governor data in place: [policy] points to [pol],
    whose [governor_data] points to [pd], whose [dbs_data] points to
    [dbs]. *)
Definition policy_attached (s : kstate) (policy : ptr) (pol : cpufreq_policy)
  (policy_dbs : ptr) (pd : policy_dbs_info) (dbs_p : ptr) (dbs : dbs_data)
  : Prop :=
  policies s !! policy = Some pol /\
  governor_data pol = Some policy_dbs /\
  policy_dbs_objs s !! policy_dbs = Some pd /\
  pd_dbs_data pd = Some dbs_p /\
  dbs_data_objs s !! dbs_p = Some dbs.

(** Every cached load is a percentage. *)
Definition cached_loads_bounded (s : kstate) : Prop :=
  forall j, 0 <= prev_load (per_cpu s j) <= 100.

(** The memory after the loop of [dbs_update] went over [js]. *)
Definition sample_cpus (cputime_to_usecs : Z -> Z) (src : idle_source)
  (ignore_nice io_busy sampling_rate : Z) (js : list nat) (s : kstate)
  : kstate :=
  foldl (fun s j =>
           with_cpu_dbs
             (insert j (fst (dbs_update_cpu cputime_to_usecs src ignore_nice
                               io_busy sampling_rate j (per_cpu s j)))) s)
    s js.

(** The events of the loop of [store_sampling_rate] for one policy. *)
Definition delay_reset_events (policy_dbs : ptr) : list event :=
  [EvMutexLock (timer_mutex policy_dbs); EvSampleDelay policy_dbs 0;
   EvMutexUnlock (timer_mutex policy_dbs)].

(** Whether an event is a call of the frequency driver. *)
Definition is_driver_call (e : event) : bool :=
  match e with
  | EvDriverTarget _ _ _ => true
  | _ => false
  end.

(** The snapshot START takes of processor [j]. *)
Definition start_snapshot (src : idle_source) (ignore_nice io_busy : Z)
  (j : nat) (c : cpu_dbs_info) : cpu_dbs_info :=
  let r := get_cpu_idle_time src j io_busy in
  let c := set_prev_load 0 (set_prev_cpu_idle (fst r)
                              (set_prev_cpu_wall (snd r) c)) in
  if truthy ignore_nice then set_prev_cpu_nice (kcpustat_nice src j) c else c.

Definition start_cpus (src : idle_source) (ignore_nice io_busy : Z)
  (js : list nat) (s : kstate) : kstate :=
  foldl (fun s j =>
           with_cpu_dbs
             (insert j (start_snapshot src ignore_nice io_busy j
                          (per_cpu s j))) s) s js.

(** How many accesses a call has left at most. *)
Definition hook_left (pc : hook_pc) : nat :=
  match pc with
  | HCheckWork => 10
  | HReadLst => 9
  | HCheckDelay _ => 8
  | HGate _ => 7
  | HAddUnless _ => 6
  | HRecheck _ => 5
  | HStale => 4
  | HSetLst => 3
  | HSetWork => 2
  | HQueue => 1
  | HDone _ => 0
  end.

Definition hook_sys_left (sys : hook_sys) : nat :=
  sum_list ((fun c => hook_left (hc_pc c)) <$> hs_calls sys).

(** The calls of the hook on a shared policy, [L] being the time of the
    last sample and [D] the sample delay when the calls start.  A call
    that has not reached the counter: *)
Definition before_gate (L : Z) (pc : hook_pc) : Prop :=
  match pc with
  | HCheckWork | HReadLst => True
  | HCheckDelay lst | HGate lst | HAddUnless lst => lst = L
  | _ => False
  end.

(** A call that does not hold the counter. *)
Definition not_winner (pc : hook_pc) : Prop :=
  match pc with
  | HCheckWork | HReadLst | HCheckDelay _ | HGate _ | HAddUnless _
  | HDone false => True
  | _ => False
  end.

(** The call that holds the counter, with the shared object and the
    number of times the irq work was queued. *)
Definition winner (pc : hook_pc) (pd : policy_dbs_info) (queued : nat)
  : Prop :=
  match pc with
  | HRecheck lst => lst = last_sample_time pd /\ queued = 0%nat
  | HSetLst | HSetWork | HQueue => queued = 0%nat
  | HDone true => queued = 1%nat
  | _ => False
  end.

(** What holds of the calls at every point: the counter is free and all
    calls are before the gate, or the counter is held by one call and no
    other call is past the gate. *)
Definition hook_inv (L D : Z) (sys : hook_sys) : Prop :=
  is_shared (hs_obj sys) = true /\
  sample_delay_ns (hs_obj sys) = D /\
  ((work_count (hs_obj sys) = 0 /\
    work_in_progress (hs_obj sys) = false /\
    last_sample_time (hs_obj sys) = L /\
    hs_queued sys = 0%nat /\
    Forall (fun c => before_gate L (hc_pc c) /\
                     D <= s64 (u64 (hc_time c - L))) (hs_calls sys))
   \/
   (work_count (hs_obj sys) = 1 /\
    exists i w,
      hs_calls sys !! i = Some w /\
      winner (hc_pc w) (hs_obj sys) (hs_queued sys) /\
      forall j c, j <> i -> hs_calls sys !! j = Some c ->
                  not_winner (hc_pc c))).

(** A cached load that is a percentage. *)
Definition cached_ok (c : cpu_dbs_info) : Prop := 0 <= prev_load c <= 100.

(** [m] keeps the cached loads percentages. *)
Definition keeps {A} (m : M A) : Prop :=
  forall s a s', cached_loads_bounded s -> m s = Some (a, s') ->
                 cached_loads_bounded s'.

Section Steps.

Variable cputime_to_usecs : Z -> Z.
Variable sscanf_u : string -> Z * Z.
Variable have_governor_per_policy : bool.
Variable cpufreq_driver_target :
  cpufreq_policy -> Z -> relation -> cpufreq_policy.
Variable MIN_LATENCY_MULTIPLIER : Z.
Variable LATENCY_MULTIPLIER : Z.
Variable gov_alloc_succeeds : kstate -> bool.
Variable kzalloc_succeeds : kstate -> bool.
Variable kobject_init_and_add : kstate -> Z.
Variable gov_init : dbs_data -> bool -> Z * dbs_data.
Variable gov_dbs_timer : ptr -> M Z.

(** What can happen to the memory: a governor event, a sample, a call of
    the hook, the deferred work, a write of the sampling rate, a refresh
    of the snapshots, or the rest of the kernel changing anything but the
    per-CPU data of the governor. *)
Inductive governor_step : kstate -> kstate -> Prop :=
| step_event src policy event s r s' :
    cpufreq_governor_dbs have_governor_per_policy cpufreq_driver_target
      MIN_LATENCY_MULTIPLIER LATENCY_MULTIPLIER gov_alloc_succeeds
      kzalloc_succeeds kobject_init_and_add gov_init src policy event s
      = Some (r, s') ->
    governor_step s s'
| step_sample src policy s r s' :
    dbs_update cputime_to_usecs src policy s = Some (r, s') ->
    governor_step s s'
| step_hook cpu time s r s' :
    dbs_update_util_handler cpu time s = Some (r, s') ->
    governor_step s s'
| step_work policy_dbs s r s' :
    dbs_work_handler gov_dbs_timer policy_dbs s = Some (r, s') ->
    governor_step s s'
| step_store d buf count s r s' :
    governor_store d (store_sampling_rate sscanf_u) buf count s
      = Some (r, s') ->
    governor_step s s'
| step_refresh src d s r s' :
    gov_update_cpu_data src d s = Some (r, s') ->
    governor_step s s'
| step_kernel s s' :
    cpu_dbs s' = cpu_dbs s ->
    governor_step s s'.

(** The memories reached from one with zeroed per-CPU data. *)
Definition reachable (s : kstate) : Prop :=
  exists s0, cpu_dbs s0 = ∅ /\ rtc governor_step s0 s.

End Steps.

(** The per-CPU data after the loops of [alloc_policy_dbs_info] and
    [free_policy_dbs_info] have set the back pointer [v] and the hook
    function [f] of the processors [js]. *)
Definition link_cpus (v : option ptr) (f : bool) (js : list nat)
  (m : gmap nat cpu_dbs_info) : gmap nat cpu_dbs_info :=
  foldl (fun m j =>
           <[j := set_cdbs_link v f (default cpu_dbs_zero (m !! j))]> m) m js.

(** The transition latency POLICY_INIT works with: microseconds, at
    least one. *)
Definition init_latency (pol : cpufreq_policy) : Z :=
  let latency := transition_latency pol / 1000 in
  if latency =? 0 then 1 else latency.

(** How often the irq work of [policy_dbs] was queued in a trace. *)
Definition queued_for (policy_dbs : ptr) (t : list event) : nat :=
  length (filter (fun e => e = EvIrqWorkQueue policy_dbs) t).

(** Calls of the hook by the scheduler, one after the other; a call is the
    processor it runs on and its time stamp. *)
Definition hook_calls (calls : list (nat * Z)) : M unit :=
  for_each calls (fun c => dbs_update_util_handler (fst c) (snd c)).

(** Whether the [policy_dbs_info] has its work marked in progress. *)
Definition work_pending (s : kstate) (policy_dbs : ptr) : bool :=
  match policy_dbs_objs s !! policy_dbs with
  | Some pd => work_in_progress pd
  | None => false
  end.

(** What a run of calls of the hook keeps of the memory and adds to the
    trace. *)
Definition hook_calls_inv (s s' : kstate) : Prop :=
  cpu_dbs s' = cpu_dbs s /\
  update_util_data s' = update_util_data s /\
  policies s' = policies s /\
  dbs_data_objs s' = dbs_data_objs s /\
  gdbs_data s' = gdbs_data s /\
  (forall p, is_Some (policy_dbs_objs s' !! p)
             <-> is_Some (policy_dbs_objs s !! p)) /\
  forall p,
    (work_pending s p = true ->
     work_pending s' p = true /\
     queued_for p (trace s') = queued_for p (trace s)) /\
    (queued_for p (trace s') = queued_for p (trace s) \/
     (queued_for p (trace s') = S (queued_for p (trace s)) /\
      work_pending s' p = true)).

(** The snapshot [c] of processor [j] holds what the idle time source
    reads now (the nice time only when it is ignored in the load). *)
Definition snapshot_current (src : idle_source) (ignore_nice io_busy : Z)
  (j : nat) (c : cpu_dbs_info) : Prop :=
  prev_cpu_wall c = snd (get_cpu_idle_time src j io_busy) /\
  prev_cpu_idle c = fst (get_cpu_idle_time src j io_busy) /\
  (truthy ignore_nice = true -> prev_cpu_nice c = kcpustat_nice src j).

(** The snapshot [gov_update_cpu_data] takes of processor [j], and the
    per-CPU data after its inner loop went over [js]. *)
Definition refresh_snapshot (src : idle_source) (ignore_nice io_busy : Z)
  (j : nat) (c : cpu_dbs_info) : cpu_dbs_info :=
  let r := get_cpu_idle_time src j io_busy in
  let c := set_prev_cpu_idle (fst r) (set_prev_cpu_wall (snd r) c) in
  if truthy ignore_nice then set_prev_cpu_nice (kcpustat_nice src j) c else c.

Definition refresh_cpus (src : idle_source) (ignore_nice io_busy : Z)
  (js : list nat) (m : gmap nat cpu_dbs_info) : gmap nat cpu_dbs_info :=
  foldl (fun m j =>
           <[j := refresh_snapshot src ignore_nice io_busy j
                    (default cpu_dbs_zero (m !! j))]> m) m js.

(** The order in which the mutexes of the file may be taken:
    [gov_dbs_data_mutex] first, then the [update_lock] of an attribute set,
    then the [timer_mutex] of a policy. *)
Definition mutex_rank (m : mutex) : nat :=
  match m with
  | gov_dbs_data_mutex => 0
  | update_lock _ => 1
  | timer_mutex _ => 2
  end.

(** The mutexes held after the events [t] by a thread that held [held]
    before them (innermost first), if the events keep the discipline: a
    mutex is taken only when every mutex held comes before it in the
    order, and the mutex released is the one taken last. *)
Fixpoint held_after (held : list mutex) (t : list event)
  : option (list mutex) :=
  match t with
  | [] => Some held
  | EvMutexLock m :: t' =>
    if forallb (fun h => (mutex_rank h <? mutex_rank m)%nat) held
    then held_after (m :: held) t'
    else None
  | EvMutexUnlock m :: t' =>
    match held with
    | h :: held' => if decide (h = m) then held_after held' t' else None
    | [] => None
    end
  | _ :: t' => held_after held t'
  end.

Definition is_mutex_event (e : event) : bool :=
  match e with
  | EvMutexLock _ | EvMutexUnlock _ => true
  | _ => false
  end.

(** A run of [m] that starts holding [h] keeps the discipline and ends
    holding [h']. *)
Definition locks_nested {A} (h h' : list mutex) (m : M A) : Prop :=
  forall s a s', m s = Some (a, s') ->
    exists evs, trace s' = trace s ++ evs /\ held_after h evs = Some h'.

(** The usage count counts the policies on the list, each of them once. *)
Definition attr_set_counted (a : gov_attr_set) : Prop :=
  usage_count a = Z.of_nat (length (policy_list a)) /\
  NoDup (policy_list a).

(** Tunables are in use when they are the governor's global ones or a
    governed policy points to them. *)
Definition tunables_in_use (s : kstate) (d : ptr) : Prop :=
  gdbs_data s = Some d \/
  exists policy pol p pd,
    policies s !! policy = Some pol /\ governor_data pol = Some p /\
    policy_dbs_objs s !! p = Some pd /\ pd_dbs_data pd = Some d.

(** An entry [q] of the list of the tunables [d] is the [policy_dbs_info]
    of a governed policy that uses [d]. *)
Definition listed_ok (s : kstate) (d q : ptr) : Prop :=
  exists pd pol,
    policy_dbs_objs s !! q = Some pd /\ pd_dbs_data pd = Some d /\
    policies s !! pd_policy pd = Some pol /\ governor_data pol = Some q.

(** A memory whose governor data hang together: every governed policy has
    its [policy_dbs_info], which points back to it and to allocated
    tunables that list it; tunables in use count the policies on their
    list (at most [N]), and these are governed policies that use them;
    a governor with tunables per policy has no global ones. *)
Definition governed_ok (per_policy : bool) (N : nat) (s : kstate) : Prop :=
  (forall policy pol p,
     policies s !! policy = Some pol -> governor_data pol = Some p ->
     exists pd d dbs,
       policy_dbs_objs s !! p = Some pd /\ pd_policy pd = policy /\
       pd_dbs_data pd = Some d /\ dbs_data_objs s !! d = Some dbs /\
       p ∈ policy_list (attr_set dbs)) /\
  (forall d, tunables_in_use s d ->
     exists dbs,
       dbs_data_objs s !! d = Some dbs /\
       attr_set_counted (attr_set dbs) /\
       (length (policy_list (attr_set dbs)) <= N)%nat /\
       forall q, q ∈ policy_list (attr_set dbs) -> listed_ok s d q) /\
  (per_policy = true -> gdbs_data s = None).

(** What [governed_ok] reads of a [policy_dbs_info]. *)
Definition pd_key (pd : policy_dbs_info) : ptr * option ptr :=
  (pd_policy pd, pd_dbs_data pd).

(** ** An instance to run the code on

    A governor and a platform to evaluate the functions on: cputime
    counted in microseconds, a reader of decimal numbers for [sscanf], one
    set of tunables for all policies, a driver that switches to the target
    frequency, allocations that succeed. *)

Fixpoint read_digits (s : string) (acc : option Z) : option Z :=
  match s with
  | EmptyString => acc
  | String c s' =>
    let n := Z.of_nat (Ascii.nat_of_ascii c) in
    if (48 <=? n) && (n <=? 57)
    then read_digits s' (Some (10 * default 0 acc + (n - 48)))
    else acc
  end.

Definition ex_sscanf_u (buf : string) : Z * Z :=
  match read_digits buf None with
  | Some v => (1, u32 v)
  | None => (0, 0)
  end.

Definition ex_driver_target (pol : cpufreq_policy) (target_freq : Z)
  (rel : relation) : cpufreq_policy :=
  mk_cpufreq_policy (cpus pol) (related_cpus pol) (policy_min pol)
    (policy_max pol) target_freq (transition_latency pol)
    (governor_initialized pol) (governor_data pol).

Definition ex_gov_init (d : dbs_data) (notify : bool) : Z * dbs_data :=
  (0, set_min_sampling_rate 10000 d).

(** A governor sample in the manner of ondemand: evaluate the load, go to
    the maximum when it is above 80, sample again after the effective
    sampling interval. *)
Definition ex_gov_dbs_timer (src : idle_source) (policy : ptr) : M Z :=
  let* load := dbs_update (fun x => x) src policy in
  let* pol := load_policy policy in
  let* policy_dbs := nonnull (governor_data pol) in
  let* pd := load_policy_dbs policy_dbs in
  let* dbs_p := nonnull (pd_dbs_data pd) in
  let* dbs := load_dbs_data dbs_p in
  (if load >? 80
   then __cpufreq_driver_target ex_driver_target policy (policy_max pol)
          CPUFREQ_RELATION_H
   else mreturn tt);;;
  mreturn (u32 (sampling_rate dbs * rate_mult pd)).

Definition ex_init : ptr -> M Z :=
  cpufreq_governor_init false 20 1000 (fun _ => true) (fun _ => true)
    (fun _ => 0) ex_gov_init.

Definition ex_governor_dbs : idle_source -> ptr -> gov_event -> M Z :=
  cpufreq_governor_dbs false ex_driver_target 20 1000 (fun _ => true)
    (fun _ => true) (fun _ => 0) ex_gov_init.

(** A policy of processors 0 and 1 running at 800 MHz, not yet governed. *)
Definition ex_policy : cpufreq_policy :=
  mk_cpufreq_policy [true; true] [true; true] 300000 1900000 800000 50000 0
    None.

Definition ex_boot : kstate :=
  mk_kstate ∅ ∅ {[ 7%nat := ex_policy ]} ∅ ∅ None [].

(** Counters that read [idle] and [wall] on every processor. *)
Definition ex_clock (idle wall : Z) : idle_source :=
  mk_idle_source (fun _ _ => (idle, wall)) (fun _ => 0).

(** The memory after [m], the memory before it when [m] fails. *)
Definition exec {A} (m : M A) (s : kstate) : kstate :=
  match m s with
  | Some (_, s') => s'
  | None => s
  end.

(** The policy after POLICY_INIT, then after START at wall time 5000, then
    after a first sample at wall time 15000. *)
Definition ex_inited : kstate :=
  exec (ex_governor_dbs (ex_clock 0 0) 7%nat CPUFREQ_GOV_POLICY_INIT) ex_boot.

Definition ex_started : kstate :=
  exec (ex_governor_dbs (ex_clock 1000 5000) 7%nat CPUFREQ_GOV_START)
    ex_inited.


(** The objects of these memories. *)
Definition ex_pol : cpufreq_policy := set_governor_data (Some 0%nat) ex_policy.

Definition ex_pd_inited : policy_dbs_info :=
  mk_policy_dbs_info 7%nat 0 0 0 (Some 0%nat) 0 false false.

Definition ex_pd : policy_dbs_info :=
  mk_policy_dbs_info 7%nat 0 50000000 0 (Some 0%nat) 1 true false.

Definition ex_dbs : dbs_data :=
  mk_dbs_data (mk_gov_attr_set [0%nat] 1) 10000 0 50000 0.

(** The started policy after its maximum was lowered below the current
    frequency. *)
Definition ex_pol_limited : cpufreq_policy :=
  mk_cpufreq_policy [true; true] [true; true] 300000 600000 800000 50000 0
    (Some 0%nat).

Definition ex_limited : kstate :=
  with_policies (insert 7%nat ex_pol_limited) ex_started.

(** Two calls of the hook, 60 ms after START. *)
Definition ex_times : list Z := [60000000; 60000001].

(** A decrease of the sampling rate.  The rate is set to one second, the
    hook takes a sample at 1 ms and the work sets the delay to a second;
    at 10 ms the rate is set to 10 ms; the hook is called at 20 ms.  In
    [ex_not_decreased] the rate is left at a second. *)
Definition ex_rate_1s : kstate :=
  exec (governor_store 0%nat (store_sampling_rate ex_sscanf_u) "1000000" 7)
    ex_started.

Definition ex_rate_1s_sampled : kstate :=
  exec (dbs_work_handler (ex_gov_dbs_timer (ex_clock 1500 6000)) 0%nat)
    (exec (dbs_update_util_handler 0%nat 1000000) ex_rate_1s).

Definition ex_decreased : kstate :=
  exec (dbs_update_util_handler 1%nat 20000000)
    (exec (governor_store 0%nat (store_sampling_rate ex_sscanf_u) "10000" 5)
       ex_rate_1s_sampled).

Definition ex_not_decreased : kstate :=
  exec (dbs_update_util_handler 1%nat 20000000) ex_rate_1s_sampled.

(** How often the irq work was queued in a trace. *)
Definition escalations (t : list event) : nat :=
  length (List.filter (fun e => match e with
                                | EvIrqWorkQueue _ => true
                                | _ => false
                                end) t).

(** Tunables that no policy uses any more. *)
Definition ex_dbs_unused : dbs_data :=
  mk_dbs_data (mk_gov_attr_set [] 0) 10000 0 50000 0.

Definition ex_unused : kstate :=
  with_dbs_data_objs (insert 0%nat ex_dbs_unused) ex_started.

(** A second policy, of processors 2 and 3, that appears after
    POLICY_INIT of the first, and the memory after its own POLICY_INIT:
    both policies use the same tunables. *)
Definition ex_policy_b : cpufreq_policy :=
  mk_cpufreq_policy [false; false; true; true] [false; false; true; true]
    300000 1900000 800000 50000 1 None.

Definition ex_second : kstate :=
  with_policies (insert 8%nat ex_policy_b) ex_inited.

Definition ex_shared : kstate := exec (ex_init 8%nat) ex_second.

(** Three calls of the hook after START: two at 60 ms, one at 200 ms. *)
Definition ex_calls : list (nat * Z) :=
  [(0%nat, 60000000); (1%nat, 60000001); (0%nat, 200000000)].

(** Counters that also read [nice] as the nice time of every processor. *)
Definition ex_clock_nice (idle wall nice : Z) : idle_source :=
  mk_idle_source (fun _ _ => (idle, wall)) (fun _ => nice).



(** * Properties *)

(** ** Machine arithmetic *)

Lemma u32_range z : 0 <= u32 z < 2 ^ 32.
Proof. unfold u32. apply Z.mod_pos_bound. lia. Qed.

Lemma u32_small z : 0 <= z < 2 ^ 32 -> u32 z = z.
Proof. intros H. unfold u32. apply Z.mod_small. exact H. Qed.

Lemma u32_le z : 0 <= z -> u32 z <= z.
Proof. intros H. unfold u32. apply Z.mod_le; lia. Qed.

Lemma s64_small z : 0 <= z < 2 ^ 63 -> s64 (u64 z) = z.
Proof.
  intros H. unfold s64, u64.
  rewrite Z.mod_mod by lia.
  rewrite (Z.mod_small z) by lia.
  destruct (Z.ltb_spec z (2 ^ 63)); lia.
Qed.

(** The quotient of [dbs_update] is a percentage, also when the product
    by 100 wraps. *)
Lemma load_percent w i :
  0 < w -> 0 <= i <= w -> 0 <= u32 (100 * (w - i)) / w <= 100.
Proof.
  intros Hw Hi. split.
  - apply Z.div_pos; [apply u32_range | lia].
  - apply Z.div_le_upper_bound; [lia |].
    pose proof (u32_le (100 * (w - i))). lia.
Qed.

(** ** Processor masks *)

Lemma cpumask_from_ge m : forall j k, k ∈ cpumask_from j m -> (j <= k)%nat.
Proof.
  induction m as [| b m IH]; intros j k Hk; simpl in Hk.
  - inversion Hk.
  - apply elem_of_app in Hk as [Hk | Hk].
    + destruct b; [apply list_elem_of_singleton in Hk; lia | inversion Hk].
    + apply IH in Hk. lia.
Qed.

Lemma cpumask_from_NoDup m : forall j, NoDup (cpumask_from j m).
Proof.
  induction m as [| b m IH]; intros j; simpl.
  - constructor.
  - destruct b; simpl; [| apply IH].
    constructor; [| apply IH].
    intros Hin. apply cpumask_from_ge in Hin. lia.
Qed.

(** [for_each_cpu] visits no processor twice. *)
Lemma for_each_cpu_NoDup m : NoDup (for_each_cpu m).
Proof. apply cpumask_from_NoDup. Qed.

(** ** One round of the loop of [dbs_update] *)

Section Load.

Variable cputime_to_usecs : Z -> Z.
Variable src : idle_source.
Variables ignore_nice io_busy sampling_rate : Z.

Let round := dbs_update_cpu cputime_to_usecs src ignore_nice io_busy
               sampling_rate.
Let wall := wall_delta src io_busy.
Let idle := idle_delta cputime_to_usecs src ignore_nice io_busy.

(** The load of the round and the load it leaves in the cache, by the
    three ways through the round. *)
Lemma dbs_update_cpu_cases j c :
  (prev_load (fst (round j c)), snd (round j c)) =
  if (wall j c =? 0) || (wall j c <? idle j c)
  then (prev_load c, None)
  else if (wall j c >? u32 (2 * sampling_rate)) && truthy (prev_load c)
  then (0, Some (prev_load c))
  else (u32 (100 * (wall j c - idle j c)) / wall j c,
        Some (u32 (100 * (wall j c - idle j c)) / wall j c)).
Proof.
  unfold round, wall, idle, dbs_update_cpu, wall_delta, idle_delta.
  destruct (get_cpu_idle_time src j io_busy) as [cur_idle cur_wall].
  cbn [fst snd].
  destruct (truthy ignore_nice); cbn [prev_cpu_idle prev_cpu_wall
    prev_cpu_nice prev_load set_prev_cpu_wall set_prev_cpu_idle
    set_prev_cpu_nice];
  repeat match goal with
         | |- context [if ?b then _ else _] => destruct b eqn:?
         end; reflexivity.
Qed.

(** The round takes the new snapshot of the counters whatever its way. *)
Lemma dbs_update_cpu_snapshot j c :
  prev_cpu_wall (fst (round j c)) = snd (get_cpu_idle_time src j io_busy) /\
  prev_cpu_idle (fst (round j c)) = fst (get_cpu_idle_time src j io_busy) /\
  prev_cpu_nice (fst (round j c)) =
    (if truthy ignore_nice then kcpustat_nice src j else prev_cpu_nice c).
Proof.
  unfold round, dbs_update_cpu.
  destruct (get_cpu_idle_time src j io_busy) as [cur_idle cur_wall].
  cbn [fst snd].
  destruct (truthy ignore_nice);
  repeat match goal with
         | |- context [if ?b then _ else _] => destruct b eqn:?
         end; auto.
Qed.

Lemma wall_delta_range j c : 0 <= wall j c < 2 ^ 32.
Proof. apply u32_range. Qed.

Lemma idle_delta_range j c : 0 <= idle j c < 2 ^ 32.
Proof.
  unfold idle, idle_delta. destruct (truthy ignore_nice); apply u32_range.
Qed.

(** A round has no load exactly when it ends in [continue]. *)
Lemma dbs_update_cpu_skipped j c :
  snd (round j c) = None <-> wall j c = 0 \/ wall j c < idle j c.
Proof.
  pose proof (dbs_update_cpu_cases j c) as H.
  destruct (Z.eqb_spec (wall j c) 0) as [E | E];
    destruct (Z.ltb_spec (wall j c) (idle j c)) as [L | L];
    cbn [orb] in H.
  1-3: injection H as _ ->; (split; [lia | reflexivity]).
  destruct ((wall j c >? u32 (2 * sampling_rate)) && truthy (prev_load c));
    injection H as _ ->; (split; [discriminate | lia]).
Qed.

(** The load of a round is a percentage when the cached load is. *)
Lemma dbs_update_cpu_bounded j c l :
  0 <= prev_load c <= 100 -> snd (round j c) = Some l -> 0 <= l <= 100.
Proof.
  intros Hc Hl.
  pose proof (dbs_update_cpu_cases j c) as H.
  pose proof (wall_delta_range j c) as Hw.
  pose proof (idle_delta_range j c) as Hi.
  rewrite Hl in H.
  destruct (Z.eqb_spec (wall j c) 0) as [E | E];
    destruct (Z.ltb_spec (wall j c) (idle j c)) as [L | L];
    cbn [orb] in H; try discriminate.
  destruct ((wall j c >? u32 (2 * sampling_rate)) && truthy (prev_load c));
    injection H as _ ->; [exact Hc | apply load_percent; lia].
Qed.

(** The cache holds a percentage after the round when it did before. *)
Lemma dbs_update_cpu_cache_bounded j c :
  0 <= prev_load c <= 100 -> 0 <= prev_load (fst (round j c)) <= 100.
Proof.
  intros Hc.
  pose proof (dbs_update_cpu_cases j c) as H.
  pose proof (wall_delta_range j c) as Hw.
  pose proof (idle_delta_range j c) as Hi.
  destruct (Z.eqb_spec (wall j c) 0) as [E | E];
    destruct (Z.ltb_spec (wall j c) (idle j c)) as [L | L];
    cbn [orb] in H.
  1-3: injection H as -> _; exact Hc.
  destruct ((wall j c >? u32 (2 * sampling_rate)) && truthy (prev_load c));
    injection H as -> _; [lia | apply load_percent; lia].
Qed.

End Load.

(** ** The memory *)

Lemma per_cpu_insert s j c k :
  per_cpu (with_cpu_dbs (insert j c) s) k =
  if decide (j = k) then c else per_cpu s k.
Proof.
  unfold per_cpu, with_cpu_dbs; cbn [cpu_dbs].
  rewrite lookup_insert. destruct (decide (j = k)); reflexivity.
Qed.

(** Running the monad: the equations of its operations. *)
Lemma mbind_some {A B} (m : M A) (k : A -> M B) s a s' :
  m s = Some (a, s') -> mbind' m k s = k a s'.
Proof. intros H. unfold mbind'. rewrite H. reflexivity. Qed.

Lemma load_policy_some s p x :
  policies s !! p = Some x -> load_policy p s = Some (x, s).
Proof. intros H. unfold load_policy. rewrite H. reflexivity. Qed.

Lemma load_policy_dbs_some s p x :
  policy_dbs_objs s !! p = Some x -> load_policy_dbs p s = Some (x, s).
Proof. intros H. unfold load_policy_dbs. rewrite H. reflexivity. Qed.

Lemma load_dbs_data_some s p x :
  dbs_data_objs s !! p = Some x -> load_dbs_data p s = Some (x, s).
Proof. intros H. unfold load_dbs_data. rewrite H. reflexivity. Qed.

Lemma store_policy_dbs_some s p x y :
  policy_dbs_objs s !! p = Some x ->
  store_policy_dbs p y s = Some (tt, with_policy_dbs_objs (insert p y) s).
Proof. intros H. unfold store_policy_dbs. rewrite H. reflexivity. Qed.

Lemma store_dbs_data_some s p x y :
  dbs_data_objs s !! p = Some x ->
  store_dbs_data p y s = Some (tt, with_dbs_data_objs (insert p y) s).
Proof. intros H. unfold store_dbs_data. rewrite H. reflexivity. Qed.

Lemma store_policy_some s p x y :
  policies s !! p = Some x ->
  store_policy p y s = Some (tt, with_policies (insert p y) s).
Proof. intros H. unfold store_policy. rewrite H. reflexivity. Qed.

(** ** The loop of [dbs_update] *)

Section Sample.

Variable cputime_to_usecs : Z -> Z.
Variable src : idle_source.
Variables ignore_nice io_busy sampling_rate : Z.

Let round := dbs_update_cpu cputime_to_usecs src ignore_nice io_busy
               sampling_rate.
Let load_of := cpu_load cputime_to_usecs src ignore_nice io_busy
                 sampling_rate.
Let sample := sample_cpus cputime_to_usecs src ignore_nice io_busy
                sampling_rate.
Let loop := dbs_update_loop cputime_to_usecs src ignore_nice io_busy
              sampling_rate.

Lemma sample_cpus_frame js : forall s,
  update_util_data (sample js s) = update_util_data s /\
  policies (sample js s) = policies s /\
  policy_dbs_objs (sample js s) = policy_dbs_objs s /\
  dbs_data_objs (sample js s) = dbs_data_objs s /\
  gdbs_data (sample js s) = gdbs_data s /\
  trace (sample js s) = trace s.
Proof.
  induction js as [| j js IH]; intros s; [repeat split |].
  unfold sample, sample_cpus in *. cbn [foldl].
  specialize (IH (with_cpu_dbs
    (insert j (fst (dbs_update_cpu cputime_to_usecs src ignore_nice io_busy
                      sampling_rate j (per_cpu s j)))) s)).
  exact IH.
Qed.

(** A processor the loop does not visit keeps its snapshot. *)
Lemma sample_cpus_other js : forall s k,
  k ∉ js -> per_cpu (sample js s) k = per_cpu s k.
Proof.
  induction js as [| j js IH]; intros s k Hk; [reflexivity |].
  apply not_elem_of_cons in Hk as [Hne Hk].
  unfold sample, sample_cpus in *. cbn [foldl].
  rewrite IH by exact Hk.
  rewrite per_cpu_insert. destruct (decide (j = k)); congruence.
Qed.

(** A processor the loop visits is left as its round leaves it. *)
Lemma sample_cpus_visited js : forall s k,
  NoDup js -> k ∈ js ->
  per_cpu (sample js s) k = fst (round k (per_cpu s k)).
Proof.
  induction js as [| j js IH]; intros s k Hnd Hk; [inversion Hk |].
  apply NoDup_cons in Hnd as [Hj Hnd].
  unfold sample, sample_cpus in *. cbn [foldl].
  destruct (decide (k = j)) as [-> | Hne].
  - fold (sample_cpus cputime_to_usecs src ignore_nice io_busy
            sampling_rate js).
    pose proof (sample_cpus_other js) as Ho.
    unfold sample in Ho. rewrite Ho by exact Hj.
    rewrite per_cpu_insert.
    destruct (decide (j = j)); [reflexivity | congruence].
  - apply elem_of_cons in Hk as [Hk | Hk]; [congruence |].
    rewrite IH by assumption.
    rewrite per_cpu_insert.
    destruct (decide (j = k)); [congruence | reflexivity].
Qed.

Lemma max_load_step load max_load :
  (if load >? max_load then load else max_load) = Z.max max_load load.
Proof. destruct (Z.gtb_spec load max_load); lia. Qed.

(** The loop returns, leaves the memory [sample_cpus] describes, and its
    result is the largest of the start value and the loads of the
    processors it visited. *)
Lemma dbs_update_loop_max js : forall max_load s,
  NoDup js ->
  exists load,
    loop js max_load s = Some (load, sample js s) /\
    max_load <= load /\
    (forall j l, j ∈ js -> load_of s j = Some l -> l <= load) /\
    (load = max_load \/ exists j, j ∈ js /\ load_of s j = Some load).
Proof.
  induction js as [| j js IH]; intros max_load s Hnd.
  - exists max_load. repeat split; [lia | | left; reflexivity].
    intros j l Hj. inversion Hj.
  - apply NoDup_cons in Hnd as [Hj Hnd].
    unfold loop, sample, sample_cpus, load_of, cpu_load in *.
    cbn [dbs_update_loop foldl].
    unfold mbind' at 1, load_cpu_dbs at 1.
    destruct (dbs_update_cpu cputime_to_usecs src ignore_nice io_busy
                sampling_rate j (per_cpu s j)) as [c' lj] eqn:Hround.
    unfold mbind' at 1, store_cpu_dbs at 1. cbn [fst].
    set (s1 := with_cpu_dbs (insert j c') s).
    assert (Hsame : forall k, k ∈ js -> per_cpu s1 k = per_cpu s k).
    { intros k Hk. unfold s1. rewrite per_cpu_insert.
      destruct (decide (j = k)); congruence. }
    set (m1 := match lj with
               | Some load => if load >? max_load then load else max_load
               | None => max_load
               end).
    assert (Hm1 : max_load <= m1 /\
                  (forall l, lj = Some l -> l <= m1) /\
                  (m1 = max_load \/ lj = Some m1)).
    { unfold m1. destruct lj as [l |].
      - rewrite max_load_step.
        repeat split; [lia | intros ? [= <-]; lia |].
        destruct (Z.max_spec max_load l) as [[_ ->] | [_ ->]]; auto.
      - repeat split; [lia | discriminate | auto]. }
    destruct Hm1 as (Hm1a & Hm1b & Hm1c).
    destruct (IH m1 s1 Hnd) as (load & Hrun & Hge & Hub & Hwit).
    exists load. split; [exact Hrun |]. split; [lia |]. split.
    + intros k l Hk Hl. apply elem_of_cons in Hk as [-> | Hk].
      * rewrite Hround in Hl. cbn [snd] in Hl.
        specialize (Hm1b l Hl). lia.
      * apply (Hub k l Hk). rewrite Hsame by exact Hk. exact Hl.
    + destruct Hwit as [-> | (k & Hk & Hl)].
      * destruct Hm1c as [-> | Hlj]; [left; reflexivity |].
        right. exists j. split; [apply elem_of_cons; auto |].
        rewrite Hround. exact Hlj.
      * right. exists k. split; [apply elem_of_cons; auto |].
        rewrite <- (Hsame k Hk). exact Hl.
Qed.

End Sample.

(** ** [dbs_update] on a governed policy *)

Section DbsUpdate.

Variable cputime_to_usecs : Z -> Z.

Lemma policy_attached_frame s s' policy pol policy_dbs pd dbs_p dbs :
  policies s' = policies s ->
  policy_dbs_objs s' = policy_dbs_objs s ->
  dbs_data_objs s' = dbs_data_objs s ->
  policy_attached s policy pol policy_dbs pd dbs_p dbs ->
  policy_attached s' policy pol policy_dbs pd dbs_p dbs.
Proof.
  intros E1 E2 E3 (H1 & H2 & H3 & H4 & H5).
  unfold policy_attached. rewrite E1, E2, E3. auto.
Qed.

(** On a governed policy [dbs_update] is its loop over the processors of
    the policy, with the tunables of the policy. *)
Lemma dbs_update_attached src s policy pol policy_dbs pd dbs_p dbs :
  policy_attached s policy pol policy_dbs pd dbs_p dbs ->
  dbs_update cputime_to_usecs src policy s =
  dbs_update_loop cputime_to_usecs src (ignore_nice_load dbs) (io_is_busy dbs)
    (u32 (sampling_rate dbs * rate_mult pd)) (for_each_cpu (cpus pol)) 0 s.
Proof.
  intros (H1 & H2 & H3 & H4 & H5). unfold dbs_update.
  rewrite (mbind_some _ _ _ _ _ (load_policy_some _ _ _ H1)).
  rewrite H2. cbn [nonnull]. unfold mbind' at 1, mreturn at 1.
  rewrite (mbind_some _ _ _ _ _ (load_policy_dbs_some _ _ _ H3)).
  rewrite H4. cbn [nonnull]. unfold mbind' at 1, mreturn at 1.
  rewrite (mbind_some _ _ _ _ _ (load_dbs_data_some _ _ _ H5)).
  reflexivity.
Qed.

(** What one sample does: [dbs_update] returns, every processor of the
    policy is left as its round leaves it, nothing else changes, and the
    result is the largest load of a processor of the policy. *)
Lemma dbs_update_sample src s policy pol policy_dbs pd dbs_p dbs :
  policy_attached s policy pol policy_dbs pd dbs_p dbs ->
  let ign := ignore_nice_load dbs in
  let io := io_is_busy dbs in
  let sr := u32 (sampling_rate dbs * rate_mult pd) in
  let js := for_each_cpu (cpus pol) in
  exists load s',
    dbs_update cputime_to_usecs src policy s = Some (load, s') /\
    s' = sample_cpus cputime_to_usecs src ign io sr js s /\
    0 <= load /\
    (forall j l, j ∈ js ->
       cpu_load cputime_to_usecs src ign io sr s j = Some l -> l <= load) /\
    (load = 0 \/
     exists j, j ∈ js /\
       cpu_load cputime_to_usecs src ign io sr s j = Some load) /\
    (forall j, j ∈ js ->
       per_cpu s' j =
       fst (dbs_update_cpu cputime_to_usecs src ign io sr j (per_cpu s j))) /\
    (forall j, j ∉ js -> per_cpu s' j = per_cpu s j) /\
    policy_attached s' policy pol policy_dbs pd dbs_p dbs /\
    trace s' = trace s.
Proof.
  intros Hat ign io sr js.
  pose proof (for_each_cpu_NoDup (cpus pol)) as Hnd. fold js in Hnd.
  destruct (dbs_update_loop_max cputime_to_usecs src ign io sr js 0 s Hnd)
    as (load & Hrun & Hge & Hub & Hwit).
  exists load, (sample_cpus cputime_to_usecs src ign io sr js s).
  rewrite (dbs_update_attached _ _ _ _ _ _ _ _ Hat).
  destruct (sample_cpus_frame cputime_to_usecs src ign io sr js s)
    as (F1 & F2 & F3 & F4 & F5 & F6).
  split; [exact Hrun |]. split; [reflexivity |]. split; [exact Hge |].
  split; [exact Hub |]. split; [exact Hwit |]. split.
  { intros j Hj. apply sample_cpus_visited; assumption. }
  split.
  { intros j Hj. apply sample_cpus_other; assumption. }
  split; [| exact F6].
  apply (policy_attached_frame s); assumption.
Qed.

(** C1 -- For every governed policy and every reading of the idle and
    wall counters, [dbs_update] returns a load between 0 and 100 that is
    the maximum of the loads of the processors of the policy in that
    sample (0 when none has a load).  A processor has no load exactly
    when its wall time delta is zero or smaller than its idle time delta;
    a processor that has one has a positive wall time delta that is at
    least its idle time delta, so the quotient
    [100 * (wall - idle) / wall] is taken with a positive divisor and is
    at most 100.  The cached loads are taken to be percentages, which
    they are again after the sample. *)
Theorem dbs_update_load_is_bounded_maximum
  src s policy pol policy_dbs pd dbs_p dbs :
  policy_attached s policy pol policy_dbs pd dbs_p dbs ->
  cached_loads_bounded s ->
  let ign := ignore_nice_load dbs in
  let io := io_is_busy dbs in
  let sr := u32 (sampling_rate dbs * rate_mult pd) in
  let js := for_each_cpu (cpus pol) in
  let wall := wall_delta src io in
  let idle := idle_delta cputime_to_usecs src ign io in
  let load_of := cpu_load cputime_to_usecs src ign io sr s in
  exists load s',
    dbs_update cputime_to_usecs src policy s = Some (load, s') /\
    0 <= load <= 100 /\
    (forall j l, j ∈ js -> load_of j = Some l -> l <= load) /\
    (load = 0 \/ exists j, j ∈ js /\ load_of j = Some load) /\
    (forall j, load_of j = None <->
       wall j (per_cpu s j) = 0 \/
       wall j (per_cpu s j) < idle j (per_cpu s j)) /\
    (forall j l, load_of j = Some l ->
       0 < wall j (per_cpu s j) /\
       idle j (per_cpu s j) <= wall j (per_cpu s j) /\
       0 <= l <= 100 /\
       0 <= u32 (100 * (wall j (per_cpu s j) - idle j (per_cpu s j)))
            / wall j (per_cpu s j) <= 100) /\
    cached_loads_bounded s'.
Proof.
  intros Hat Hinv ign io sr js wall idle load_of.
  destruct (dbs_update_sample src s policy pol policy_dbs pd dbs_p dbs Hat)
    as (load & s' & Hrun & Hs' & Hge & Hub & Hwit & Hin & Hout & _ & _).
  fold ign io sr js in Hrun, Hs', Hub, Hwit, Hin, Hout.
  assert (Hb : forall j l, load_of j = Some l -> 0 <= l <= 100).
  { intros j l Hl.
    apply (dbs_update_cpu_bounded cputime_to_usecs src ign io sr j
             (per_cpu s j) l (Hinv j) Hl). }
  exists load, s'. split; [exact Hrun |]. split.
  { destruct Hwit as [-> | (j & _ & Hl)]; [lia | apply (Hb j load Hl)]. }
  split; [exact Hub |]. split; [exact Hwit |]. split.
  { intros j. apply dbs_update_cpu_skipped. }
  split.
  { intros j l Hl.
    pose proof (wall_delta_range src io j (per_cpu s j)) as Hw.
    pose proof (idle_delta_range cputime_to_usecs src ign io j (per_cpu s j))
      as Hi.
    assert (Hns : ~ (wall j (per_cpu s j) = 0 \/
                     wall j (per_cpu s j) < idle j (per_cpu s j))).
    { intros Hsk.
      apply (dbs_update_cpu_skipped cputime_to_usecs src ign io sr) in Hsk.
      unfold load_of, cpu_load in Hl. congruence. }
    unfold wall, idle in *.
    split; [lia |]. split; [lia |]. split; [apply (Hb j l Hl) |].
    apply load_percent; lia. }
  intros j. destruct (decide (j ∈ js)) as [Hj | Hj].
  - rewrite (Hin j Hj). apply dbs_update_cpu_cache_bounded. apply Hinv.
  - rewrite (Hout j Hj). apply Hinv.
Qed.

(** The sample of a processor that is considered: its load and what is
    left in its cache, by the two ways through the rest of the round. *)
Lemma dbs_update_considered src s policy pol policy_dbs pd dbs_p dbs j :
  policy_attached s policy pol policy_dbs pd dbs_p dbs ->
  j ∈ for_each_cpu (cpus pol) ->
  let ign := ignore_nice_load dbs in
  let io := io_is_busy dbs in
  let sr := u32 (sampling_rate dbs * rate_mult pd) in
  let w := wall_delta src io j (per_cpu s j) in
  let i := idle_delta cputime_to_usecs src ign io j (per_cpu s j) in
  w <> 0 -> i <= w ->
  exists load s',
    dbs_update cputime_to_usecs src policy s = Some (load, s') /\
    (if (w >? u32 (2 * sr)) && truthy (prev_load (per_cpu s j))
     then cpu_load cputime_to_usecs src ign io sr s j
            = Some (prev_load (per_cpu s j)) /\
          prev_load (per_cpu s' j) = 0
     else cpu_load cputime_to_usecs src ign io sr s j
            = Some (u32 (100 * (w - i)) / w) /\
          prev_load (per_cpu s' j) = u32 (100 * (w - i)) / w) /\
    policy_attached s' policy pol policy_dbs pd dbs_p dbs /\
    prev_cpu_wall (per_cpu s' j) = snd (get_cpu_idle_time src j io).
Proof.
  intros Hat Hj ign io sr w i Hw Hi.
  destruct (dbs_update_sample src s policy pol policy_dbs pd dbs_p dbs Hat)
    as (load & s' & Hrun & _ & _ & _ & _ & Hin & _ & Hat' & _).
  fold ign io sr in Hin.
  exists load, s'. split; [exact Hrun |].
  pose proof (dbs_update_cpu_cases cputime_to_usecs src ign io sr j
                (per_cpu s j)) as Hc.
  pose proof (dbs_update_cpu_snapshot cputime_to_usecs src ign io sr j
                (per_cpu s j)) as (Hsnap & _).
  fold w i in Hc.
  rewrite <- (Hin j Hj) in Hc, Hsnap.
  destruct (Z.eqb_spec w 0) as [E | _]; [contradiction |].
  destruct (Z.ltb_spec w i) as [L | _]; [lia |].
  cbn [orb] in Hc. unfold cpu_load.
  split; [| split; [exact Hat' | exact Hsnap]].
  destruct ((w >? u32 (2 * sr)) && truthy (prev_load (per_cpu s j)));
    injection Hc as -> ->; split; reflexivity.
Qed.



End DbsUpdate.

(** ** Running the functions on a symbolic memory *)

Ltac kred :=
  cbv beta iota zeta delta
    [mbind' mreturn fault emit mutex_lock mutex_unlock load_cpu_dbs
     store_cpu_dbs load_policy store_policy load_policy_dbs
     store_policy_dbs load_dbs_data store_dbs_data nonnull
     with_cpu_dbs with_update_util_data with_policies
     with_policy_dbs_objs with_dbs_data_objs with_gdbs_data with_trace];
  cbn [cpu_dbs update_util_data policies policy_dbs_objs dbs_data_objs
       gdbs_data trace fst snd for_each].

Ltac krun :=
  repeat (kred;
          first [ rewrite lookup_insert_eq
                | match goal with
                  | H : ?m !! ?k = Some _ |- context [?m !! ?k] => rewrite H
                  | H : ?o = Some _ |- context [match ?o with _ => _ end] =>
                    rewrite H
                  end ]);
  kred.

(** ** The store of the sampling rate *)

Lemma alter_lookup_insert {A} (f : A -> A) (m : gmap ptr A) k x :
  m !! k = Some x -> <[k := f x]> m = alter f k m.
Proof.
  intros H. apply map_eq. intros i.
  rewrite lookup_insert, lookup_alter.
  destruct (decide (k = i)) as [-> |]; [rewrite H |]; reflexivity.
Qed.

Lemma reset_sample_delay_step policy_dbs s x :
  policy_dbs_objs s !! policy_dbs = Some x ->
  (mutex_lock (timer_mutex policy_dbs);;;
   gov_update_sample_delay policy_dbs 0;;;
   mutex_unlock (timer_mutex policy_dbs)) s =
  Some (tt,
    with_trace (fun t => t ++ delay_reset_events policy_dbs)
      (with_policy_dbs_objs (alter (set_sample_delay_ns 0) policy_dbs) s)).
Proof.
  intros H. unfold gov_update_sample_delay. krun.
  change (0 * NSEC_PER_USEC) with 0.
  rewrite (alter_lookup_insert (set_sample_delay_ns 0) _ _ _ H).
  unfold delay_reset_events. rewrite <- !app_assoc. reflexivity.
Qed.

Lemma reset_sample_delay_loop l : forall s,
  (forall pd, pd ∈ l -> is_Some (policy_dbs_objs s !! pd)) ->
  for_each l (fun policy_dbs =>
    mutex_lock (timer_mutex policy_dbs);;;
    gov_update_sample_delay policy_dbs 0;;;
    mutex_unlock (timer_mutex policy_dbs)) s =
  Some (tt,
    with_trace (fun t => t ++ flat_map delay_reset_events l)
      (with_policy_dbs_objs
         (fun m => foldl (fun m pd => alter (set_sample_delay_ns 0) pd m) m l)
         s)).
Proof.
  induction l as [| pd l IH]; intros s Hall.
  - cbn [for_each flat_map foldl]. unfold mreturn, with_trace,
      with_policy_dbs_objs. rewrite app_nil_r. destruct s; reflexivity.
  - cbn [for_each flat_map foldl].
    destruct (Hall pd) as [x Hx]; [apply elem_of_cons; auto |].
    unfold mbind' at 1. rewrite (reset_sample_delay_step pd s x Hx).
    rewrite IH.
    + unfold with_trace, with_policy_dbs_objs. cbn.
      rewrite <- app_assoc. reflexivity.
    + intros pd' Hpd'. cbn [policy_dbs_objs with_trace with_policy_dbs_objs].
      rewrite lookup_alter.
      destruct (Hall pd') as [y Hy]; [apply elem_of_cons; auto |].
      destruct (decide (pd = pd')) as [-> | _]; rewrite Hy;
        eexists; reflexivity.
Qed.

Lemma set_sample_delay_ns_idemp v x :
  set_sample_delay_ns v (set_sample_delay_ns v x) = set_sample_delay_ns v x.
Proof. reflexivity. Qed.

(** After the loop the policies of the list have a zero delay and the
    others are as before. *)
Lemma reset_sample_delay_lookup l : forall (m : gmap ptr policy_dbs_info) pd,
  foldl (fun m pd => alter (set_sample_delay_ns 0) pd m) m l !! pd =
  if decide (pd ∈ l) then set_sample_delay_ns 0 <$> m !! pd else m !! pd.
Proof.
  induction l as [| k l IH]; intros m pd; cbn [foldl].
  - destruct (decide (pd ∈ [])) as [H | _]; [inversion H | reflexivity].
  - rewrite IH, lookup_alter.
    destruct (decide (pd ∈ l)) as [Hl | Hl];
      destruct (decide (pd ∈ k :: l)) as [Hkl | Hkl];
      destruct (decide (k = pd)) as [-> | Hne];
      try reflexivity;
      try (exfalso; apply Hkl; apply elem_of_cons; auto; fail).
    + destruct (m !! pd); reflexivity.
    + apply elem_of_cons in Hkl as [-> | Hkl]; contradiction.
Qed.

(** ** The hook, run alone *)

Lemma util_handler_returns_early time pd :
  work_in_progress pd = true \/ too_early time pd = true ->
  util_handler time pd = (pd, false).
Proof.
  unfold util_handler, too_early. intros [H | H].
  - rewrite H. reflexivity.
  - destruct (work_in_progress pd); [reflexivity |]. rewrite H. reflexivity.
Qed.

(** When no work is pending, it is not too early and the counter of a
    shared policy is free, the hook takes the sample time, marks the work
    in progress and queues the irq work. *)
Lemma util_handler_queues time pd :
  work_in_progress pd = false ->
  too_early time pd = false ->
  (is_shared pd = true -> work_count pd <> 1) ->
  snd (util_handler time pd) = true /\
  last_sample_time (fst (util_handler time pd)) = time /\
  work_in_progress (fst (util_handler time pd)) = true.
Proof.
  unfold util_handler, too_early. intros Hw He Hc.
  rewrite Hw, He.
  destruct (is_shared pd); [| repeat split].
  unfold atomic_add_unless.
  destruct (Z.eqb_spec (work_count pd) 1) as [E | _];
    [exfalso; apply Hc; auto |].
  cbn [negb last_sample_time set_work_count].
  rewrite Z.eqb_refl. repeat split.
Qed.

(** ** The sysfs store of the sampling rate *)

Section Tunables.

Variable sscanf_u : string -> Z * Z.

(** C7 -- When the buffer does not hold one unsigned number ([sscanf]
    does not report one conversion), [store_sampling_rate] returns
    [-EINVAL] and the memory is exactly as before the call: the stored
    sampling rate, the tunables and the sample delay of every policy,
    and no mutex was taken. *)
Theorem store_sampling_rate_rejects_malformed attr_set_p buf count s :
  fst (sscanf_u buf) <> 1 ->
  store_sampling_rate sscanf_u attr_set_p buf count s = Some (- EINVAL, s).
Proof.
  intros H. unfold store_sampling_rate.
  destruct (sscanf_u buf) as [ret rate]. cbn [fst] in H.
  destruct (Z.eqb_spec ret 1) as [E | _]; [contradiction |].
  reflexivity.
Qed.

(** C4 -- When the buffer holds one unsigned number [rate],
    [store_sampling_rate] returns [count]; the stored sampling rate is
    [max(rate, min_sampling_rate)]; then, for every policy on the list of
    the tunables, in list order, the sample delay is set to 0 between the
    lock and the unlock of the timer mutex of that policy; nothing else
    changes.  So for such a policy the hook no longer finds it too early
    once the time since the last sample is not negative, whatever delay
    was set under the old rate, and queues the work when none is pending
    and the counter of a shared policy is free. *)
Theorem store_sampling_rate_takes_effect attr_set_p buf count s rate dbs :
  sscanf_u buf = (1, rate) ->
  dbs_data_objs s !! attr_set_p = Some dbs ->
  (forall pd, pd ∈ policy_list (attr_set dbs) ->
     is_Some (policy_dbs_objs s !! pd)) ->
  exists s',
    store_sampling_rate sscanf_u attr_set_p buf count s = Some (count, s') /\
    dbs_data_objs s' =
      <[attr_set_p :=
          set_sampling_rate (Z.max rate (min_sampling_rate dbs)) dbs]>
        (dbs_data_objs s) /\
    (forall pd x, pd ∈ policy_list (attr_set dbs) ->
       policy_dbs_objs s !! pd = Some x ->
       policy_dbs_objs s' !! pd = Some (set_sample_delay_ns 0 x) /\
       forall time,
         0 <= s64 (u64 (time - last_sample_time x)) ->
         too_early time (set_sample_delay_ns 0 x) = false /\
         (work_in_progress x = false ->
          (is_shared x = true -> work_count x <> 1) ->
          snd (util_handler time (set_sample_delay_ns 0 x)) = true)) /\
    (forall pd, pd ∉ policy_list (attr_set dbs) ->
       policy_dbs_objs s' !! pd = policy_dbs_objs s !! pd) /\
    trace s' =
      trace s ++ flat_map delay_reset_events (policy_list (attr_set dbs)) /\
    cpu_dbs s' = cpu_dbs s /\
    update_util_data s' = update_util_data s /\
    policies s' = policies s /\
    gdbs_data s' = gdbs_data s.
Proof.
  intros Hscan Hd Hall. unfold store_sampling_rate. rewrite Hscan.
  change (negb (1 =? 1)) with false. cbv iota.
  rewrite (mbind_some _ _ _ _ _ (load_dbs_data_some _ _ _ Hd)).
  unfold mbind' at 1.
  rewrite (store_dbs_data_some _ _ _ _ Hd).
  unfold mbind' at 1.
  rewrite reset_sample_delay_loop
    by (intros pd Hpd; cbn [policy_dbs_objs with_dbs_data_objs];
        apply Hall; exact Hpd).
  eexists. split; [reflexivity |].
  cbn [with_trace with_policy_dbs_objs with_dbs_data_objs cpu_dbs
       update_util_data policies policy_dbs_objs dbs_data_objs gdbs_data
       trace].
  split; [reflexivity |]. split.
  { intros pd x Hpd Hx. rewrite reset_sample_delay_lookup, Hx.
    destruct (decide (pd ∈ policy_list (attr_set dbs)));
      [| contradiction].
    split; [reflexivity |]. intros time Htime.
    assert (He : too_early time (set_sample_delay_ns 0 x) = false).
    { unfold too_early. cbn [last_sample_time sample_delay_ns
        set_sample_delay_ns].
      destruct (Z.ltb_spec (s64 (u64 (time - last_sample_time x))) 0);
        [lia | reflexivity]. }
    split; [exact He |]. intros Hw Hc.
    apply util_handler_queues; assumption. }
  split.
  { intros pd Hpd. rewrite reset_sample_delay_lookup.
    destruct (decide (pd ∈ policy_list (attr_set dbs)));
      [contradiction | reflexivity]. }
  repeat split.
Qed.

End Tunables.

(** ** The dispatch of attribute writes *)

(** C8 -- A write to an attribute of tunables whose usage count is zero
    returns [-EBUSY] whatever the [store] callback of the attribute is:
    the callback is not run and nothing changes but for the update lock
    being taken and released.  When the count is not zero the callback
    runs after the lock is taken and the lock is released after it, so
    the test of the count and the store are both under the update lock. *)
Theorem governor_store_busy_when_unused attr_set_p buf count s dbs :
  dbs_data_objs s !! attr_set_p = Some dbs ->
  (usage_count (attr_set dbs) = 0 ->
   forall gattr_store,
     governor_store attr_set_p gattr_store buf count s =
     Some (- EBUSY,
           with_trace (fun t => t ++ [EvMutexLock (update_lock attr_set_p);
                                      EvMutexUnlock (update_lock attr_set_p)])
             s)) /\
  (usage_count (attr_set dbs) <> 0 ->
   forall gattr_store r s1,
     gattr_store attr_set_p buf count
       (with_trace (fun t => t ++ [EvMutexLock (update_lock attr_set_p)]) s)
       = Some (r, s1) ->
     governor_store attr_set_p gattr_store buf count s =
     Some (s32 r,
           with_trace
             (fun t => t ++ [EvMutexUnlock (update_lock attr_set_p)]) s1)).
Proof.
  intros Hd. split.
  - intros Hz gattr_store. unfold governor_store. krun.
    rewrite Hz. cbn [truthy Z.eqb negb]. kred.
    rewrite <- app_assoc. reflexivity.
  - intros Hnz gattr_store r s1 Hstore. unfold governor_store. krun.
    unfold truthy. destruct (Z.eqb_spec (usage_count (attr_set dbs)) 0)
      as [E | _]; [contradiction |].
    cbn [negb]. unfold with_trace in Hstore. rewrite Hstore. reflexivity.
Qed.

(** ** The governor events *)

Section Lifecycle.

Variable cputime_to_usecs : Z -> Z.
Variable have_governor_per_policy : bool.
Variable cpufreq_driver_target :
  cpufreq_policy -> Z -> relation -> cpufreq_policy.
Variable MIN_LATENCY_MULTIPLIER : Z.
Variable LATENCY_MULTIPLIER : Z.
Variable gov_alloc_succeeds : kstate -> bool.
Variable kzalloc_succeeds : kstate -> bool.
Variable kobject_init_and_add : kstate -> Z.
Variable gov_init : dbs_data -> bool -> Z * dbs_data.

Let governor_dbs :=
  cpufreq_governor_dbs have_governor_per_policy cpufreq_driver_target
    MIN_LATENCY_MULTIPLIER LATENCY_MULTIPLIER gov_alloc_succeeds
    kzalloc_succeeds kobject_init_and_add gov_init.
Let governor_init :=
  cpufreq_governor_init have_governor_per_policy MIN_LATENCY_MULTIPLIER
    LATENCY_MULTIPLIER gov_alloc_succeeds kzalloc_succeeds
    kobject_init_and_add gov_init.
Let governor_limits := cpufreq_governor_limits cpufreq_driver_target.

(** On a governed policy the events other than POLICY_INIT go to their
    functions. *)
Lemma governor_dbs_dispatch src policy s pol policy_dbs :
  policies s !! policy = Some pol ->
  governor_data pol = Some policy_dbs ->
  governor_dbs src policy CPUFREQ_GOV_START s
    = cpufreq_governor_start src policy s /\
  governor_dbs src policy CPUFREQ_GOV_STOP s
    = cpufreq_governor_stop policy s /\
  governor_dbs src policy CPUFREQ_GOV_LIMITS s
    = governor_limits policy s /\
  governor_dbs src policy CPUFREQ_GOV_POLICY_EXIT s
    = cpufreq_governor_exit have_governor_per_policy policy s.
Proof.
  intros Hp Hg. unfold governor_dbs, cpufreq_governor_dbs.
  rewrite !(mbind_some _ _ _ _ _ (load_policy_some _ _ _ Hp)).
  rewrite Hg. repeat split.
Qed.

(** C6 -- POLICY_INIT on a policy that has governor data returns
    [-EBUSY] and leaves the memory as it was: nothing is allocated and
    nothing is written.  Every other event (START, STOP, LIMITS,
    POLICY_EXIT or an unknown number) on a policy without governor data
    returns [-EINVAL], also leaving the memory as it was. *)
Theorem governor_dbs_rejects_wrong_state src policy s pol :
  policies s !! policy = Some pol ->
  (governor_data pol <> None ->
   governor_dbs src policy CPUFREQ_GOV_POLICY_INIT s = Some (- EBUSY, s) /\
   governor_init policy s = Some (- EBUSY, s)) /\
  (governor_data pol = None ->
   forall event, event <> CPUFREQ_GOV_POLICY_INIT ->
     governor_dbs src policy event s = Some (- EINVAL, s)).
Proof.
  intros Hp. split.
  - intros Hg.
    assert (H : governor_init policy s = Some (- EBUSY, s)).
    { unfold governor_init, cpufreq_governor_init.
      rewrite (mbind_some _ _ _ _ _ (load_policy_some _ _ _ Hp)).
      destruct (governor_data pol); [reflexivity | contradiction]. }
    split; [exact H | exact H].
  - intros Hg event Hev. unfold governor_dbs, cpufreq_governor_dbs.
    destruct event; try contradiction;
      rewrite (mbind_some _ _ _ _ _ (load_policy_some _ _ _ Hp)), Hg;
      reflexivity.
Qed.

(** What LIMITS does, by the three ways through it. *)
Lemma governor_limits_run policy s pol policy_dbs pd :
  policies s !! policy = Some pol ->
  governor_data pol = Some policy_dbs ->
  policy_dbs_objs s !! policy_dbs = Some pd ->
  let tm := timer_mutex policy_dbs in
  let reset s0 :=
    with_policy_dbs_objs (insert policy_dbs (set_sample_delay_ns 0 pd)) s0 in
  let call target rel s0 :=
    with_policies (insert policy (cpufreq_driver_target pol target rel)) s0 in
  governor_limits policy s =
  Some (0,
    if policy_max pol <? cur pol then
      with_trace (fun t => t ++ [EvMutexLock tm;
                    EvDriverTarget policy (policy_max pol) CPUFREQ_RELATION_H;
                    EvSampleDelay policy_dbs 0; EvMutexUnlock tm])
        (reset (call (policy_max pol) CPUFREQ_RELATION_H s))
    else if policy_min pol >? cur pol then
      with_trace (fun t => t ++ [EvMutexLock tm;
                    EvDriverTarget policy (policy_min pol) CPUFREQ_RELATION_L;
                    EvSampleDelay policy_dbs 0; EvMutexUnlock tm])
        (reset (call (policy_min pol) CPUFREQ_RELATION_L s))
    else
      with_trace (fun t => t ++ [EvMutexLock tm; EvSampleDelay policy_dbs 0;
                                 EvMutexUnlock tm])
        (reset s)).
Proof.
  intros Hp Hg Hpd tm reset call.
  unfold governor_limits, cpufreq_governor_limits, __cpufreq_driver_target,
    gov_update_sample_delay.
  krun.
  destruct (policy_max pol <? cur pol); [| destruct (policy_min pol >? cur pol)];
    krun; change (0 * NSEC_PER_USEC) with 0;
    rewrite <- ?app_assoc; reflexivity.
Qed.

(** C5 -- On a policy with governor data LIMITS returns 0 and, between
    the lock and the unlock of the timer mutex of the policy: when
    [policy->max] is below the current frequency the frequency driver is
    called with target [policy->max] and relation H (at most); when
    instead [policy->min] is above the current frequency it is called
    with target [policy->min] and relation L (at least); and in every
    case the sample delay is then set to 0.  The event LIMITS of
    [cpufreq_governor_dbs] is that function. *)
Theorem governor_limits_clamps_frequency src policy s pol policy_dbs pd :
  policies s !! policy = Some pol ->
  governor_data pol = Some policy_dbs ->
  policy_dbs_objs s !! policy_dbs = Some pd ->
  exists s' calls,
    governor_limits policy s = Some (0, s') /\
    governor_dbs src policy CPUFREQ_GOV_LIMITS s = Some (0, s') /\
    trace s' =
      trace s ++ [EvMutexLock (timer_mutex policy_dbs)] ++ calls
        ++ [EvSampleDelay policy_dbs 0;
            EvMutexUnlock (timer_mutex policy_dbs)] /\
    (policy_max pol < cur pol ->
     calls = [EvDriverTarget policy (policy_max pol) CPUFREQ_RELATION_H]) /\
    (~ policy_max pol < cur pol -> policy_min pol > cur pol ->
     calls = [EvDriverTarget policy (policy_min pol) CPUFREQ_RELATION_L]) /\
    policy_dbs_objs s' !! policy_dbs = Some (set_sample_delay_ns 0 pd) /\
    sample_delay_ns (set_sample_delay_ns 0 pd) = 0.
Proof.
  intros Hp Hg Hpd.
  destruct (governor_dbs_dispatch src policy s pol policy_dbs Hp Hg)
    as (_ & _ & Hdisp & _).
  rewrite Hdisp.
  rewrite (governor_limits_run policy s pol policy_dbs pd Hp Hg Hpd).
  destruct (Z.ltb_spec (policy_max pol) (cur pol)) as [Hmax | Hmax];
    [| destruct (Z.gtb_spec (policy_min pol) (cur pol)) as [Hmin | Hmin]].
  - eexists. exists [EvDriverTarget policy (policy_max pol) CPUFREQ_RELATION_H].
    split; [reflexivity |]. split; [reflexivity |].
    split; [reflexivity |]. split; [reflexivity |].
    split; [intros; lia |].
    cbn [with_trace with_policy_dbs_objs policy_dbs_objs].
    rewrite lookup_insert_eq. split; reflexivity.
  - eexists. exists [EvDriverTarget policy (policy_min pol) CPUFREQ_RELATION_L].
    split; [reflexivity |]. split; [reflexivity |].
    split; [reflexivity |]. split; [intros; lia |].
    split; [reflexivity |].
    cbn [with_trace with_policy_dbs_objs policy_dbs_objs].
    rewrite lookup_insert_eq. split; reflexivity.
  - eexists. exists [].
    split; [reflexivity |]. split; [reflexivity |].
    split; [reflexivity |]. split; [intros; lia |].
    split; [intros; lia |].
    cbn [with_trace with_policy_dbs_objs policy_dbs_objs].
    rewrite lookup_insert_eq. split; reflexivity.
Qed.

(** C10 -- LIMITS calls the frequency driver at most once.  When the
    current frequency is within [policy->min] and [policy->max] it does
    not call the driver at all and the memory after it differs from the
    memory before in the sample delay of the policy, now 0, and in
    nothing else (the timer mutex was taken and released around the
    store). *)
Theorem governor_limits_in_range_only_resets_delay
  policy s pol policy_dbs pd :
  policies s !! policy = Some pol ->
  governor_data pol = Some policy_dbs ->
  policy_dbs_objs s !! policy_dbs = Some pd ->
  exists s' evs,
    governor_limits policy s = Some (0, s') /\
    trace s' = trace s ++ evs /\
    (length (List.filter is_driver_call evs) <= 1)%nat /\
    (policy_min pol <= cur pol <= policy_max pol ->
     List.filter is_driver_call evs = [] /\
     s' = with_trace
            (fun t => t ++ [EvMutexLock (timer_mutex policy_dbs);
                            EvSampleDelay policy_dbs 0;
                            EvMutexUnlock (timer_mutex policy_dbs)])
            (with_policy_dbs_objs
               (insert policy_dbs (set_sample_delay_ns 0 pd)) s)).
Proof.
  intros Hp Hg Hpd.
  rewrite (governor_limits_run policy s pol policy_dbs pd Hp Hg Hpd).
  destruct (Z.ltb_spec (policy_max pol) (cur pol)) as [Hmax | Hmax];
    [| destruct (Z.gtb_spec (policy_min pol) (cur pol)) as [Hmin | Hmin]];
    eexists; eexists; (split; [reflexivity |]);
    (split; [reflexivity |]); (split; [cbn; lia |]); intros Hin;
    first [lia | split; reflexivity].
Qed.

End Lifecycle.

(** ** START *)

(** A loop whose body only rewrites the memory. *)
Lemma for_each_pure {A} (g : A -> kstate -> kstate) (body : A -> M unit) l :
  (forall x s, body x s = Some (tt, g x s)) ->
  forall s, for_each l body s = Some (tt, foldl (fun s x => g x s) s l).
Proof.
  intros Hbody. induction l as [| x l IH]; intros s; [reflexivity |].
  cbn [for_each foldl]. unfold mbind'. rewrite Hbody. apply IH.
Qed.

Lemma start_cpus_frame src ign io js : forall s,
  update_util_data (start_cpus src ign io js s) = update_util_data s /\
  policies (start_cpus src ign io js s) = policies s /\
  policy_dbs_objs (start_cpus src ign io js s) = policy_dbs_objs s /\
  dbs_data_objs (start_cpus src ign io js s) = dbs_data_objs s /\
  gdbs_data (start_cpus src ign io js s) = gdbs_data s /\
  trace (start_cpus src ign io js s) = trace s.
Proof.
  induction js as [| j js IH]; intros s; [repeat split |].
  unfold start_cpus in *. cbn [foldl].
  exact (IH (with_cpu_dbs
    (insert j (start_snapshot src ign io j (per_cpu s j))) s)).
Qed.

Lemma start_snapshot_fields src ign io j c :
  prev_load (start_snapshot src ign io j c) = 0 /\
  prev_cpu_wall (start_snapshot src ign io j c)
    = snd (get_cpu_idle_time src j io) /\
  prev_cpu_idle (start_snapshot src ign io j c)
    = fst (get_cpu_idle_time src j io).
Proof. unfold start_snapshot. destruct (truthy ign); repeat split. Qed.

Lemma start_cpus_other src ign io js : forall s k,
  k ∉ js -> per_cpu (start_cpus src ign io js s) k = per_cpu s k.
Proof.
  induction js as [| j js IH]; intros s k Hk; [reflexivity |].
  apply not_elem_of_cons in Hk as [Hne Hk].
  unfold start_cpus in *. cbn [foldl]. rewrite IH by exact Hk.
  rewrite per_cpu_insert. destruct (decide (j = k)); congruence.
Qed.

(** Every processor START visits has an empty cache and the snapshot of
    the counters START read. *)
Lemma start_cpus_visited src ign io js : forall s k,
  k ∈ js ->
  prev_load (per_cpu (start_cpus src ign io js s) k) = 0 /\
  prev_cpu_wall (per_cpu (start_cpus src ign io js s) k)
    = snd (get_cpu_idle_time src k io) /\
  prev_cpu_idle (per_cpu (start_cpus src ign io js s) k)
    = fst (get_cpu_idle_time src k io).
Proof.
  induction js as [| j js IH]; intros s k Hk; [inversion Hk |].
  destruct (decide (k ∈ js)) as [Hin | Hout].
  - unfold start_cpus in *. cbn [foldl]. apply IH. exact Hin.
  - apply elem_of_cons in Hk as [-> | Hk]; [| contradiction].
    pose proof (start_cpus_other src ign io js) as Ho.
    unfold start_cpus in *. cbn [foldl].
    rewrite Ho by exact Hout. rewrite per_cpu_insert.
    destruct (decide (j = j)); [| congruence].
    apply start_snapshot_fields.
Qed.

Lemma mbind_ret {A B} (a : A) (k : A -> M B) s :
  mbind' (mreturn a) k s = k a s.
Proof. reflexivity. Qed.

Lemma with_update_util_data_foldl (g : nat -> gset nat -> gset nat) js :
  forall s,
  foldl (fun s cpu => with_update_util_data (g cpu) s) s js =
  with_update_util_data (fun h => foldl (fun h cpu => g cpu h) h js) s.
Proof.
  induction js as [| j js IH]; intros s; cbn [foldl].
  - destruct s; reflexivity.
  - rewrite IH. reflexivity.
Qed.

(** [gov_set_update_util] stores the delay, clears the time of the last
    sample and sets the hook on the processors of the policy. *)
Lemma gov_set_update_util_run policy_dbs delay_us s x pol :
  policy_dbs_objs s !! policy_dbs = Some x ->
  policies s !! pd_policy x = Some pol ->
  gov_set_update_util policy_dbs delay_us s =
  Some (tt,
    with_update_util_data
      (fun h => foldl (fun h cpu => {[cpu]} ∪ h) h (for_each_cpu (cpus pol)))
      (with_policy_dbs_objs
         (insert policy_dbs
            (set_last_sample_time 0
               (set_sample_delay_ns (delay_us * NSEC_PER_USEC) x)))
         (with_trace
            (fun t => t ++ [EvSampleDelay policy_dbs
                              (delay_us * NSEC_PER_USEC)])
            (with_policy_dbs_objs
               (insert policy_dbs
                  (set_sample_delay_ns (delay_us * NSEC_PER_USEC) x)) s)))).
Proof.
  intros Hx Hp. unfold gov_set_update_util, gov_update_sample_delay.
  krun.
  rewrite (for_each_pure
    (fun cpu s0 => with_update_util_data (fun h => {[cpu]} ∪ h) s0))
    by reflexivity.
  rewrite (with_update_util_data_foldl (fun cpu h => {[cpu]} ∪ h)).
  reflexivity.
Qed.

(** START on a governed policy that runs at a known frequency. *)
Lemma governor_start_run src policy s pol policy_dbs pd dbs_p dbs :
  policy_attached s policy pol policy_dbs pd dbs_p dbs ->
  pd_policy pd = policy ->
  cur pol <> 0 ->
  let js := for_each_cpu (cpus pol) in
  let pd1 := set_rate_mult 1 (set_is_shared (policy_is_shared pol) pd) in
  let delay := sampling_rate dbs * NSEC_PER_USEC in
  cpufreq_governor_start src policy s =
  Some (0,
    with_update_util_data
      (fun h => foldl (fun h cpu => {[cpu]} ∪ h) h js)
      (with_policy_dbs_objs
         (insert policy_dbs
            (set_last_sample_time 0 (set_sample_delay_ns delay pd1)))
         (with_trace (fun t => t ++ [EvSampleDelay policy_dbs delay])
            (with_policy_dbs_objs
               (insert policy_dbs (set_sample_delay_ns delay pd1))
               (with_trace (fun t => t ++ [EvGovStart policy])
                  (start_cpus src (ignore_nice_load dbs) (io_is_busy dbs) js
                     (with_policy_dbs_objs (insert policy_dbs pd1) s))))))).
Proof.
  intros (H1 & H2 & H3 & H4 & H5) Hback Hcur js pd1 delay.
  unfold cpufreq_governor_start.
  rewrite (mbind_some _ _ _ _ _ (load_policy_some _ _ _ H1)).
  rewrite H2. cbn [nonnull]. rewrite mbind_ret.
  rewrite (mbind_some _ _ _ _ _ (load_policy_dbs_some _ _ _ H3)).
  unfold truthy at 1.
  destruct (Z.eqb_spec (cur pol) 0) as [E | _]; [contradiction |].
  cbn [negb].
  rewrite (mbind_some _ _ _ _ _ (store_policy_dbs_some _ _ _ _ H3)).
  fold pd1. set (s1 := with_policy_dbs_objs (insert policy_dbs pd1) s).
  rewrite H4. cbn [nonnull]. rewrite mbind_ret.
  rewrite (mbind_some _ _ _ _ _ (load_dbs_data_some s1 _ _ H5)).
  rewrite (mbind_some _ _ s1 tt
             (start_cpus src (ignore_nice_load dbs) (io_is_busy dbs) js s1)).
  2: { apply (for_each_pure
         (fun j s0 => with_cpu_dbs
            (insert j (start_snapshot src (ignore_nice_load dbs)
                         (io_is_busy dbs) j (per_cpu s0 j))) s0)).
       intros j s0. unfold mbind', load_cpu_dbs, store_cpu_dbs,
         start_snapshot.
       destruct (get_cpu_idle_time src j (io_is_busy dbs)) as [idle wall].
       cbn [fst snd]. destruct (truthy (ignore_nice_load dbs)); reflexivity. }
  set (s2 := start_cpus src (ignore_nice_load dbs) (io_is_busy dbs) js s1).
  destruct (start_cpus_frame src (ignore_nice_load dbs) (io_is_busy dbs) js s1)
    as (_ & F2 & F3 & _).
  fold s2 in F2, F3.
  unfold mbind' at 1, emit at 1.
  unfold mbind' at 1.
  rewrite (gov_set_update_util_run policy_dbs (sampling_rate dbs) _ pd1 pol).
  - reflexivity.
  - cbn [policy_dbs_objs with_trace]. rewrite F3. unfold s1.
    cbn [policy_dbs_objs with_policy_dbs_objs]. apply lookup_insert_eq.
  - cbn [policies with_trace]. rewrite F2. unfold s1.
    cbn [policies with_policy_dbs_objs]. unfold pd1.
    cbn [pd_policy set_rate_mult set_is_shared]. rewrite Hback. exact H1.
Qed.

Section Start.

Variable cputime_to_usecs : Z -> Z.

(** C9 -- START on a governed policy that runs at a known frequency
    returns 0 and leaves the time of the last sample at 0, the sample
    delay at the sampling rate and the cached load of every processor of
    the policy at 0.  Hence the first call of the hook after START does
    not find it too early for any time stamp that is at least the sample
    delay (the hook compares the time stamp as a signed 64 bit number,
    which a time stamp below 2^63 is), whatever the time of the last
    sample was before START, and queues the work when none was pending;
    and in the first [dbs_update] after START
    the load of every processor that the sample considers is computed
    from the deltas against the counters START read, however long the
    gap is, and not taken from the cache. *)
Theorem governor_start_forces_fresh_sample
  src policy s pol policy_dbs pd dbs_p dbs :
  policy_attached s policy pol policy_dbs pd dbs_p dbs ->
  pd_policy pd = policy ->
  cur pol <> 0 ->
  exists s' pd',
    cpufreq_governor_start src policy s = Some (0, s') /\
    policy_attached s' policy pol policy_dbs pd' dbs_p dbs /\
    last_sample_time pd' = 0 /\
    sample_delay_ns pd' = sampling_rate dbs * NSEC_PER_USEC /\
    rate_mult pd' = 1 /\
    (forall j, j ∈ for_each_cpu (cpus pol) ->
       prev_load (per_cpu s' j) = 0) /\
    (forall time,
       sample_delay_ns pd' <= s64 (u64 time) -> too_early time pd' = false) /\
    (forall time,
       0 <= time < 2 ^ 63 -> sample_delay_ns pd' <= time ->
       too_early time pd' = false /\
       (work_in_progress pd = false -> work_count pd = 0 ->
        snd (util_handler time pd') = true)) /\
    (forall src2 j,
       j ∈ for_each_cpu (cpus pol) ->
       let ign := ignore_nice_load dbs in
       let io := io_is_busy dbs in
       let sr := u32 (sampling_rate dbs * rate_mult pd') in
       let w := wall_delta src2 io j (per_cpu s' j) in
       let i := idle_delta cputime_to_usecs src2 ign io j (per_cpu s' j) in
       w <> 0 -> i <= w ->
       w = u32 (snd (get_cpu_idle_time src2 j io)
                - snd (get_cpu_idle_time src j io)) /\
       exists load s2,
         dbs_update cputime_to_usecs src2 policy s' = Some (load, s2) /\
         cpu_load cputime_to_usecs src2 ign io sr s' j
           = Some (u32 (100 * (w - i)) / w) /\
         prev_load (per_cpu s2 j) = u32 (100 * (w - i)) / w).
Proof.
  intros Hat Hback Hcur.
  pose proof (governor_start_run src policy s pol policy_dbs pd dbs_p dbs
                Hat Hback Hcur) as Hrun.
  cbv zeta in Hrun.
  set (js := for_each_cpu (cpus pol)) in *.
  set (pd1 := set_rate_mult 1 (set_is_shared (policy_is_shared pol) pd)) in *.
  set (delay := sampling_rate dbs * NSEC_PER_USEC) in *.
  set (s1 := with_policy_dbs_objs (insert policy_dbs pd1) s) in *.
  set (s2 := start_cpus src (ignore_nice_load dbs) (io_is_busy dbs) js s1)
    in *.
  set (pd' := set_last_sample_time 0 (set_sample_delay_ns delay pd1)) in *.
  destruct Hat as (H1 & H2 & H3 & H4 & H5).
  destruct (start_cpus_frame src (ignore_nice_load dbs) (io_is_busy dbs) js s1)
    as (_ & F2 & F3 & F4 & _).
  fold s2 in F2, F3, F4.
  eexists. exists pd'. split; [exact Hrun |].
  assert (Hpc : forall j,
    per_cpu
      (with_update_util_data
         (fun h => foldl (fun h cpu => {[cpu]} ∪ h) h js)
         (with_policy_dbs_objs (insert policy_dbs pd')
            (with_trace (fun t => t ++ [EvSampleDelay policy_dbs delay])
               (with_policy_dbs_objs
                  (insert policy_dbs (set_sample_delay_ns delay pd1))
                  (with_trace (fun t => t ++ [EvGovStart policy]) s2))))) j
    = per_cpu s2 j) by reflexivity.
  assert (Hat' : policy_attached
    (with_update_util_data
       (fun h => foldl (fun h cpu => {[cpu]} ∪ h) h js)
       (with_policy_dbs_objs (insert policy_dbs pd')
          (with_trace (fun t => t ++ [EvSampleDelay policy_dbs delay])
             (with_policy_dbs_objs
                (insert policy_dbs (set_sample_delay_ns delay pd1))
                (with_trace (fun t => t ++ [EvGovStart policy]) s2)))))
    policy pol policy_dbs pd' dbs_p dbs).
  { unfold policy_attached.
    cbn [policies policy_dbs_objs dbs_data_objs with_update_util_data
         with_policy_dbs_objs with_trace].
    rewrite F2, F4. unfold s1.
    cbn [policies dbs_data_objs with_policy_dbs_objs].
    rewrite lookup_insert_eq. repeat split; assumption. }
  split; [exact Hat' |].
  split; [reflexivity |]. split; [reflexivity |]. split; [reflexivity |].
  split.
  { intros j Hj. rewrite Hpc.
    apply (start_cpus_visited src (ignore_nice_load dbs) (io_is_busy dbs)
             js s1 j Hj). }
  assert (Hearly : forall time,
    sample_delay_ns pd' <= s64 (u64 time) -> too_early time pd' = false).
  { intros time Ht. unfold too_early.
    change (last_sample_time pd') with 0. rewrite Z.sub_0_r.
    destruct (Z.ltb_spec (s64 (u64 time)) (sample_delay_ns pd'));
      [lia | reflexivity]. }
  split; [exact Hearly |]. split.
  { intros time Hrange Ht.
    assert (He : too_early time pd' = false)
      by (apply Hearly; rewrite s64_small; assumption).
    split; [exact He |]. intros Hwip Hcount.
    apply util_handler_queues; [exact Hwip | exact He |].
    intros _. change (work_count pd') with (work_count pd).
    rewrite Hcount. discriminate. }
  intros src2 j Hj ign io sr w i Hw Hi.
  destruct (start_cpus_visited src (ignore_nice_load dbs) (io_is_busy dbs)
              js s1 j Hj) as (Hzero & Hwall & _).
  rewrite <- Hpc in Hzero, Hwall.
  split.
  { unfold w, wall_delta. rewrite Hwall. reflexivity. }
  destruct (dbs_update_considered cputime_to_usecs src2 _ policy pol
              policy_dbs pd' dbs_p dbs j Hat' Hj Hw Hi)
    as (load & s3 & Hrun2 & Hcase & _ & _).
  exists load, s3. split; [exact Hrun2 |].
  fold ign io sr w i in Hcase. rewrite Hzero in Hcase.
  replace (truthy 0) with false in Hcase by reflexivity.
  rewrite andb_false_r in Hcase. exact Hcase.
Qed.

End Start.

(** ** The hook on a shared policy *)

(** The step machine is the hook: a call that runs alone ends as
    [util_handler] says. *)
Lemma hook_run_alone time pd :
  hook_run 10 time HCheckWork pd =
  (HDone (snd (util_handler time pd)), fst (util_handler time pd)).
Proof.
  unfold util_handler, atomic_add_unless.
  destruct pd as [p lst delay count d mult shared wip].
  cbn [work_in_progress last_sample_time sample_delay_ns is_shared
       work_count].
  destruct wip; [reflexivity |].
  destruct (s64 (u64 (time - lst)) <? delay) eqn:Hearly;
    [| destruct shared; [destruct (count =? 1) eqn:Hcount |]];
    repeat (cbn [hook_run hook_step work_in_progress last_sample_time
                 sample_delay_ns is_shared work_count negb set_work_count
                 fst snd];
            unfold atomic_add_unless;
            rewrite ?Hearly, ?Hcount, ?Z.eqb_refl);
    reflexivity.
Qed.

Lemma hook_step_left time pc pd :
  (forall q, pc <> HDone q) ->
  (hook_left (fst (hook_step time pc pd)) < hook_left pc)%nat.
Proof.
  intros Hpc.
  destruct pc; unfold hook_step, atomic_add_unless;
    repeat match goal with
           | |- context [if ?b then _ else _] => destruct b
           end; cbn [fst hook_left]; try lia.
  exfalso. apply (Hpc queued). reflexivity.
Qed.

Lemma hook_unfinished c :
  hook_finished c = false -> forall q, hc_pc c <> HDone q.
Proof.
  unfold hook_finished. intros H q E. rewrite E in H. discriminate.
Qed.

Lemma sum_list_insert {A} (f : A -> nat) (l : list A) : forall i x y,
  l !! i = Some x ->
  (sum_list (f <$> <[i := y]> l) + f x = sum_list (f <$> l) + f y)%nat.
Proof.
  induction l as [| a l IH]; intros i x y Hi; [destruct i; discriminate |].
  destruct i as [| i]; csimpl in *.
  - injection Hi as ->. lia.
  - specialize (IH i x y Hi). lia.
Qed.

Lemma hook_sys_step_left sys sys' :
  hook_sys_step sys sys' -> (hook_sys_left sys' < hook_sys_left sys)%nat.
Proof.
  intros [i c sys0 Hi Hf]. unfold hook_sys_left, hook_sys_next.
  pose proof (hook_step_left (hc_time c) (hc_pc c) (hs_obj sys0)
                (hook_unfinished c Hf)) as Hlt.
  destruct (hook_step (hc_time c) (hc_pc c) (hs_obj sys0)) as [pc' pd'].
  cbn [fst hs_calls] in *.
  pose proof (sum_list_insert (fun c => hook_left (hc_pc c)) (hs_calls sys0)
                i c (mk_hook_call (hc_time c) pc') Hi) as Hs.
  cbn [hc_pc] in Hs. lia.
Qed.

(** While a call has not returned the system can take a step, and it
    cannot take steps for ever: the calls can all run to their return. *)
Lemma hook_sys_completes : forall n sys,
  (hook_sys_left sys <= n)%nat ->
  exists sys', rtc hook_sys_step sys sys' /\ all_finished sys'.
Proof.
  induction n as [| n IH]; intros sys Hn.
  - exists sys. split; [apply rtc_refl |].
    unfold all_finished, hook_sys_left in *.
    induction (hs_calls sys) as [| c l IHl]; [constructor |].
    cbn in Hn. constructor.
    + unfold hook_finished.
      destruct (hc_pc c); csimpl in Hn; first [reflexivity | lia].
    + apply IHl. csimpl in Hn. lia.
  - destruct (decide (Forall (fun c => hook_finished c = true) (hs_calls sys)))
      as [Hall | Hnot].
    + exists sys. split; [apply rtc_refl | exact Hall].
    + apply not_Forall_Exists in Hnot; [| intros c; apply _].
      apply Exists_exists in Hnot as (c & Hc & Hf).
      apply list_elem_of_lookup in Hc as [i Hi].
      assert (Hf' : hook_finished c = false)
        by (destruct (hook_finished c) eqn:E; [contradiction | reflexivity]).
      pose proof (hook_sys_step_at i c sys Hi Hf') as Hstep.
      pose proof (hook_sys_step_left _ _ Hstep) as Hlt.
      destruct (IH (hook_sys_next i c sys)) as (sys' & Hrtc & Hfin); [lia |].
      exists sys'. split; [| exact Hfin].
      eapply rtc_l; eassumption.
Qed.

Section SharedHook.

(** The time of the last sample and the sample delay when the calls
    start. *)
Variables L D : Z.

(** A step of a call before the gate, while the counter is free. *)
Lemma hook_step_before_gate time pc pd :
  is_shared pd = true -> sample_delay_ns pd = D ->
  work_count pd = 0 -> work_in_progress pd = false ->
  last_sample_time pd = L ->
  before_gate L pc -> D <= s64 (u64 (time - L)) ->
  pc <> HQueue /\
  ((before_gate L (fst (hook_step time pc pd)) /\
    snd (hook_step time pc pd) = pd)
   \/
   (fst (hook_step time pc pd) = HRecheck L /\
    snd (hook_step time pc pd) = set_work_count 1 pd)).
Proof.
  intros Hsh Hd Hc Hw Hl Hpc Ht.
  destruct pc; cbn [before_gate] in Hpc; try contradiction;
    (split; [discriminate |]); unfold hook_step; cbn [fst snd].
  - rewrite Hw. left. split; [exact I | reflexivity].
  - left. split; [exact Hl | reflexivity].
  - rewrite Hpc, Hd.
    destruct (Z.ltb_spec (s64 (u64 (time - L))) D); [lia |].
    left. split; reflexivity.
  - rewrite Hsh, Hpc. left. split; reflexivity.
  - unfold atomic_add_unless. rewrite Hc, Hpc. right. split; reflexivity.
Qed.

(** A step of the call that holds the counter. *)
Lemma hook_step_winner time pc pd queued :
  winner pc pd queued -> (forall q, pc <> HDone q) ->
  winner (fst (hook_step time pc pd)) (snd (hook_step time pc pd))
    (match pc with HQueue => S queued | _ => queued end) /\
  work_count (snd (hook_step time pc pd)) = work_count pd /\
  is_shared (snd (hook_step time pc pd)) = is_shared pd /\
  sample_delay_ns (snd (hook_step time pc pd)) = sample_delay_ns pd.
Proof.
  intros Hwin Hpc.
  destruct pc; cbn [winner] in Hwin; try contradiction; unfold hook_step;
    cbn [fst snd].
  - destruct Hwin as [-> ->]. rewrite Z.eqb_refl. repeat split.
  - subst. repeat split.
  - subst. repeat split.
  - subst. repeat split.
  - exfalso. apply (Hpc queued0). reflexivity.
Qed.

(** A step of another call while the counter is held. *)
Lemma hook_step_not_winner time pc pd :
  is_shared pd = true -> work_count pd = 1 ->
  not_winner pc -> (forall q, pc <> HDone q) ->
  pc <> HQueue /\
  not_winner (fst (hook_step time pc pd)) /\
  work_count (snd (hook_step time pc pd)) = 1 /\
  is_shared (snd (hook_step time pc pd)) = true /\
  sample_delay_ns (snd (hook_step time pc pd)) = sample_delay_ns pd /\
  last_sample_time (snd (hook_step time pc pd)) = last_sample_time pd.
Proof.
  intros Hsh Hc Hpc Hnd.
  destruct pc; cbn [not_winner] in Hpc; try contradiction;
    (split; [discriminate |]); unfold hook_step.
  - destruct (work_in_progress pd); repeat split; assumption.
  - repeat split; assumption.
  - destruct (s64 (u64 (time - lst)) <? sample_delay_ns pd);
      repeat split; assumption.
  - rewrite Hsh. repeat split; assumption.
  - unfold atomic_add_unless. rewrite Hc. cbn [Z.eqb Pos.eqb fst snd].
    repeat split; assumption.
  - exfalso. apply (Hnd queued). reflexivity.
Qed.

Lemma winner_frame pc pd pd' queued :
  last_sample_time pd' = last_sample_time pd ->
  winner pc pd queued -> winner pc pd' queued.
Proof. intros E. destruct pc; cbn [winner]; try rewrite E; auto. Qed.

Lemma before_gate_not_winner pc : before_gate L pc -> not_winner pc.
Proof. destruct pc; cbn; intros H; first [exact I | contradiction]. Qed.

(** The invariant holds when the calls start and every step keeps it. *)
Lemma hook_inv_init pd times :
  is_shared pd = true -> work_in_progress pd = false -> work_count pd = 0 ->
  last_sample_time pd = L -> sample_delay_ns pd = D ->
  Forall (fun t => too_early t pd = false) times ->
  hook_inv L D (hook_sys_init pd times).
Proof.
  intros Hsh Hw Hc Hl Hd Ht. unfold hook_inv, hook_sys_init.
  cbn [hs_obj hs_calls hs_queued].
  split; [exact Hsh |]. split; [exact Hd |]. left.
  repeat (split; [assumption || reflexivity |]).
  apply Forall_fmap. eapply Forall_impl; [exact Ht |].
  intros t Het. cbn [hc_pc hc_time before_gate]. split; [exact I |].
  unfold too_early in Het. rewrite Hl, Hd in Het.
  apply Z.ltb_ge in Het. exact Het.
Qed.

Lemma hook_inv_step sys sys' :
  hook_inv L D sys -> hook_sys_step sys sys' -> hook_inv L D sys'.
Proof.
  intros Hinv Hstep. destruct Hstep as [i c sys0 Hi Hf].
  destruct Hinv as (Hsh & Hd & Hcase).
  pose proof (hook_unfinished c Hf) as Hnd.
  pose proof (lookup_lt_Some _ _ _ Hi) as Hlen.
  unfold hook_inv, hook_sys_next.
  destruct Hcase as [(Hc & Hw & Hl & Hq & Hall) | (Hc & iw & w & Hw & Hwin & Hoth)].
  - pose proof (proj1 (Forall_lookup _ _) Hall i c Hi) as (Hpc & Ht).
    destruct (hook_step_before_gate (hc_time c) (hc_pc c) (hs_obj sys0)
                Hsh Hd Hc Hw Hl Hpc Ht) as (Hnq & Hstep).
    destruct (hook_step (hc_time c) (hc_pc c) (hs_obj sys0)) as [pc' pd'].
    cbn [fst snd hs_obj hs_calls hs_queued] in *.
    assert (Hq' : match hc_pc c with
                  | HQueue => S (hs_queued sys0)
                  | _ => hs_queued sys0
                  end = 0%nat)
      by (destruct (hc_pc c); try exact Hq; contradiction).
    rewrite Hq'.
    destruct Hstep as [(Hpc' & ->) | (-> & ->)].
    + split; [exact Hsh |]. split; [exact Hd |]. left.
      repeat (split; [assumption || reflexivity |]).
      apply Forall_insert; [exact Hall |]. split; assumption.
    + split; [exact Hsh |]. split; [exact Hd |]. right.
      split; [reflexivity |].
      exists i, (mk_hook_call (hc_time c) (HRecheck L)).
      split; [apply list_lookup_insert_eq; exact Hlen |].
      split; [cbn [hc_pc winner last_sample_time set_work_count];
              split; [symmetry; exact Hl | reflexivity] |].
      intros j c' Hj Hc'. rewrite list_lookup_insert_ne in Hc' by auto.
      apply before_gate_not_winner.
      apply (proj1 (Forall_lookup _ _) Hall j c' Hc').
  - destruct (decide (i = iw)) as [-> | Hne].
    + rewrite Hi in Hw. injection Hw as <-.
      destruct (hook_step_winner (hc_time c) (hc_pc c) (hs_obj sys0)
                  (hs_queued sys0) Hwin Hnd) as (Hwin' & Hc' & Hsh' & Hd').
      destruct (hook_step (hc_time c) (hc_pc c) (hs_obj sys0)) as [pc' pd'].
      cbn [fst snd hs_obj hs_calls hs_queued] in *.
      split; [congruence |]. split; [congruence |]. right.
      split; [congruence |].
      exists iw, (mk_hook_call (hc_time c) pc').
      split; [apply list_lookup_insert_eq; exact Hlen |].
      split; [exact Hwin' |].
      intros j c' Hj Hcj. rewrite list_lookup_insert_ne in Hcj by auto.
      apply (Hoth j c' Hj Hcj).
    + pose proof (Hoth i c Hne Hi) as Hpc.
      destruct (hook_step_not_winner (hc_time c) (hc_pc c) (hs_obj sys0)
                  Hsh Hc Hpc Hnd)
        as (Hnq & Hpc' & Hc' & Hsh' & Hd' & Hl').
      destruct (hook_step (hc_time c) (hc_pc c) (hs_obj sys0)) as [pc' pd'].
      cbn [fst snd hs_obj hs_calls hs_queued] in *.
      assert (Hq' : match hc_pc c with
                    | HQueue => S (hs_queued sys0)
                    | _ => hs_queued sys0
                    end = hs_queued sys0)
        by (destruct (hc_pc c); try reflexivity; contradiction).
      rewrite Hq'.
      split; [exact Hsh' |]. split; [congruence |]. right.
      split; [exact Hc' |].
      exists iw, w.
      split; [rewrite list_lookup_insert_ne by auto; exact Hw |].
      split; [apply (winner_frame _ (hs_obj sys0)); assumption |].
      intros j c' Hj Hcj.
      destruct (decide (j = i)) as [-> | Hji].
      * rewrite list_lookup_insert_eq in Hcj by exact Hlen.
        injection Hcj as <-. exact Hpc'.
      * rewrite list_lookup_insert_ne in Hcj by auto.
        apply (Hoth j c' Hj Hcj).
Qed.

Lemma hook_inv_rtc sys sys' :
  hook_inv L D sys -> rtc hook_sys_step sys sys' -> hook_inv L D sys'.
Proof.
  intros Hinv Hrtc. induction Hrtc as [| x y z Hstep _ IH]; [exact Hinv |].
  apply IH. apply (hook_inv_step x y); assumption.
Qed.

(** Under the invariant the irq work was queued at most once, and once
    when every call has returned. *)
Lemma hook_inv_queued sys :
  hook_inv L D sys ->
  (hs_queued sys <= 1)%nat /\
  (hs_calls sys <> [] -> all_finished sys -> hs_queued sys = 1%nat).
Proof.
  intros (_ & _ & [(_ & _ & _ & Hq & Hall) | (_ & iw & w & Hw & Hwin & _)]).
  - split; [lia |]. intros Hne Hfin. exfalso. unfold all_finished in Hfin.
    destruct (hs_calls sys) as [| c l]; [contradiction |].
    apply Forall_cons in Hall as [[Hpc _] _].
    apply Forall_cons in Hfin as [Hf _].
    unfold hook_finished in Hf.
    destruct (hc_pc c); cbn in Hpc; try discriminate; contradiction.
  - split.
    + destruct (hc_pc w) as [| | | | | | | | | | []]; cbn [winner] in Hwin;
        try contradiction; try destruct Hwin; lia.
    + intros _ Hfin.
      pose proof (proj1 (Forall_lookup _ _) Hfin iw w Hw) as Hf.
      unfold hook_finished in Hf.
      destruct (hc_pc w) as [| | | | | | | | | | []]; cbn [winner] in Hwin;
        try discriminate; try contradiction; exact Hwin.
Qed.

End SharedHook.

Lemma hook_sys_step_length sys sys' :
  rtc hook_sys_step sys sys' ->
  length (hs_calls sys') = length (hs_calls sys).
Proof.
  intros Hrtc. induction Hrtc as [| x y z Hstep _ IH]; [reflexivity |].
  rewrite IH. destruct Hstep as [i c sys0 Hi Hf]. unfold hook_sys_next.
  destruct (hook_step (hc_time c) (hc_pc c) (hs_obj sys0)) as [pc' pd'].
  cbn [hs_calls]. apply length_insert.
Qed.

(** C3 -- On a shared policy with no work in progress and a free
    counter, let two or more processors call the hook at times for which
    it is not too early, their accesses to the shared object interleaved
    in any order.  Then the irq work is queued at most once at any point
    of any interleaving, and exactly once when all calls have returned
    (which they can: the calls run to their return).  The gate is the
    counter: [atomic_add_unless] increments it only when it is not at its
    cap 1, so the first call to reach it goes on and a call that finds it
    at 1 returns at once, leaving the object as it is; and a call that
    passed the gate and finds [last_sample_time] changed since its first
    read sets the counter back to 0 and returns without queueing. *)
Theorem shared_hook_escalates_exactly_once pd times :
  is_shared pd = true ->
  work_in_progress pd = false ->
  work_count pd = 0 ->
  (2 <= length times)%nat ->
  Forall (fun t => too_early t pd = false) times ->
  (forall sys,
     rtc hook_sys_step (hook_sys_init pd times) sys ->
     (hs_queued sys <= 1)%nat /\
     (all_finished sys -> hs_queued sys = 1%nat)) /\
  (exists sys,
     rtc hook_sys_step (hook_sys_init pd times) sys /\ all_finished sys) /\
  (forall time lst obj,
     work_count obj = 1 ->
     hook_step time (HAddUnless lst) obj = (HDone false, obj)) /\
  (forall time lst obj,
     work_count obj = 0 ->
     hook_step time (HAddUnless lst) obj
       = (HRecheck lst, set_work_count 1 obj)) /\
  (forall time lst obj,
     lst <> last_sample_time obj ->
     hook_run 2 time (HRecheck lst) obj
       = (HDone false, set_work_count 0 obj)).
Proof.
  intros Hsh Hw Hc Hlen Ht.
  pose proof (hook_inv_init (last_sample_time pd) (sample_delay_ns pd) pd
                times Hsh Hw Hc eq_refl eq_refl Ht) as Hinit.
  split.
  { intros sys Hrtc.
    pose proof (hook_inv_rtc _ _ _ _ Hinit Hrtc) as Hinv.
    destruct (hook_inv_queued _ _ _ Hinv) as (Hle & Hfin).
    split; [exact Hle |]. apply Hfin.
    pose proof (hook_sys_step_length _ _ Hrtc) as Hl.
    unfold hook_sys_init in Hl. cbn [hs_calls] in Hl.
    rewrite length_fmap in Hl.
    intros E. rewrite E in Hl. cbn [length] in Hl. lia. }
  split.
  { apply (hook_sys_completes (hook_sys_left (hook_sys_init pd times))).
    lia. }
  split.
  { intros time lst obj Hobj. unfold hook_step, atomic_add_unless.
    rewrite Hobj. cbn [Z.eqb Pos.eqb].
    destruct obj; cbn [work_count] in Hobj; subst; reflexivity. }
  split.
  { intros time lst obj Hobj. unfold hook_step, atomic_add_unless.
    rewrite Hobj. reflexivity. }
  intros time lst obj Hne. cbn [hook_run hook_step].
  destruct (Z.eqb_spec lst (last_sample_time obj)) as [E | _];
    [contradiction | reflexivity].
Qed.

(** ** The statements at work on the example policy *)

Lemma cached_loads_bounded_map s :
  map_Forall (fun _ c => 0 <= prev_load c <= 100) (cpu_dbs s) ->
  cached_loads_bounded s.
Proof.
  intros H j. unfold per_cpu.
  destruct (cpu_dbs s !! j) as [c |] eqn:E; [apply (H j c E) |].
  cbn. lia.
Qed.

Lemma ex_started_attached :
  policy_attached ex_started 7%nat ex_pol 0%nat ex_pd 0%nat ex_dbs.
Proof. vm_compute. repeat split. Defined.


Lemma ex_inited_attached :
  policy_attached ex_inited 7%nat ex_pol 0%nat ex_pd_inited 0%nat ex_dbs.
Proof. vm_compute. repeat split. Defined.

(** The first sample after START: both processors were busy for 8000 of
    10000 microseconds. *)
Lemma dbs_update_load_is_bounded_maximum_witness :
  policy_attached ex_started 7%nat ex_pol 0%nat ex_pd 0%nat ex_dbs /\
  cached_loads_bounded ex_started /\
  exists load s',
    dbs_update (fun x => x) (ex_clock 3000 15000) 7%nat ex_started
      = Some (load, s') /\
    0 <= load <= 100.
Proof.
  assert (Hinv : cached_loads_bounded ex_started).
  { apply cached_loads_bounded_map. refine (bool_decide_unpack _ _).
    vm_compute. exact I. }
  split; [exact ex_started_attached |]. split; [exact Hinv |].
  destruct (dbs_update_load_is_bounded_maximum (fun x => x)
              (ex_clock 3000 15000) ex_started 7%nat ex_pol 0%nat ex_pd
              0%nat ex_dbs ex_started_attached Hinv)
    as (load & s' & Hrun & Hb & _).
  exists load, s'. split; assumption.
Defined.



(** Both processors of the started policy call the hook 60 ms after
    START, the delay being 50 ms: the work is queued once. *)
Lemma shared_hook_escalates_exactly_once_witness :
  is_shared ex_pd = true /\
  work_in_progress ex_pd = false /\
  work_count ex_pd = 0 /\
  (2 <= length ex_times)%nat /\
  Forall (fun t => too_early t ex_pd = false) ex_times /\
  exists sys,
    rtc hook_sys_step (hook_sys_init ex_pd ex_times) sys /\
    all_finished sys /\ hs_queued sys = 1%nat.
Proof.
  assert (Ht : Forall (fun t => too_early t ex_pd = false) ex_times)
    by (repeat constructor).
  assert (Hlen : (2 <= length ex_times)%nat) by (cbn; lia).
  repeat (split; [first [reflexivity | assumption] |]).
  destruct (shared_hook_escalates_exactly_once ex_pd ex_times
              eq_refl eq_refl eq_refl Hlen Ht)
    as (Hsafe & (sys & Hrtc & Hfin) & _).
  exists sys. split; [exact Hrtc |]. split; [exact Hfin |].
  apply (Hsafe sys Hrtc). exact Hfin.
Defined.

(** The rate 10000 is stored on the started policy, whose delay was 50 ms. *)
Lemma store_sampling_rate_takes_effect_witness :
  ex_sscanf_u "10000" = (1, 10000) /\
  dbs_data_objs ex_started !! 0%nat = Some ex_dbs /\
  (forall pd, pd ∈ policy_list (attr_set ex_dbs) ->
     is_Some (policy_dbs_objs ex_started !! pd)) /\
  exists s',
    store_sampling_rate ex_sscanf_u 0%nat "10000" 5 ex_started
      = Some (5, s') /\
    sampling_rate <$> dbs_data_objs s' !! 0%nat = Some 10000 /\
    sample_delay_ns <$> policy_dbs_objs s' !! 0%nat = Some 0.
Proof.
  assert (Hscan : ex_sscanf_u "10000" = (1, 10000))
    by (vm_compute; reflexivity).
  assert (Hd : dbs_data_objs ex_started !! 0%nat = Some ex_dbs)
    by (vm_compute; reflexivity).
  assert (Hpd : policy_dbs_objs ex_started !! 0%nat = Some ex_pd)
    by (vm_compute; reflexivity).
  assert (Hall : forall pd, pd ∈ policy_list (attr_set ex_dbs) ->
                   is_Some (policy_dbs_objs ex_started !! pd)).
  { intros pd Hin. apply list_elem_of_singleton in Hin. subst pd.
    exists ex_pd. exact Hpd. }
  split; [exact Hscan |]. split; [exact Hd |]. split; [exact Hall |].
  destruct (store_sampling_rate_takes_effect ex_sscanf_u 0%nat "10000" 5
              ex_started 10000 ex_dbs Hscan Hd Hall)
    as (s' & Hrun & Hdbs & Hlist & _).
  exists s'. split; [exact Hrun |]. split.
  - rewrite Hdbs, lookup_insert_eq. reflexivity.
  - destruct (Hlist 0%nat ex_pd (list_elem_of_here _ _) Hpd) as [-> _].
    reflexivity.
Defined.

(** Letters are not a number. *)
Lemma store_sampling_rate_rejects_malformed_witness :
  fst (ex_sscanf_u "fast") <> 1 /\
  store_sampling_rate ex_sscanf_u 0%nat "fast" 4 ex_started
    = Some (- EINVAL, ex_started).
Proof.
  assert (H : fst (ex_sscanf_u "fast") <> 1)
    by (vm_compute; intros E; discriminate E).
  split; [exact H |].
  exact (store_sampling_rate_rejects_malformed ex_sscanf_u 0%nat "fast" 4
           ex_started H).
Defined.

(** A write of the sampling rate to tunables no policy uses. *)
Lemma governor_store_busy_when_unused_witness :
  dbs_data_objs ex_unused !! 0%nat = Some ex_dbs_unused /\
  usage_count (attr_set ex_dbs_unused) = 0 /\
  governor_store 0%nat (store_sampling_rate ex_sscanf_u) "10000" 5 ex_unused
    = Some (- EBUSY,
            with_trace (fun t => t ++ [EvMutexLock (update_lock 0%nat);
                                       EvMutexUnlock (update_lock 0%nat)])
              ex_unused).
Proof.
  assert (Hd : dbs_data_objs ex_unused !! 0%nat = Some ex_dbs_unused)
    by (vm_compute; reflexivity).
  split; [exact Hd |]. split; [reflexivity |].
  exact (proj1 (governor_store_busy_when_unused 0%nat "10000" 5 ex_unused
                  ex_dbs_unused Hd) eq_refl (store_sampling_rate ex_sscanf_u)).
Defined.

(** The maximum of the started policy was lowered to 600 MHz while it
    runs at 800 MHz. *)
Lemma governor_limits_clamps_frequency_witness :
  policies ex_limited !! 7%nat = Some ex_pol_limited /\
  governor_data ex_pol_limited = Some 0%nat /\
  policy_dbs_objs ex_limited !! 0%nat = Some ex_pd /\
  exists s',
    ex_governor_dbs (ex_clock 0 0) 7%nat CPUFREQ_GOV_LIMITS ex_limited
      = Some (0, s') /\
    trace s' =
      trace ex_limited
      ++ [EvMutexLock (timer_mutex 0%nat);
          EvDriverTarget 7%nat 600000 CPUFREQ_RELATION_H;
          EvSampleDelay 0%nat 0; EvMutexUnlock (timer_mutex 0%nat)].
Proof.
  assert (Hp : policies ex_limited !! 7%nat = Some ex_pol_limited)
    by (vm_compute; reflexivity).
  assert (Hpd : policy_dbs_objs ex_limited !! 0%nat = Some ex_pd)
    by (vm_compute; reflexivity).
  split; [exact Hp |]. split; [reflexivity |]. split; [exact Hpd |].
  destruct (governor_limits_clamps_frequency false ex_driver_target 20 1000
              (fun _ => true) (fun _ => true) (fun _ => 0) ex_gov_init
              (ex_clock 0 0) 7%nat ex_limited ex_pol_limited 0%nat ex_pd
              Hp eq_refl Hpd)
    as (s' & calls & _ & Hrun & Htrace & Hmax & _).
  exists s'. split; [exact Hrun |].
  rewrite Htrace, Hmax by (cbn; lia). reflexivity.
Defined.

(** POLICY_INIT on the started policy, START on the policy at boot. *)
Lemma governor_dbs_rejects_wrong_state_witness :
  policies ex_started !! 7%nat = Some ex_pol /\
  governor_data ex_pol <> None /\
  ex_governor_dbs (ex_clock 0 0) 7%nat CPUFREQ_GOV_POLICY_INIT ex_started
    = Some (- EBUSY, ex_started) /\
  policies ex_boot !! 7%nat = Some ex_policy /\
  governor_data ex_policy = None /\
  ex_governor_dbs (ex_clock 0 0) 7%nat CPUFREQ_GOV_START ex_boot
    = Some (- EINVAL, ex_boot).
Proof.
  assert (Hp : policies ex_started !! 7%nat = Some ex_pol)
    by (vm_compute; reflexivity).
  assert (Hg : governor_data ex_pol <> None) by discriminate.
  assert (Hb : policies ex_boot !! 7%nat = Some ex_policy)
    by (vm_compute; reflexivity).
  split; [exact Hp |]. split; [exact Hg |]. split.
  - exact (proj1 (proj1 (governor_dbs_rejects_wrong_state false
             ex_driver_target 20 1000 (fun _ => true) (fun _ => true)
             (fun _ => 0) ex_gov_init (ex_clock 0 0) 7%nat ex_started ex_pol
             Hp) Hg)).
  - split; [exact Hb |]. split; [reflexivity |].
    apply (proj2 (governor_dbs_rejects_wrong_state false ex_driver_target
             20 1000 (fun _ => true) (fun _ => true) (fun _ => 0) ex_gov_init
             (ex_clock 0 0) 7%nat ex_boot ex_policy Hb) eq_refl).
    discriminate.
Defined.

(** START of the example policy. *)
Lemma governor_start_forces_fresh_sample_witness :
  policy_attached ex_inited 7%nat ex_pol 0%nat ex_pd_inited 0%nat ex_dbs /\
  pd_policy ex_pd_inited = 7%nat /\
  cur ex_pol <> 0 /\
  exists s' pd',
    cpufreq_governor_start (ex_clock 1000 5000) 7%nat ex_inited
      = Some (0, s') /\
    last_sample_time pd' = 0 /\
    sample_delay_ns pd' = 50000000 /\
    prev_load (per_cpu s' 1%nat) = 0 /\
    too_early 50000000 pd' = false.
Proof.
  assert (Hcur : cur ex_pol <> 0) by (cbn; lia).
  split; [exact ex_inited_attached |]. split; [reflexivity |].
  split; [exact Hcur |].
  destruct (governor_start_forces_fresh_sample (fun x => x)
              (ex_clock 1000 5000) 7%nat ex_inited ex_pol 0%nat ex_pd_inited
              0%nat ex_dbs ex_inited_attached eq_refl Hcur)
    as (s' & pd' & Hrun & _ & Hlst & Hdelay & _ & Hload & _ & Hearly & _).
  exists s', pd'. split; [exact Hrun |]. split; [exact Hlst |].
  split; [exact Hdelay |]. split.
  - apply Hload. apply list_elem_of_further. apply list_elem_of_here.
  - apply Hearly; [split; [lia | reflexivity] |].
    rewrite Hdelay. vm_compute. intros H. discriminate H.
Defined.

(** LIMITS on the started policy, which runs within its bounds. *)
Lemma governor_limits_in_range_only_resets_delay_witness :
  policies ex_started !! 7%nat = Some ex_pol /\
  governor_data ex_pol = Some 0%nat /\
  policy_dbs_objs ex_started !! 0%nat = Some ex_pd /\
  cpufreq_governor_limits ex_driver_target 7%nat ex_started =
  Some (0,
    with_trace
      (fun t => t ++ [EvMutexLock (timer_mutex 0%nat); EvSampleDelay 0%nat 0;
                      EvMutexUnlock (timer_mutex 0%nat)])
      (with_policy_dbs_objs (insert 0%nat (set_sample_delay_ns 0 ex_pd))
         ex_started)).
Proof.
  assert (Hp : policies ex_started !! 7%nat = Some ex_pol)
    by (vm_compute; reflexivity).
  assert (Hpd : policy_dbs_objs ex_started !! 0%nat = Some ex_pd)
    by (vm_compute; reflexivity).
  split; [exact Hp |]. split; [reflexivity |]. split; [exact Hpd |].
  destruct (governor_limits_in_range_only_resets_delay ex_driver_target
              7%nat ex_started ex_pol 0%nat ex_pd Hp eq_refl Hpd)
    as (s' & evs & Hrun & _ & _ & Hin).
  destruct Hin as [_ ->]; [cbn; lia |]. exact Hrun.
Defined.

(** ** The cached loads stay percentages

    The hypothesis of C1 on the cached loads holds in every memory the
    functions of the file can produce from zeroed per-CPU data. *)

Lemma keeps_ret {A} (a : A) : keeps (mreturn a).
Proof. intros s a' s' H [= _ <-]. exact H. Qed.

Lemma keeps_fault {A} : keeps (@fault A).
Proof. intros s a s' _ E. discriminate E. Qed.

Lemma keeps_bind {A B} (m : M A) (k : A -> M B) :
  keeps m -> (forall a, keeps (k a)) -> keeps (mbind' m k).
Proof.
  intros Hm Hk s b s' HI Hrun. unfold mbind' in Hrun.
  destruct (m s) as [[a s1] |] eqn:E; [| discriminate].
  apply (Hk a s1 b s'); [apply (Hm s a s1 HI E) | exact Hrun].
Qed.

(** A computation that leaves the per-CPU data alone. *)
Lemma keeps_frame {A} (m : M A) :
  (forall s a s', m s = Some (a, s') -> cpu_dbs s' = cpu_dbs s) -> keeps m.
Proof.
  intros Hm s a s' HI Hrun j. unfold per_cpu.
  rewrite (Hm s a s' Hrun). apply HI.
Qed.

Lemma keeps_emit e : keeps (emit e).
Proof. apply keeps_frame. intros s a s' [= _ <-]. reflexivity. Qed.

Lemma keeps_load_policy p : keeps (load_policy p).
Proof.
  apply keeps_frame. intros s a s'. unfold load_policy.
  destruct (policies s !! p); intros [= _ <-]. reflexivity.
Qed.

Lemma keeps_store_policy p x : keeps (store_policy p x).
Proof.
  apply keeps_frame. intros s a s'. unfold store_policy.
  destruct (policies s !! p); intros [= _ <-]. reflexivity.
Qed.

Lemma keeps_load_policy_dbs p : keeps (load_policy_dbs p).
Proof.
  apply keeps_frame. intros s a s'. unfold load_policy_dbs.
  destruct (policy_dbs_objs s !! p); intros [= _ <-]. reflexivity.
Qed.

Lemma keeps_store_policy_dbs p x : keeps (store_policy_dbs p x).
Proof.
  apply keeps_frame. intros s a s'. unfold store_policy_dbs.
  destruct (policy_dbs_objs s !! p); intros [= _ <-]. reflexivity.
Qed.

Lemma keeps_load_dbs_data p : keeps (load_dbs_data p).
Proof.
  apply keeps_frame. intros s a s'. unfold load_dbs_data.
  destruct (dbs_data_objs s !! p); intros [= _ <-]. reflexivity.
Qed.

Lemma keeps_store_dbs_data p x : keeps (store_dbs_data p x).
Proof.
  apply keeps_frame. intros s a s'. unfold store_dbs_data.
  destruct (dbs_data_objs s !! p); intros [= _ <-]. reflexivity.
Qed.

Lemma keeps_nonnull {A} (o : option A) : keeps (nonnull o).
Proof. destruct o; [apply keeps_ret | apply keeps_fault]. Qed.

Lemma keeps_for_each {A} (l : list A) (body : A -> M unit) :
  (forall x, keeps (body x)) -> keeps (for_each l body).
Proof.
  intros Hb. induction l as [| x l IH]; cbn [for_each].
  - apply keeps_ret.
  - apply keeps_bind; [apply Hb | intros _; exact IH].
Qed.

(** Reading the data of a processor gives a cached load that is a
    percentage; writing such data back keeps the property. *)
Lemma keeps_load_cpu_dbs {B} j (k : cpu_dbs_info -> M B) :
  (forall c, cached_ok c -> keeps (k c)) -> keeps (mbind' (load_cpu_dbs j) k).
Proof.
  intros Hk s b s' HI Hrun. unfold mbind', load_cpu_dbs in Hrun.
  apply (Hk (per_cpu s j) (HI j) s b s' HI Hrun).
Qed.

Lemma keeps_store_cpu_dbs j c : cached_ok c -> keeps (store_cpu_dbs j c).
Proof.
  intros Hc s a s' HI [= _ <-] k. rewrite per_cpu_insert.
  destruct (decide (j = k)); [exact Hc | apply HI].
Qed.

Lemma keeps_state_update (f : kstate -> kstate) :
  (forall s, cpu_dbs (f s) = cpu_dbs s) ->
  keeps (fun s => Some (tt, f s)).
Proof. intros Hf. apply keeps_frame. intros s a s' [= _ <-]. apply Hf. Qed.

Ltac keeps_step :=
  first
    [ apply keeps_ret | apply keeps_fault | apply keeps_emit
    | apply keeps_load_policy | apply keeps_store_policy
    | apply keeps_load_policy_dbs | apply keeps_store_policy_dbs
    | apply keeps_load_dbs_data | apply keeps_store_dbs_data
    | apply keeps_nonnull
    | progress cbv zeta
    | apply keeps_store_cpu_dbs;
      unfold cached_ok in *;
      repeat match goal with
             | |- context [if ?b then _ else _] => destruct b
             end;
      cbn [prev_load set_prev_cpu_idle set_prev_cpu_wall set_prev_cpu_nice
           set_prev_load set_cdbs_link];
      first [assumption | lia]
    | apply keeps_state_update; intros ?; reflexivity
    | apply keeps_load_cpu_dbs; intros ? ?
    | apply keeps_bind; [| intros ?]
    | apply keeps_for_each; intros ?
    | match goal with
      | |- keeps (if ?b then _ else _) => destruct b
      | |- keeps (match ?o with _ => _ end) => destruct o
      end ].

Ltac keeps_all := repeat keeps_step.

Lemma keeps_gov_update_sample_delay pd delay_us :
  keeps (gov_update_sample_delay pd delay_us).
Proof. unfold gov_update_sample_delay. keeps_all. Qed.

Lemma keeps_dbs_update_util_handler cpu time :
  keeps (dbs_update_util_handler cpu time).
Proof. unfold dbs_update_util_handler. keeps_all. Qed.

Lemma keeps_store_sampling_rate sscanf_u d buf count :
  keeps (store_sampling_rate sscanf_u d buf count).
Proof.
  unfold store_sampling_rate, mutex_lock, mutex_unlock,
    gov_update_sample_delay.
  keeps_all.
Qed.

Lemma keeps_governor_store d gattr_store buf count :
  (forall d b c, keeps (gattr_store d b c)) ->
  keeps (governor_store d gattr_store buf count).
Proof.
  intros Hs. unfold governor_store, mutex_lock, mutex_unlock.
  keeps_all. apply Hs.
Qed.

Lemma keeps_gov_update_cpu_data src d : keeps (gov_update_cpu_data src d).
Proof. unfold gov_update_cpu_data. keeps_all. Qed.

Lemma keeps_dbs_update_loop cputime_to_usecs src ign io sr js :
  forall max_load,
    keeps (dbs_update_loop cputime_to_usecs src ign io sr js max_load).
Proof.
  induction js as [| j js IH]; intros max_load; cbn [dbs_update_loop];
    [apply keeps_ret |].
  apply keeps_load_cpu_dbs. intros c Hc.
  pose proof (dbs_update_cpu_cache_bounded cputime_to_usecs src ign io sr j c
                Hc) as Hb.
  destruct (dbs_update_cpu cputime_to_usecs src ign io sr j c) as [c' l].
  apply keeps_bind; [apply keeps_store_cpu_dbs; exact Hb |].
  intros _. apply IH.
Qed.

Lemma keeps_dbs_update cputime_to_usecs src policy :
  keeps (dbs_update cputime_to_usecs src policy).
Proof. unfold dbs_update. keeps_all. apply keeps_dbs_update_loop. Qed.

(** The example sample of the governor keeps them so. *)
Lemma ex_gov_dbs_timer_keeps src policy : keeps (ex_gov_dbs_timer src policy).
Proof.
  unfold ex_gov_dbs_timer, __cpufreq_driver_target.
  apply keeps_bind; [apply keeps_dbs_update | intros load].
  keeps_all.
Qed.

Section Reachable.

Variable cputime_to_usecs : Z -> Z.
Variable sscanf_u : string -> Z * Z.
Variable have_governor_per_policy : bool.
Variable cpufreq_driver_target :
  cpufreq_policy -> Z -> relation -> cpufreq_policy.
Variable MIN_LATENCY_MULTIPLIER : Z.
Variable LATENCY_MULTIPLIER : Z.
Variable gov_alloc_succeeds : kstate -> bool.
Variable kzalloc_succeeds : kstate -> bool.
Variable kobject_init_and_add : kstate -> Z.
Variable gov_init : dbs_data -> bool -> Z * dbs_data.
Variable gov_dbs_timer : ptr -> M Z.

(** The sample of the governor does to the cached loads what
    [dbs_update] does. *)
Hypothesis gov_dbs_timer_keeps : forall policy, keeps (gov_dbs_timer policy).

Lemma keeps_alloc_policy_dbs_info policy :
  keeps (alloc_policy_dbs_info gov_alloc_succeeds policy).
Proof.
  intros s a s' HI Hrun. unfold alloc_policy_dbs_info in Hrun.
  revert s a s' HI Hrun.
  assert (K : forall s0,
    keeps
      (let* pol := load_policy policy in
       if negb (gov_alloc_succeeds s0) then mreturn None else
       let policy_dbs := fresh (dom (policy_dbs_objs s0)) in
       (fun s' => Some (tt,
          with_policy_dbs_objs (insert policy_dbs policy_dbs_zero) s'));;;
       store_policy_dbs policy_dbs
         (mk_policy_dbs_info policy 0 0 0 None 0 false false);;;
       for_each (for_each_cpu (related_cpus pol)) (fun j =>
         let* j_cdbs := load_cpu_dbs j in
         store_cpu_dbs j (set_cdbs_link (Some policy_dbs) true j_cdbs));;;
       mreturn (Some policy_dbs))).
  { intros s0. keeps_all. }
  intros s a s' HI Hrun. exact (K s s a s' HI Hrun).
Qed.

Lemma keeps_free_policy_dbs_info policy_dbs :
  keeps (free_policy_dbs_info policy_dbs).
Proof. unfold free_policy_dbs_info. keeps_all. Qed.

Lemma keeps_gov_attr_set_put d node : keeps (gov_attr_set_put d node).
Proof. unfold gov_attr_set_put, mutex_lock, mutex_unlock. keeps_all. Qed.

Lemma keeps_gov_set_update_util policy_dbs delay_us :
  keeps (gov_set_update_util policy_dbs delay_us).
Proof.
  unfold gov_set_update_util. keeps_all.
Qed.

Lemma keeps_governor_init policy :
  keeps (cpufreq_governor_init have_governor_per_policy
           MIN_LATENCY_MULTIPLIER LATENCY_MULTIPLIER gov_alloc_succeeds
           kzalloc_succeeds kobject_init_and_add gov_init policy).
Proof.
  unfold cpufreq_governor_init, set_policy_governor_data, set_gdbs_data,
    kfree_dbs_data, gov_attr_set_init, gov_attr_set_get, mutex_lock,
    mutex_unlock.
  keeps_all;
    try apply keeps_alloc_policy_dbs_info;
    try apply keeps_free_policy_dbs_info.
  all: try (apply keeps_frame; intros s0 r s1;
            repeat match goal with
                   | |- context [if ?b then _ else _] => destruct b
                   end; intros [= _ <-]; reflexivity).
Qed.

Lemma keeps_governor_exit policy :
  keeps (cpufreq_governor_exit have_governor_per_policy policy).
Proof.
  unfold cpufreq_governor_exit, set_policy_governor_data, set_gdbs_data,
    kfree_dbs_data, mutex_lock, mutex_unlock.
  keeps_all;
    try apply keeps_gov_attr_set_put;
    try apply keeps_free_policy_dbs_info.
Qed.

Lemma keeps_governor_start src policy :
  keeps (cpufreq_governor_start src policy).
Proof.
  unfold cpufreq_governor_start. keeps_all.
Qed.

Lemma keeps_governor_stop policy : keeps (cpufreq_governor_stop policy).
Proof.
  unfold cpufreq_governor_stop, gov_cancel_work, gov_clear_update_util.
  keeps_all.
Qed.

Lemma keeps_governor_limits policy :
  keeps (cpufreq_governor_limits cpufreq_driver_target policy).
Proof.
  unfold cpufreq_governor_limits, __cpufreq_driver_target, mutex_lock,
    mutex_unlock.
  keeps_all.
Qed.

Lemma keeps_governor_dbs src policy event :
  keeps (cpufreq_governor_dbs have_governor_per_policy cpufreq_driver_target
           MIN_LATENCY_MULTIPLIER LATENCY_MULTIPLIER gov_alloc_succeeds
           kzalloc_succeeds kobject_init_and_add gov_init src policy event).
Proof.
  unfold cpufreq_governor_dbs.
  destruct event; try apply keeps_governor_init;
    (apply keeps_bind; [apply keeps_load_policy | intros pol]);
    destruct (governor_data pol);
    first [ apply keeps_ret | apply keeps_governor_start
          | apply keeps_governor_stop | apply keeps_governor_limits
          | apply keeps_governor_exit ].
Qed.

Lemma keeps_dbs_work_handler policy_dbs :
  keeps (dbs_work_handler gov_dbs_timer policy_dbs).
Proof.
  unfold dbs_work_handler, mutex_lock, mutex_unlock. keeps_all.
  apply gov_dbs_timer_keeps.
Qed.

Local Abbreviation governor_step :=
  (governor_step cputime_to_usecs sscanf_u have_governor_per_policy
     cpufreq_driver_target MIN_LATENCY_MULTIPLIER LATENCY_MULTIPLIER
     gov_alloc_succeeds kzalloc_succeeds kobject_init_and_add gov_init
     gov_dbs_timer).
Local Abbreviation reachable :=
  (reachable cputime_to_usecs sscanf_u have_governor_per_policy
     cpufreq_driver_target MIN_LATENCY_MULTIPLIER LATENCY_MULTIPLIER
     gov_alloc_succeeds kzalloc_succeeds kobject_init_and_add gov_init
     gov_dbs_timer).

Lemma governor_step_keeps s s' :
  cached_loads_bounded s -> governor_step s s' -> cached_loads_bounded s'.
Proof.
  intros HI Hstep. destruct Hstep as
    [src policy event s r s' H | src policy s r s' H | cpu time s r s' H
    | policy_dbs s r s' H | d buf count s r s' H | src d s r s' H
    | s s' H].
  - exact (keeps_governor_dbs src policy event s r s' HI H).
  - exact (keeps_dbs_update cputime_to_usecs src policy s r s' HI H).
  - exact (keeps_dbs_update_util_handler cpu time s r s' HI H).
  - exact (keeps_dbs_work_handler policy_dbs s r s' HI H).
  - refine (keeps_governor_store d _ buf count _ s r s' HI H).
    intros d0 b c. apply keeps_store_sampling_rate.
  - exact (keeps_gov_update_cpu_data src d s r s' HI H).
  - intros j. unfold per_cpu. rewrite H. apply HI.
Qed.

(** Every reachable memory has its cached loads between 0 and 100. *)
Lemma reachable_cached_loads_bounded s :
  reachable s -> cached_loads_bounded s.
Proof.
  intros (s0 & Hzero & Hrtc).
  assert (H0 : cached_loads_bounded s0).
  { intros j. unfold per_cpu. rewrite Hzero, lookup_empty. cbn. lia. }
  clear Hzero. induction Hrtc as [| x y z Hstep _ IH]; [exact H0 |].
  apply IH. apply (governor_step_keeps x y); assumption.
Qed.

(** X18 -- In every memory reached from zeroed per-CPU data by governor
    events, samples, calls of the hook, deferred work (with a governor
    sample that keeps cached loads percentages), writes of the sampling
    rate, refreshes of the snapshots and changes by the rest of the kernel
    that leave the per-CPU data alone, [dbs_update] on a governed policy
    returns, its result is a percentage, and the memory after it is
    reachable again. *)
Corollary reachable_dbs_update_load src s policy pol policy_dbs pd dbs_p dbs :
  reachable s ->
  policy_attached s policy pol policy_dbs pd dbs_p dbs ->
  exists load s',
    dbs_update cputime_to_usecs src policy s = Some (load, s') /\
    0 <= load <= 100 /\ reachable s'.
Proof.
  intros Hreach Hat.
  destruct (dbs_update_sample cputime_to_usecs src s policy pol policy_dbs pd
              dbs_p dbs Hat)
    as (load & s' & Hrun & _ & Hge & _ & Hwit & _).
  assert (Hreach' : reachable s').
  { destruct Hreach as (s0 & Hzero & Hrtc). exists s0.
    split; [exact Hzero |].
    eapply rtc_r; [exact Hrtc |].
    exact (step_sample _ _ _ _ _ _ _ _ _ _ _ src policy s load s' Hrun). }
  exists load, s'. split; [exact Hrun |]. split; [| exact Hreach'].
  split; [exact Hge |].
  destruct Hwit as [-> | (j & _ & Hl)]; [lia |].
  apply (dbs_update_cpu_bounded cputime_to_usecs src (ignore_nice_load dbs)
           (io_is_busy dbs) (u32 (sampling_rate dbs * rate_mult pd)) j
           (per_cpu s j) load).
  - apply reachable_cached_loads_bounded. exact Hreach.
  - exact Hl.
Qed.

End Reachable.

(** ** The code at work *)

(** POLICY_INIT on the policy at boot allocates the governor data and
    derives the rates from the transition latency of 50 us: the minimum
    stays at the 10000 us of the governor, the rate becomes 50000 us. *)
Example ex_policy_init :
  ex_governor_dbs (ex_clock 0 0) 7%nat CPUFREQ_GOV_POLICY_INIT ex_boot
    = Some (0, ex_inited) /\
  policies ex_inited !! 7%nat = Some ex_pol /\
  policy_dbs_objs ex_inited !! 0%nat = Some ex_pd_inited /\
  dbs_data_objs ex_inited !! 0%nat = Some ex_dbs /\
  gdbs_data ex_inited = Some 0%nat.
Proof. vm_compute. repeat split. Qed.

(** START, then STOP and POLICY_EXIT give the memory back but for the
    snapshots of the counters. *)
Example ex_policy_exit :
  let stopped :=
    exec (ex_governor_dbs (ex_clock 0 0) 7%nat CPUFREQ_GOV_STOP) ex_started in
  let exited :=
    exec (ex_governor_dbs (ex_clock 0 0) 7%nat CPUFREQ_GOV_POLICY_EXIT)
      stopped in
  policies exited = policies ex_boot /\
  policy_dbs_objs exited = ∅ /\
  dbs_data_objs exited = ∅ /\
  gdbs_data exited = None /\
  update_util_data exited = ∅.
Proof. vm_compute. repeat split. Qed.

(** The decrease of the sampling rate of section 8 of the specification:
    with the rate lowered at 10 ms the call of the hook at 20 ms queues
    the work a second time; with the rate left at a second it does not. *)
Example ex_sampling_rate_decrease :
  sample_delay_ns <$> policy_dbs_objs ex_rate_1s_sampled !! 0%nat
    = Some 1000000000 /\
  escalations (trace ex_rate_1s_sampled) = 1%nat /\
  escalations (trace ex_decreased) = 2%nat /\
  escalations (trace ex_not_decreased) = 1%nat.
Proof. vm_compute. repeat split. Qed.

(** The hook run on the memory is [util_handler] on the object of the
    processor: the first call 60 ms after START queues the work, the
    second finds it in progress. *)
Example ex_hook_twice :
  let once := exec (dbs_update_util_handler 0%nat 60000000) ex_started in
  let twice := exec (dbs_update_util_handler 1%nat 60000001) once in
  escalations (trace ex_started) = 0%nat /\
  escalations (trace once) = 1%nat /\
  escalations (trace twice) = 1%nat.
Proof. vm_compute. repeat split. Qed.

(** * The life cycle of the governor data *)

(** ** Allocation and release of the per-policy data *)

(** After the loop a visited processor has the new link and hook function
    and nothing else of it has changed; the others are as before. *)
Lemma link_cpus_lookup v f js : forall m k,
  default cpu_dbs_zero (link_cpus v f js m !! k) =
  if decide (k ∈ js)
  then set_cdbs_link v f (default cpu_dbs_zero (m !! k))
  else default cpu_dbs_zero (m !! k).
Proof.
  induction js as [| j js IH]; intros m k.
  - destruct (decide (k ∈ [])) as [H | _]; [inversion H | reflexivity].
  - unfold link_cpus in *. cbn [foldl]. rewrite IH, lookup_insert.
    destruct (decide (k ∈ js)) as [Hin | Hout];
      destruct (decide (k ∈ j :: js)) as [Hin' | Hout'];
      destruct (decide (j = k)) as [-> | Hne]; cbn [default];
      try reflexivity;
      try (exfalso; apply Hout'; apply elem_of_cons; auto; fail).
    apply elem_of_cons in Hin' as [-> | Hin']; contradiction.
Qed.

Lemma link_cpus_foldl v f js : forall s,
  foldl (fun s j =>
           with_cpu_dbs (insert j (set_cdbs_link v f (per_cpu s j))) s) s js =
  with_cpu_dbs (link_cpus v f js) s.
Proof.
  induction js as [| j js IH]; intros s; cbn [foldl].
  - destruct s; reflexivity.
  - rewrite IH. destruct s; reflexivity.
Qed.

Ltac link_loop v f :=
  rewrite (for_each_pure
    (fun j s0 => with_cpu_dbs (insert j (set_cdbs_link v f (per_cpu s0 j))) s0))
    by reflexivity;
  rewrite link_cpus_foldl.

Section Alloc.

Variable gov_alloc_succeeds : kstate -> bool.

Lemma alloc_policy_dbs_info_run policy s pol :
  policies s !! policy = Some pol ->
  gov_alloc_succeeds s = true ->
  let p := fresh (dom (policy_dbs_objs s)) in
  alloc_policy_dbs_info gov_alloc_succeeds policy s =
  Some (Some p,
    mk_kstate
      (link_cpus (Some p) true (for_each_cpu (related_cpus pol)) (cpu_dbs s))
      (update_util_data s) (policies s)
      (<[p := mk_policy_dbs_info policy 0 0 0 None 0 false false]>
         (policy_dbs_objs s))
      (dbs_data_objs s) (gdbs_data s) (trace s)).
Proof.
  intros Hp Ha p. unfold alloc_policy_dbs_info. rewrite Ha. cbn [negb].
  krun. fold p. link_loop (Some p) true. kred.
  rewrite insert_insert_eq. reflexivity.
Qed.

Lemma alloc_policy_dbs_info_fails policy s pol :
  policies s !! policy = Some pol ->
  gov_alloc_succeeds s = false ->
  alloc_policy_dbs_info gov_alloc_succeeds policy s = Some (None, s).
Proof.
  intros Hp Ha. unfold alloc_policy_dbs_info. rewrite Ha. krun. reflexivity.
Qed.

Lemma free_policy_dbs_info_run p s pd pol :
  policy_dbs_objs s !! p = Some pd ->
  policies s !! pd_policy pd = Some pol ->
  free_policy_dbs_info p s =
  Some (tt,
    mk_kstate
      (link_cpus None false (for_each_cpu (related_cpus pol)) (cpu_dbs s))
      (update_util_data s) (policies s) (delete p (policy_dbs_objs s))
      (dbs_data_objs s) (gdbs_data s) (trace s)).
Proof.
  intros Hp Hpol. unfold free_policy_dbs_info. krun.
  link_loop (@None nat) false. kred. reflexivity.
Qed.
End Alloc.

(** Linking and then unlinking the same processors creates no link. *)
Lemma unlink_no_new_link v f js m j q :
  cdbs_policy_dbs
    (default cpu_dbs_zero
       (link_cpus None false js (link_cpus v f js m) !! j)) = Some q ->
  cdbs_policy_dbs (default cpu_dbs_zero (m !! j)) = Some q.
Proof.
  rewrite !link_cpus_lookup.
  destruct (decide (j ∈ js)); [discriminate | auto].
Qed.

Ltac free_run p :=
  erewrite (free_policy_dbs_info_run p);
  [ | cbn [policy_dbs_objs]; apply lookup_insert_eq
    | cbn [policies pd_policy set_pd_dbs_data];
      first [eassumption | apply lookup_insert_eq] ].

(** ** POLICY_INIT *)

Section Init.
Variable have_governor_per_policy : bool.
Variable MIN_LATENCY_MULTIPLIER : Z.
Variable LATENCY_MULTIPLIER : Z.
Variable gov_alloc_succeeds : kstate -> bool.
Variable kzalloc_succeeds : kstate -> bool.
Variable kobject_init_and_add : kstate -> Z.
Variable gov_init : dbs_data -> bool -> Z * dbs_data.

Let governor_init :=
  cpufreq_governor_init have_governor_per_policy MIN_LATENCY_MULTIPLIER
    LATENCY_MULTIPLIER gov_alloc_succeeds kzalloc_succeeds
    kobject_init_and_add gov_init.

(** X1 -- POLICY_INIT of the first policy of a governor, when the
    allocations, [gov->init] and the registration of the kobject succeed:
    it returns 0; the policy points to a new [policy_dbs_info], which points
    back to the policy and to a new [dbs_data]; the tunables are what
    [gov->init] made ([d1]) of zeroed ones that list the policy alone with
    usage count 1, but for the rates: the minimum sampling rate is raised to
    [MIN_LATENCY_MULTIPLIER] times the latency and the sampling rate is the
    larger of it and [LATENCY_MULTIPLIER] times the latency, so the rate is
    never below its minimum; the tunables become the governor's global ones
    unless tunables are per policy; every related processor is linked to
    the new object with the hook function set and keeps its snapshot; no
    hook is installed; [gov_dbs_data_mutex] was taken and released. *)
Theorem governor_init_first_policy policy s pol d1 :
  policies s !! policy = Some pol ->
  governor_data pol = None ->
  gdbs_data s = None ->
  gov_alloc_succeeds s = true ->
  (forall s0, kzalloc_succeeds s0 = true) ->
  (forall s0, kobject_init_and_add s0 = 0) ->
  let p := fresh (dom (policy_dbs_objs s)) in
  let d := fresh (dom (dbs_data_objs s)) in
  gov_init (set_attr_set (mk_gov_attr_set [p] 1) dbs_data_zero)
    (negb (truthy (governor_initialized pol))) = (0, d1) ->
  let min_rate :=
    Z.max (min_sampling_rate d1)
      (u32 (MIN_LATENCY_MULTIPLIER * init_latency pol)) in
  let rate := Z.max min_rate (u32 (LATENCY_MULTIPLIER * init_latency pol)) in
  exists s',
    governor_init policy s = Some (0, s') /\
    policy_dbs_objs s !! p = None /\
    dbs_data_objs s !! d = None /\
    policies s' = <[policy := set_governor_data (Some p) pol]> (policies s) /\
    policy_dbs_objs s' =
      <[p := mk_policy_dbs_info policy 0 0 0 (Some d) 0 false false]>
        (policy_dbs_objs s) /\
    dbs_data_objs s' =
      <[d := set_sampling_rate rate (set_min_sampling_rate min_rate d1)]>
        (dbs_data_objs s) /\
    gdbs_data s' = (if have_governor_per_policy then None else Some d) /\
    min_sampling_rate d1 <= min_rate <= rate /\
    update_util_data s' = update_util_data s /\
    trace s' = trace s ++ [EvMutexLock gov_dbs_data_mutex;
                           EvMutexUnlock gov_dbs_data_mutex] /\
    forall j,
      per_cpu s' j =
      if decide (j ∈ for_each_cpu (related_cpus pol))
      then set_cdbs_link (Some p) true (per_cpu s j)
      else per_cpu s j.
Proof.
  intros Hpol Hgd Hg Ha Hz Hk p d Hinit min_rate rate.
  unfold governor_init, cpufreq_governor_init.
  rewrite (mbind_some _ _ _ _ _ (load_policy_some _ _ _ Hpol)).
  rewrite Hgd.
  rewrite (mbind_some _ _ _ _ _
             (alloc_policy_dbs_info_run gov_alloc_succeeds _ _ _ Hpol Ha)).
  fold p.
  unfold gov_attr_set_init, set_policy_governor_data, set_gdbs_data,
    kfree_dbs_data, list_add.
  kred. rewrite Hg. kred. rewrite Hz. krun. fold d.
  rewrite Hinit. krun. change (truthy 0) with false. cbv iota. krun.
  assert (Hfp : policy_dbs_objs s !! p = None)
    by (apply not_elem_of_dom, is_fresh).
  assert (Hfd : dbs_data_objs s !! d = None)
    by (apply not_elem_of_dom, is_fresh).
  destruct have_governor_per_policy; cbn [negb]; krun; rewrite Hk;
    change (truthy 0) with false; cbn [negb]; kred;
    (eexists; split; [reflexivity |]);
    cbn [cpu_dbs update_util_data policies policy_dbs_objs dbs_data_objs
         gdbs_data trace];
    rewrite !insert_insert_eq, <- app_assoc;
    (split; [exact Hfp |]); (split; [exact Hfd |]);
    repeat (split; [reflexivity |]);
    (split; [unfold rate, min_rate; lia |]);
    repeat (split; [reflexivity |]);
    intros j; unfold per_cpu; cbn [cpu_dbs]; apply link_cpus_lookup.
Qed.

(** X2 -- POLICY_INIT of a further policy of a governor with system-wide
    tunables: it returns 0, the new [policy_dbs_info] points to the
    existing [dbs_data], whose usage count is incremented and whose list
    gets the policy in front, under its [update_lock]; the values of the
    tunables stay as they are and [gov->init] is not called again. *)
Theorem governor_init_shares_tunables policy s pol d dbs :
  policies s !! policy = Some pol ->
  governor_data pol = None ->
  have_governor_per_policy = false ->
  gdbs_data s = Some d ->
  dbs_data_objs s !! d = Some dbs ->
  gov_alloc_succeeds s = true ->
  let p := fresh (dom (policy_dbs_objs s)) in
  exists s',
    governor_init policy s = Some (0, s') /\
    policy_dbs_objs s !! p = None /\
    policies s' = <[policy := set_governor_data (Some p) pol]> (policies s) /\
    policy_dbs_objs s' =
      <[p := mk_policy_dbs_info policy 0 0 0 (Some d) 0 false false]>
        (policy_dbs_objs s) /\
    dbs_data_objs s' =
      <[d := set_attr_set
               (mk_gov_attr_set (p :: policy_list (attr_set dbs))
                  (s32 (usage_count (attr_set dbs) + 1))) dbs]>
        (dbs_data_objs s) /\
    gdbs_data s' = Some d /\
    update_util_data s' = update_util_data s /\
    trace s' = trace s ++ [EvMutexLock gov_dbs_data_mutex;
                           EvMutexLock (update_lock d);
                           EvMutexUnlock (update_lock d);
                           EvMutexUnlock gov_dbs_data_mutex] /\
    forall j,
      per_cpu s' j =
      if decide (j ∈ for_each_cpu (related_cpus pol))
      then set_cdbs_link (Some p) true (per_cpu s j)
      else per_cpu s j.
Proof.
  intros Hpol Hgd Hper Hg Hd Ha p.
  unfold governor_init, cpufreq_governor_init.
  rewrite (mbind_some _ _ _ _ _ (load_policy_some _ _ _ Hpol)).
  rewrite Hgd.
  rewrite (mbind_some _ _ _ _ _
             (alloc_policy_dbs_info_run gov_alloc_succeeds _ _ _ Hpol Ha)).
  fold p. rewrite Hper.
  unfold gov_attr_set_get, set_policy_governor_data, list_add.
  krun.
  eexists; split; [reflexivity |].
  cbn [cpu_dbs update_util_data policies policy_dbs_objs dbs_data_objs
       gdbs_data trace].
  rewrite !insert_insert_eq, <- !app_assoc.
  split; [apply not_elem_of_dom, is_fresh |].
  repeat (split; [first [reflexivity | assumption] |]).
  intros j. unfold per_cpu. cbn [cpu_dbs]. apply link_cpus_lookup.
Qed.


(** X3 -- POLICY_INIT on a policy without governor data always returns,
    whatever the allocator, [gov->init] and the kobject layer do.  Either
    it returns 0 and the policy is attached to a new [policy_dbs_info] that
    points back to it and to tunables; or it returns an error and the
    policies, the [policy_dbs_info] objects, the governor's global tunables
    and the hooks are as before, and no processor is left linked to an
    object it was not linked to before. *)
Theorem governor_init_all_or_nothing policy s pol :
  policies s !! policy = Some pol ->
  governor_data pol = None ->
  (forall d, gdbs_data s = Some d -> is_Some (dbs_data_objs s !! d)) ->
  exists r s',
    governor_init policy s = Some (r, s') /\
    ((r = 0 /\
      exists p pd d dbs,
        policy_dbs_objs s !! p = None /\
        pd_policy pd = policy /\
        policy_attached s' policy (set_governor_data (Some p) pol) p pd d dbs)
     \/
     (r <> 0 /\
      policies s' = policies s /\
      policy_dbs_objs s' = policy_dbs_objs s /\
      gdbs_data s' = gdbs_data s /\
      update_util_data s' = update_util_data s /\
      forall j q, cdbs_policy_dbs (per_cpu s' j) = Some q ->
                  cdbs_policy_dbs (per_cpu s j) = Some q)).
Proof.
  intros Hpol Hgd Hshared.
  unfold governor_init, cpufreq_governor_init.
  rewrite (mbind_some _ _ _ _ _ (load_policy_some _ _ _ Hpol)).
  rewrite Hgd.
  destruct (gov_alloc_succeeds s) eqn:Ha.
  2: { rewrite (mbind_some _ _ _ _ _
                  (alloc_policy_dbs_info_fails gov_alloc_succeeds _ _ _
                     Hpol Ha)).
       eexists _, _; split; [reflexivity |]. right.
       split; [discriminate |]. repeat (split; [reflexivity |]). auto. }
  rewrite (mbind_some _ _ _ _ _
             (alloc_policy_dbs_info_run gov_alloc_succeeds _ _ _ Hpol Ha)).
  set (p := fresh (dom (policy_dbs_objs s))).
  assert (Hfp : policy_dbs_objs s !! p = None)
    by (apply not_elem_of_dom, is_fresh).
  assert (Hfail : forall r cpu m' t',
    r <> 0 ->
    cpu = link_cpus None false (for_each_cpu (related_cpus pol))
            (link_cpus (Some p) true (for_each_cpu (related_cpus pol))
               (cpu_dbs s)) ->
    let s' := mk_kstate cpu (update_util_data s) (policies s)
                (policy_dbs_objs s) m' (gdbs_data s) t' in
    r <> 0 /\
    policies s' = policies s /\
    policy_dbs_objs s' = policy_dbs_objs s /\
    gdbs_data s' = gdbs_data s /\
    update_util_data s' = update_util_data s /\
    forall j q, cdbs_policy_dbs (per_cpu s' j) = Some q ->
                cdbs_policy_dbs (per_cpu s j) = Some q).
  { intros r cpu m' t' Hr -> s'. repeat (split; [first [exact Hr | reflexivity] |]).
    intros j q. unfold per_cpu, s'. cbn [cpu_dbs]. apply unlink_no_new_link. }
  unfold gov_attr_set_init, gov_attr_set_get, set_policy_governor_data,
    set_gdbs_data, kfree_dbs_data, list_add.
  kred.
  destruct (gdbs_data s) as [d |] eqn:Hg.
  - destruct have_governor_per_policy.
    + free_run p. kred. rewrite delete_insert_id by exact Hfp.
      eexists _, _; split; [reflexivity |]. right.
      apply Hfail; [discriminate | reflexivity].
    + destruct (Hshared d eq_refl) as [dbs Hd]. krun.
      eexists _, _; split; [reflexivity |]. left. split; [reflexivity |].
      eexists p, _, d, _. split; [exact Hfp |].
      unfold policy_attached.
      cbn [policies policy_dbs_objs dbs_data_objs].
      rewrite !lookup_insert_eq. repeat split; reflexivity.
  - destruct (kzalloc_succeeds _) eqn:Hz.
    2: { kred. free_run p. kred. rewrite delete_insert_id by exact Hfp.
         eexists _, _; split; [reflexivity |]. right.
         apply Hfail; [discriminate | reflexivity]. }
    krun.
    set (d := fresh (dom (dbs_data_objs s))).
    destruct (gov_init _ _) as [ret d1] eqn:Hinit. krun.
    destruct (truthy ret) eqn:Hret.
    { kred. free_run p. kred. rewrite delete_insert_id by exact Hfp.
      eexists _, _; split; [reflexivity |]. right.
      apply Hfail; [| reflexivity].
      intros ->. discriminate Hret. }
    assert (Hback : forall v x,
      <[policy := set_governor_data None (set_governor_data v pol)]>
        (<[policy := x]> (policies s)) = policies s).
    { intros v x. rewrite insert_insert_eq. apply insert_id.
      rewrite Hpol. destruct pol. cbn in Hgd. rewrite Hgd. reflexivity. }
    destruct have_governor_per_policy; cbn [negb]; krun;
      match goal with
      | |- context [kobject_init_and_add ?x] =>
        generalize (kobject_init_and_add x)
      end; intros r;
      destruct (truthy r) eqn:Hk; cbn [negb]; krun.
    1, 3: free_run p; kred;
      rewrite Hback, !insert_insert_eq, delete_insert_id by exact Hfp;
      (eexists _, _; split; [reflexivity |]); right;
      (apply Hfail; [| reflexivity]);
      intros E; rewrite E in Hk; discriminate Hk.
    all: eexists _, _; split; [reflexivity |]; left;
      (split; [unfold truthy in Hk; apply negb_false_iff in Hk; lia |]);
      eexists p, _, d, _; (split; [exact Hfp |]);
      unfold policy_attached;
      cbn [policies policy_dbs_objs dbs_data_objs];
      rewrite !lookup_insert_eq; repeat split; reflexivity.
Qed.


Lemma restore_policy (m : gmap nat cpufreq_policy) policy pol v x :
  m !! policy = Some pol ->
  governor_data pol = None ->
  <[policy := set_governor_data None (set_governor_data v pol)]>
    (<[policy := x]> m) = m.
Proof.
  intros Hpol Hgd. rewrite insert_insert_eq. apply insert_id.
  rewrite Hpol. destruct pol. cbn in Hgd. rewrite Hgd. reflexivity.
Qed.

(** X4 -- POLICY_INIT when [gov->init] fails with [ret]: the function
    returns [ret], frees the [policy_dbs_info] and leaves the policy
    without governor data, but the [dbs_data] it allocated just before is
    still allocated on return ([kfree] is not on this path), holding what
    [gov->init] left in it. *)
Theorem governor_init_gov_init_failure_keeps_dbs_data policy s pol ret d1 :
  policies s !! policy = Some pol ->
  governor_data pol = None ->
  gdbs_data s = None ->
  gov_alloc_succeeds s = true ->
  (forall s0, kzalloc_succeeds s0 = true) ->
  let p := fresh (dom (policy_dbs_objs s)) in
  let d := fresh (dom (dbs_data_objs s)) in
  gov_init (set_attr_set (mk_gov_attr_set [p] 1) dbs_data_zero)
    (negb (truthy (governor_initialized pol))) = (ret, d1) ->
  ret <> 0 ->
  exists s',
    governor_init policy s = Some (ret, s') /\
    policies s' = policies s /\
    policy_dbs_objs s' = policy_dbs_objs s /\
    gdbs_data s' = None /\
    dbs_data_objs s !! d = None /\
    dbs_data_objs s' = <[d := d1]> (dbs_data_objs s) /\
    trace s' = trace s ++ [EvMutexLock gov_dbs_data_mutex;
                           EvMutexUnlock gov_dbs_data_mutex].
Proof.
  intros Hpol Hgd Hg Ha Hz p d Hinit Hret.
  assert (Hfp : policy_dbs_objs s !! p = None)
    by (apply not_elem_of_dom, is_fresh).
  unfold governor_init, cpufreq_governor_init.
  rewrite (mbind_some _ _ _ _ _ (load_policy_some _ _ _ Hpol)).
  rewrite Hgd.
  rewrite (mbind_some _ _ _ _ _
             (alloc_policy_dbs_info_run gov_alloc_succeeds _ _ _ Hpol Ha)).
  fold p. unfold gov_attr_set_init, list_add.
  kred. rewrite Hg. kred. rewrite Hz. krun. fold d. rewrite Hinit. krun.
  unfold truthy. destruct (Z.eqb_spec ret 0) as [E | _]; [contradiction |].
  cbn [negb]. kred. free_run p. kred.
  eexists; split; [reflexivity |].
  cbn [policies policy_dbs_objs dbs_data_objs gdbs_data trace].
  rewrite !insert_insert_eq, delete_insert_id, <- app_assoc by exact Hfp.
  repeat split. apply not_elem_of_dom, is_fresh.
Qed.

(** X5 -- POLICY_INIT when [kobject_init_and_add] fails with [r]: the
    function returns [r] after undoing everything: the policy has no
    governor data, the governor's global tunables are unset, [gov->exit] is
    called with the notify flag [gov->init] was given, and both the
    [dbs_data] and the [policy_dbs_info] are freed. *)
Theorem governor_init_kobject_failure_rolls_back policy s pol r d1 :
  policies s !! policy = Some pol ->
  governor_data pol = None ->
  gdbs_data s = None ->
  gov_alloc_succeeds s = true ->
  (forall s0, kzalloc_succeeds s0 = true) ->
  (forall s0, kobject_init_and_add s0 = r) ->
  r <> 0 ->
  let p := fresh (dom (policy_dbs_objs s)) in
  let d := fresh (dom (dbs_data_objs s)) in
  let notify := negb (truthy (governor_initialized pol)) in
  gov_init (set_attr_set (mk_gov_attr_set [p] 1) dbs_data_zero) notify
    = (0, d1) ->
  exists s',
    governor_init policy s = Some (r, s') /\
    policies s' = policies s /\
    policy_dbs_objs s' = policy_dbs_objs s /\
    dbs_data_objs s' = dbs_data_objs s /\
    gdbs_data s' = None /\
    update_util_data s' = update_util_data s /\
    trace s' = trace s ++ [EvMutexLock gov_dbs_data_mutex;
                           EvGovExit d notify;
                           EvMutexUnlock gov_dbs_data_mutex].
Proof.
  intros Hpol Hgd Hg Ha Hz Hk Hr p d notify Hinit.
  assert (Hfp : policy_dbs_objs s !! p = None)
    by (apply not_elem_of_dom, is_fresh).
  assert (Hfd : dbs_data_objs s !! d = None)
    by (apply not_elem_of_dom, is_fresh).
  unfold governor_init, cpufreq_governor_init.
  rewrite (mbind_some _ _ _ _ _ (load_policy_some _ _ _ Hpol)).
  rewrite Hgd.
  rewrite (mbind_some _ _ _ _ _
             (alloc_policy_dbs_info_run gov_alloc_succeeds _ _ _ Hpol Ha)).
  fold p.
  unfold gov_attr_set_init, set_policy_governor_data, set_gdbs_data,
    kfree_dbs_data, list_add.
  kred. rewrite Hg. kred. rewrite Hz. krun. fold d. fold notify.
  rewrite Hinit. krun. change (truthy 0) with false. cbv iota. krun.
  destruct have_governor_per_policy; cbn [negb]; krun; rewrite Hk;
    unfold truthy; (destruct (Z.eqb_spec r 0) as [E | _]; [contradiction |]);
    cbn [negb]; krun; free_run p; kred;
    (eexists; split; [reflexivity |]);
    cbn [policies policy_dbs_objs dbs_data_objs gdbs_data trace
         update_util_data];
    rewrite (restore_policy _ _ _ _ _ Hpol Hgd), !insert_insert_eq,
      !delete_insert_id, <- !app_assoc by assumption;
    repeat split.
Qed.

End Init.

Lemma s32_small z : 0 <= z < 2 ^ 31 -> s32 z = z.
Proof.
  intros H. unfold s32.
  rewrite (Z.mod_small z) by lia.
  destruct (Z.ltb_spec z (2 ^ 31)); lia.
Qed.

(** ** POLICY_EXIT *)

Section Exit.
Variable have_governor_per_policy : bool.

Let governor_exit := cpufreq_governor_exit have_governor_per_policy.

(** X6 -- POLICY_EXIT of the last policy that uses the tunables (usage
    count 1): it returns 0, the policy loses its governor data, the
    [policy_dbs_info] and the [dbs_data] are freed, the governor's global
    tunables are unset (when they are system-wide), every related processor
    loses its link and hook function, and the kobject is put and
    [gov->exit] called between the release of [update_lock] and that of
    [gov_dbs_data_mutex]. *)
Theorem governor_exit_last_policy policy s pol p pd d dbs :
  policy_attached s policy pol p pd d dbs ->
  pd_policy pd = policy ->
  usage_count (attr_set dbs) = 1 ->
  exists s',
    governor_exit policy s = Some (0, s') /\
    policies s' = <[policy := set_governor_data None pol]> (policies s) /\
    policy_dbs_objs s' = delete p (policy_dbs_objs s) /\
    dbs_data_objs s' = delete d (dbs_data_objs s) /\
    gdbs_data s' = (if have_governor_per_policy then gdbs_data s else None) /\
    update_util_data s' = update_util_data s /\
    trace s' = trace s ++ [EvMutexLock gov_dbs_data_mutex;
                           EvMutexLock (update_lock d);
                           EvMutexUnlock (update_lock d);
                           EvKobjectPut d;
                           EvGovExit d (governor_initialized pol =? 1);
                           EvMutexUnlock gov_dbs_data_mutex] /\
    forall j,
      per_cpu s' j =
      if decide (j ∈ for_each_cpu (related_cpus pol))
      then set_cdbs_link None false (per_cpu s j)
      else per_cpu s j.
Proof.
  intros (H1 & H2 & H3 & H4 & H5) Hback Hcount.
  unfold governor_exit, cpufreq_governor_exit, gov_attr_set_put,
    set_policy_governor_data, set_gdbs_data, kfree_dbs_data.
  krun. rewrite Hcount. change (truthy (u32 (s32 (1 - 1)))) with false.
  cbv iota. cbn [negb]. krun.
  destruct have_governor_per_policy; cbn [negb]; krun;
    change (truthy 0) with false; cbn [negb]; krun;
    (erewrite (free_policy_dbs_info_run p);
     [ | cbn [policy_dbs_objs]; exact H3
       | cbn [policies]; rewrite Hback; apply lookup_insert_eq ]);
    kred; (eexists; split; [reflexivity |]);
    cbn [cpu_dbs update_util_data policies policy_dbs_objs dbs_data_objs
         gdbs_data trace set_governor_data related_cpus];
    rewrite delete_insert_eq, <- !app_assoc;
    repeat (split; [reflexivity |]);
    intros j; unfold per_cpu; cbn [cpu_dbs]; apply link_cpus_lookup.
Qed.


(** X7 -- POLICY_EXIT of a policy whose tunables other policies still use
    (usage count at least 2): the tunables stay allocated with the policy
    off their list and the count one less, the governor's global pointer
    is unchanged, and neither [kobject_put] nor [gov->exit] is called; the
    policy itself is detached and its [policy_dbs_info] freed. *)
Theorem governor_exit_keeps_shared_tunables policy s pol p pd d dbs :
  policy_attached s policy pol p pd d dbs ->
  pd_policy pd = policy ->
  2 <= usage_count (attr_set dbs) < 2 ^ 31 ->
  exists s',
    governor_exit policy s = Some (0, s') /\
    policies s' = <[policy := set_governor_data None pol]> (policies s) /\
    policy_dbs_objs s' = delete p (policy_dbs_objs s) /\
    dbs_data_objs s' =
      <[d := set_attr_set
               (mk_gov_attr_set (list_del p (policy_list (attr_set dbs)))
                  (usage_count (attr_set dbs) - 1)) dbs]>
        (dbs_data_objs s) /\
    gdbs_data s' = gdbs_data s /\
    trace s' = trace s ++ [EvMutexLock gov_dbs_data_mutex;
                           EvMutexLock (update_lock d);
                           EvMutexUnlock (update_lock d);
                           EvMutexUnlock gov_dbs_data_mutex] /\
    forall j,
      per_cpu s' j =
      if decide (j ∈ for_each_cpu (related_cpus pol))
      then set_cdbs_link None false (per_cpu s j)
      else per_cpu s j.
Proof.
  intros (H1 & H2 & H3 & H4 & H5) Hback Hcount.
  unfold governor_exit, cpufreq_governor_exit, gov_attr_set_put,
    set_policy_governor_data, set_gdbs_data, kfree_dbs_data.
  krun.
  rewrite (s32_small (usage_count (attr_set dbs) - 1)) by lia.
  rewrite (u32_small (usage_count (attr_set dbs) - 1)) by lia.
  unfold truthy.
  destruct (Z.eqb_spec (usage_count (attr_set dbs) - 1) 0) as [E | _];
    [lia |].
  cbn [negb]. krun.
  destruct (Z.eqb_spec (usage_count (attr_set dbs) - 1) 0) as [E | _];
    [lia |].
  cbn [negb]. krun.
  erewrite (free_policy_dbs_info_run p);
    [ | cbn [policy_dbs_objs]; exact H3
      | cbn [policies]; rewrite Hback; apply lookup_insert_eq ].
  kred. eexists; split; [reflexivity |].
  cbn [cpu_dbs update_util_data policies policy_dbs_objs dbs_data_objs
       gdbs_data trace set_governor_data related_cpus].
  rewrite <- !app_assoc. repeat (split; [reflexivity |]).
  intros j. unfold per_cpu. cbn [cpu_dbs]. apply link_cpus_lookup.
Qed.

End Exit.

(** ** POLICY_INIT followed by POLICY_EXIT *)

Section RoundTrip.
Variable have_governor_per_policy : bool.
Variable MIN_LATENCY_MULTIPLIER : Z.
Variable LATENCY_MULTIPLIER : Z.
Variable gov_alloc_succeeds : kstate -> bool.
Variable kzalloc_succeeds : kstate -> bool.
Variable kobject_init_and_add : kstate -> Z.
Variable gov_init : dbs_data -> bool -> Z * dbs_data.

Let governor_init :=
  cpufreq_governor_init have_governor_per_policy MIN_LATENCY_MULTIPLIER
    LATENCY_MULTIPLIER gov_alloc_succeeds kzalloc_succeeds
    kobject_init_and_add gov_init.
Let governor_exit := cpufreq_governor_exit have_governor_per_policy.

(** X8 -- POLICY_EXIT undoes POLICY_INIT: after a successful POLICY_INIT
    of the first policy ([gov->init] leaving the usage count at 1) and the
    POLICY_EXIT that follows, the policies, the objects of both kinds, the
    governor's global tunables and the hooks are as before POLICY_INIT, and
    the related processors have no link and no hook function. *)
Theorem governor_init_exit_round_trip policy s pol d1 :
  policies s !! policy = Some pol ->
  governor_data pol = None ->
  gdbs_data s = None ->
  gov_alloc_succeeds s = true ->
  (forall s0, kzalloc_succeeds s0 = true) ->
  (forall s0, kobject_init_and_add s0 = 0) ->
  gov_init
    (set_attr_set (mk_gov_attr_set [fresh (dom (policy_dbs_objs s))] 1)
       dbs_data_zero)
    (negb (truthy (governor_initialized pol))) = (0, d1) ->
  usage_count (attr_set d1) = 1 ->
  exists s1 s2,
    governor_init policy s = Some (0, s1) /\
    governor_exit policy s1 = Some (0, s2) /\
    policies s2 = policies s /\
    policy_dbs_objs s2 = policy_dbs_objs s /\
    dbs_data_objs s2 = dbs_data_objs s /\
    gdbs_data s2 = gdbs_data s /\
    update_util_data s2 = update_util_data s /\
    forall j,
      per_cpu s2 j =
      if decide (j ∈ for_each_cpu (related_cpus pol))
      then set_cdbs_link None false (per_cpu s j)
      else per_cpu s j.
Proof.
  intros Hpol Hgd Hg Ha Hz Hk Hinit Hcount.
  set (p := fresh (dom (policy_dbs_objs s))) in *.
  set (d := fresh (dom (dbs_data_objs s))).
  assert (Hfp : policy_dbs_objs s !! p = None)
    by (apply not_elem_of_dom, is_fresh).
  assert (Hfd : dbs_data_objs s !! d = None)
    by (apply not_elem_of_dom, is_fresh).
  unfold governor_init, cpufreq_governor_init.
  rewrite (mbind_some _ _ _ _ _ (load_policy_some _ _ _ Hpol)).
  rewrite Hgd.
  rewrite (mbind_some _ _ _ _ _
             (alloc_policy_dbs_info_run gov_alloc_succeeds _ _ _ Hpol Ha)).
  fold p.
  unfold gov_attr_set_init, set_policy_governor_data, set_gdbs_data,
    kfree_dbs_data, list_add.
  kred. rewrite Hg. kred. rewrite Hz. krun. fold d.
  rewrite Hinit. krun. change (truthy 0) with false. cbv iota. krun.
  unfold governor_exit, cpufreq_governor_exit, gov_attr_set_put,
    set_policy_governor_data, set_gdbs_data, kfree_dbs_data.
  destruct have_governor_per_policy; cbn [negb]; krun; rewrite Hk;
    change (truthy 0) with false; cbn [negb]; kred;
    (eexists _, _; split; [reflexivity |]);
    do 4 (krun; cbn [governor_data set_governor_data pd_dbs_data
                     set_pd_dbs_data pd_policy attr_set set_sampling_rate
                     set_min_sampling_rate]);
    rewrite Hcount; change (truthy (u32 (s32 (1 - 1)))) with false;
    cbv iota; krun; change (truthy 0) with false; cbn [negb]; krun;
    (erewrite (free_policy_dbs_info_run p);
     [ | cbn [policy_dbs_objs]; apply lookup_insert_eq
       | cbn [policies pd_policy set_pd_dbs_data]; apply lookup_insert_eq ]);
    kred; (split; [reflexivity |]);
    cbn [cpu_dbs update_util_data policies policy_dbs_objs dbs_data_objs
         gdbs_data trace set_governor_data related_cpus];
    rewrite (restore_policy _ _ _ _ _ Hpol Hgd), !insert_insert_eq,
      !delete_insert_id by assumption;
    repeat (split; [first [reflexivity | symmetry; exact Hg] |]);
    intros j; unfold per_cpu; cbn [cpu_dbs];
    rewrite !link_cpus_lookup;
    destruct (decide (j ∈ for_each_cpu (related_cpus pol))); reflexivity.
Qed.

End RoundTrip.

(** ** The life cycle on the example policies *)

(** POLICY_INIT of the example policy at boot. *)
Lemma governor_init_first_policy_witness :
  exists s',
    ex_init 7%nat ex_boot = Some (0, s') /\
    gdbs_data s' = Some 0%nat /\
    dbs_data_objs s' = {[ 0%nat := ex_dbs ]}.
Proof.
  destruct (governor_init_first_policy false 20 1000 (fun _ => true)
              (fun _ => true) (fun _ => 0) ex_gov_init 7%nat ex_boot
              ex_policy
              (set_min_sampling_rate 10000
                 (set_attr_set (mk_gov_attr_set [0%nat] 1) dbs_data_zero)))
    as (s' & Hrun & _ & _ & _ & _ & Hd & Hg & _);
    try reflexivity.
  exists s'. split; [exact Hrun |]. split; [exact Hg |].
  rewrite Hd. vm_compute. reflexivity.
Defined.

(** POLICY_INIT of the second policy. *)
Lemma governor_init_shares_tunables_witness :
  exists s',
    ex_init 8%nat ex_second = Some (0, s') /\
    gdbs_data s' = Some 0%nat /\
    (attr_set <$> dbs_data_objs s' !! 0%nat)
      = Some (mk_gov_attr_set [1%nat; 0%nat] 2).
Proof.
  destruct (governor_init_shares_tunables false 20 1000 (fun _ => true)
              (fun _ => true) (fun _ => 0) ex_gov_init 8%nat ex_second
              ex_policy_b 0%nat ex_dbs)
    as (s' & Hrun & _ & _ & _ & Hd & Hg & _);
    try reflexivity.
  exists s'. split; [exact Hrun |]. split; [exact Hg |].
  rewrite Hd. vm_compute. reflexivity.
Defined.

(** POLICY_INIT at boot when [kzalloc] fails. *)
Lemma governor_init_all_or_nothing_witness :
  exists r s',
    cpufreq_governor_init false 20 1000 (fun _ => true) (fun _ => false)
      (fun _ => 0) ex_gov_init 7%nat ex_boot = Some (r, s') /\
    r <> 0 /\ policy_dbs_objs s' = ∅.
Proof.
  destruct (governor_init_all_or_nothing false 20 1000 (fun _ => true)
              (fun _ => false) (fun _ => 0) ex_gov_init 7%nat ex_boot
              ex_policy)
    as (r & s' & Hrun & [[Hr _] | (Hr & _ & Hobjs & _)]);
    try reflexivity; try discriminate.
  - exfalso. vm_compute in Hrun. injection Hrun as Hr' _. lia.
  - exists r, s'. split; [exact Hrun |]. split; [exact Hr |]. exact Hobjs.
Defined.

(** POLICY_INIT at boot with a [gov->init] that fails. *)
Lemma governor_init_gov_init_failure_keeps_dbs_data_witness :
  exists s',
    cpufreq_governor_init false 20 1000 (fun _ => true) (fun _ => true)
      (fun _ => 0) (fun d _ => (- ENOMEM, d)) 7%nat ex_boot
    = Some (- ENOMEM, s') /\
    policy_dbs_objs s' = ∅ /\
    dbs_data_objs s' =
      {[ 0%nat := set_attr_set (mk_gov_attr_set [0%nat] 1) dbs_data_zero ]}.
Proof.
  destruct (governor_init_gov_init_failure_keeps_dbs_data false 20 1000
              (fun _ => true) (fun _ => true) (fun _ => 0)
              (fun d _ => (- ENOMEM, d)) 7%nat ex_boot ex_policy (- ENOMEM)
              (set_attr_set (mk_gov_attr_set [0%nat] 1) dbs_data_zero))
    as (s' & Hrun & _ & Hobjs & _ & _ & Hd & _);
    try reflexivity; try discriminate.
  exists s'. split; [exact Hrun |]. split; [exact Hobjs |].
  rewrite Hd. vm_compute. reflexivity.
Defined.

(** POLICY_INIT at boot when the kobject cannot be added. *)
Lemma governor_init_kobject_failure_rolls_back_witness :
  exists s',
    cpufreq_governor_init false 20 1000 (fun _ => true) (fun _ => true)
      (fun _ => - EINVAL) ex_gov_init 7%nat ex_boot = Some (- EINVAL, s') /\
    dbs_data_objs s' = ∅ /\
    trace s' = [EvMutexLock gov_dbs_data_mutex; EvGovExit 0%nat true;
                EvMutexUnlock gov_dbs_data_mutex].
Proof.
  destruct (governor_init_kobject_failure_rolls_back false 20 1000
              (fun _ => true) (fun _ => true) (fun _ => - EINVAL) ex_gov_init
              7%nat ex_boot ex_policy (- EINVAL)
              (set_min_sampling_rate 10000
                 (set_attr_set (mk_gov_attr_set [0%nat] 1) dbs_data_zero)))
    as (s' & Hrun & _ & _ & Hd & _ & _ & Ht);
    try reflexivity; try discriminate.
  exists s'. split; [exact Hrun |]. split; [exact Hd |]. exact Ht.
Defined.

Lemma ex_shared_attached :
  policy_attached ex_shared 8%nat (set_governor_data (Some 1%nat) ex_policy_b)
    1%nat (mk_policy_dbs_info 8%nat 0 0 0 (Some 0%nat) 0 false false) 0%nat
    (set_attr_set (mk_gov_attr_set [1%nat; 0%nat] 2) ex_dbs).
Proof. vm_compute. repeat split. Defined.

(** POLICY_EXIT of the only policy. *)
Lemma governor_exit_last_policy_witness :
  exists s',
    cpufreq_governor_exit false 7%nat ex_inited = Some (0, s') /\
    gdbs_data s' = None /\
    dbs_data_objs s' = ∅.
Proof.
  destruct (governor_exit_last_policy false 7%nat ex_inited ex_pol 0%nat
              ex_pd_inited 0%nat ex_dbs ex_inited_attached eq_refl eq_refl)
    as (s' & Hrun & _ & _ & Hd & Hg & _).
  exists s'. split; [exact Hrun |]. split; [exact Hg |].
  rewrite Hd. vm_compute. reflexivity.
Defined.

(** POLICY_EXIT of the second of two policies. *)
Lemma governor_exit_keeps_shared_tunables_witness :
  exists s',
    cpufreq_governor_exit false 8%nat ex_shared = Some (0, s') /\
    gdbs_data s' = Some 0%nat /\
    dbs_data_objs s' = {[ 0%nat := ex_dbs ]}.
Proof.
  destruct (governor_exit_keeps_shared_tunables false 8%nat ex_shared _ _ _ _
              _ ex_shared_attached eq_refl)
    as (s' & Hrun & _ & _ & Hd & Hg & _).
  { cbn. lia. }
  exists s'. split; [exact Hrun |]. split; [exact Hg |].
  rewrite Hd. vm_compute. reflexivity.
Defined.

(** POLICY_INIT and POLICY_EXIT at boot. *)
Lemma governor_init_exit_round_trip_witness :
  exists s1 s2,
    ex_init 7%nat ex_boot = Some (0, s1) /\
    cpufreq_governor_exit false 7%nat s1 = Some (0, s2) /\
    policies s2 = policies ex_boot /\
    dbs_data_objs s2 = ∅.
Proof.
  destruct (governor_init_exit_round_trip false 20 1000 (fun _ => true)
              (fun _ => true) (fun _ => 0) ex_gov_init 7%nat ex_boot
              ex_policy
              (set_min_sampling_rate 10000
                 (set_attr_set (mk_gov_attr_set [0%nat] 1) dbs_data_zero)))
    as (s1 & s2 & Hrun1 & Hrun2 & Hp & _ & Hd & _);
    try reflexivity.
  exists s1, s2. repeat split; assumption.
Defined.

(** * START, STOP and the sampling cycle *)

(** The processors with the hook after the loops of [gov_set_update_util]
    and of [gov_clear_update_util]. *)
Lemma hooks_set js : forall (h : gset nat) j,
  j ∈ foldl (fun h cpu => {[cpu]} ∪ h) h js <-> j ∈ js \/ j ∈ h.
Proof.
  induction js as [| k js IH]; intros h j; cbn [foldl].
  - split; [auto | intros [H | H]; [inversion H | exact H]].
  - rewrite IH, elem_of_union, elem_of_singleton, elem_of_cons. tauto.
Qed.

Lemma hooks_cleared js : forall (h : gset nat) j,
  j ∈ foldl (fun h i => h ∖ {[i]}) h js <-> j ∈ h /\ j ∉ js.
Proof.
  induction js as [| k js IH]; intros h j; cbn [foldl].
  - split; [intros H; split; [exact H | intros H'; inversion H'] | tauto].
  - rewrite IH, elem_of_difference, elem_of_singleton, not_elem_of_cons.
    tauto.
Qed.

(** X10 -- STOP on a governed policy returns 0 and leaves the policy
    quiet: the hook is removed from every processor of the policy and from
    no other, the escalation counter is 0 and the work is no longer marked
    in progress (the rest of the [policy_dbs_info] is kept), and the
    teardown runs in the order hook removal with [synchronize_rcu], then
    [irq_work_sync], then [cancel_work_sync]; no lock is taken and the
    per-CPU data, the policies and the tunables are not touched. *)
Theorem governor_stop_quiesces policy s pol p pd :
  policies s !! policy = Some pol ->
  governor_data pol = Some p ->
  policy_dbs_objs s !! p = Some pd ->
  pd_policy pd = policy ->
  exists s',
    cpufreq_governor_stop policy s = Some (0, s') /\
    policy_dbs_objs s' =
      <[p := set_work_in_progress false (set_work_count 0 pd)]>
        (policy_dbs_objs s) /\
    (forall j, j ∈ update_util_data s' <->
               j ∈ update_util_data s /\ j ∉ for_each_cpu (cpus pol)) /\
    cpu_dbs s' = cpu_dbs s /\
    policies s' = policies s /\
    dbs_data_objs s' = dbs_data_objs s /\
    trace s' = trace s ++ [EvSynchronizeRcu; EvIrqWorkSync p;
                           EvCancelWorkSync p].
Proof.
  intros Hpol Hgd Hpd Hback.
  unfold cpufreq_governor_stop, gov_cancel_work, gov_clear_update_util.
  krun. rewrite Hback. krun.
  rewrite (for_each_pure
    (fun i s0 => with_update_util_data (fun h => h ∖ {[i]}) s0))
    by reflexivity.
  rewrite (with_update_util_data_foldl (fun i h => h ∖ {[i]})).
  krun.
  eexists; split; [reflexivity |].
  cbn [cpu_dbs update_util_data policies policy_dbs_objs dbs_data_objs trace].
  rewrite <- !app_assoc.
  split; [reflexivity |]. split; [apply hooks_cleared |]. repeat split.
Qed.

(** START leaves the links and hook functions of the processors alone. *)
Lemma start_cpus_links src ign io js : forall s k,
  cdbs_policy_dbs (per_cpu (start_cpus src ign io js s) k)
    = cdbs_policy_dbs (per_cpu s k) /\
  update_util_func (per_cpu (start_cpus src ign io js s) k)
    = update_util_func (per_cpu s k).
Proof.
  induction js as [| j js IH]; intros s k; [split; reflexivity |].
  unfold start_cpus in *. cbn [foldl].
  destruct (IH (with_cpu_dbs
    (insert j (start_snapshot src ign io j (per_cpu s j))) s) k) as [-> ->].
  rewrite per_cpu_insert.
  destruct (decide (j = k)) as [-> | _]; [| split; reflexivity].
  unfold start_snapshot. destruct (truthy ign); split; reflexivity.
Qed.

(** X9 -- START on a governed policy.  When the current frequency is
    unknown (0) it returns [-EINVAL] and changes nothing.  Otherwise it
    returns 0, marks the policy shared exactly when it has more than one
    online processor, sets the rate multiplier to 1, installs the hook on
    every online processor of the policy (and removes none), calls
    [gov->start] before it arms the sample delay of one sampling period,
    and leaves the escalation counter, the work-in-progress flag and the
    links of the processors as they were. *)
Theorem governor_start_installs_hooks src policy s pol p pd d dbs :
  policy_attached s policy pol p pd d dbs ->
  pd_policy pd = policy ->
  (cur pol = 0 ->
   cpufreq_governor_start src policy s = Some (- EINVAL, s)) /\
  (cur pol <> 0 ->
   exists s' pd',
     cpufreq_governor_start src policy s = Some (0, s') /\
     policy_dbs_objs s' !! p = Some pd' /\
     is_shared pd' = policy_is_shared pol /\
     rate_mult pd' = 1 /\
     work_count pd' = work_count pd /\
     work_in_progress pd' = work_in_progress pd /\
     (forall j, j ∈ update_util_data s' <->
                j ∈ for_each_cpu (cpus pol) \/ j ∈ update_util_data s) /\
     (forall j,
        cdbs_policy_dbs (per_cpu s' j) = cdbs_policy_dbs (per_cpu s j) /\
        update_util_func (per_cpu s' j) = update_util_func (per_cpu s j)) /\
     trace s' = trace s ++ [EvGovStart policy;
                            EvSampleDelay p
                              (sampling_rate dbs * NSEC_PER_USEC)]).
Proof.
  intros Hat Hback. split.
  - intros Hcur. destruct Hat as (H1 & H2 & H3 & H4 & H5).
    unfold cpufreq_governor_start. krun. rewrite Hcur. reflexivity.
  - intros Hcur.
    rewrite (governor_start_run src policy s pol p pd d dbs Hat Hback Hcur).
    eexists _, _. split; [reflexivity |].
    cbn [policy_dbs_objs with_update_util_data with_policy_dbs_objs
         update_util_data trace with_trace].
    split; [apply lookup_insert_eq |].
    split; [reflexivity |].
    split; [reflexivity |]. split; [reflexivity |]. split; [reflexivity |].
    destruct (start_cpus_frame src (ignore_nice_load dbs) (io_is_busy dbs)
                (for_each_cpu (cpus pol))
                (with_policy_dbs_objs
                   (insert p (set_rate_mult 1
                                (set_is_shared (policy_is_shared pol) pd))) s))
      as (Fh & _ & _ & _ & _ & Ft).
    split; [intros j; rewrite hooks_set, Fh; reflexivity |].
    split.
    + intros j.
      destruct (start_cpus_links src (ignore_nice_load dbs) (io_is_busy dbs)
                  (for_each_cpu (cpus pol))
                  (with_policy_dbs_objs
                     (insert p (set_rate_mult 1
                                  (set_is_shared (policy_is_shared pol) pd)))
                     s) j) as [E1 E2].
      unfold per_cpu in *.
      cbn [cpu_dbs with_update_util_data with_policy_dbs_objs with_trace]
        in *.
      split; assumption.
    + rewrite Ft. cbn [trace with_policy_dbs_objs].
      rewrite <- app_assoc. reflexivity.
Qed.

(** ** The deferred work *)

Section Work.
Variable gov_dbs_timer : ptr -> M Z.

(** X11 -- The deferred work, when the governor's sample gives the delay
    [delay] (in microseconds) and leaves the [policy_dbs_info] allocated:
    the sample runs with [timer_mutex] held; afterwards the sample delay is
    [delay * 1000] ns, the escalation counter is 0 and the work is no
    longer in progress; nothing else is changed beyond what the sample did.
    So the hook is armed again: its next call queues the irq work exactly
    when the new delay has passed since the last sample. *)
Theorem dbs_work_handler_rearms_hook p s pd delay s1 pd1 :
  policy_dbs_objs s !! p = Some pd ->
  gov_dbs_timer (pd_policy pd)
    (with_trace (fun t => t ++ [EvMutexLock (timer_mutex p)]) s)
    = Some (delay, s1) ->
  policy_dbs_objs s1 !! p = Some pd1 ->
  let pd' :=
    set_work_in_progress false
      (set_work_count 0
         (set_sample_delay_ns (delay * NSEC_PER_USEC) pd1)) in
  exists s',
    dbs_work_handler gov_dbs_timer p s = Some (tt, s') /\
    policy_dbs_objs s' = <[p := pd']> (policy_dbs_objs s1) /\
    cpu_dbs s' = cpu_dbs s1 /\
    update_util_data s' = update_util_data s1 /\
    policies s' = policies s1 /\
    dbs_data_objs s' = dbs_data_objs s1 /\
    trace s' = trace s1 ++ [EvSampleDelay p (delay * NSEC_PER_USEC);
                            EvMutexUnlock (timer_mutex p)] /\
    forall time, snd (util_handler time pd') = negb (too_early time pd').
Proof.
  intros Hpd Htimer Hpd1 pd'.
  unfold dbs_work_handler, gov_update_sample_delay.
  unfold with_trace in Htimer.
  krun.
  eexists; split; [reflexivity |].
  cbn [cpu_dbs update_util_data policies policy_dbs_objs dbs_data_objs trace].
  rewrite !insert_insert_eq, <- !app_assoc.
  repeat (split; [reflexivity |]).
  intros time. destruct (too_early time pd') eqn:E.
  - rewrite util_handler_returns_early by auto. reflexivity.
  - apply util_handler_queues; [reflexivity | exact E |].
    intros _. cbn. discriminate.
Qed.

End Work.

(** ** Calls of the hook in a row *)

(** The hook queues only when no work is in progress, and then marks it
    in progress; otherwise it leaves the flag alone. *)
Lemma util_handler_progress time pd :
  (work_in_progress pd = true -> util_handler time pd = (pd, false)) /\
  (snd (util_handler time pd) = true ->
   work_in_progress pd = false /\
   work_in_progress (fst (util_handler time pd)) = true) /\
  (snd (util_handler time pd) = false ->
   work_in_progress (fst (util_handler time pd)) = work_in_progress pd).
Proof.
  unfold util_handler, atomic_add_unless.
  destruct (work_in_progress pd) eqn:Hw;
    [repeat split; intros; first [discriminate | reflexivity | assumption] |].
  destruct (_ <? _);
    [cbn; repeat split; intros; first [discriminate | assumption] |].
  destruct (is_shared pd);
    [| cbn; repeat split; intros; first [discriminate | reflexivity]].
  destruct (work_count pd =? 1);
    [cbn; repeat split; intros; first [discriminate | assumption] |].
  cbn [negb last_sample_time set_work_count]. rewrite Z.eqb_refl.
  cbn. repeat split; intros; first [discriminate | reflexivity].
Qed.

Lemma queued_for_app p t1 t2 :
  queued_for p (t1 ++ t2) = (queued_for p t1 + queued_for p t2)%nat.
Proof. unfold queued_for. rewrite filter_app, length_app. reflexivity. Qed.

(** One call of the hook on a processor linked to [p]. *)
Lemma hook_call_step cpu time s p pd :
  cdbs_policy_dbs (per_cpu s cpu) = Some p ->
  policy_dbs_objs s !! p = Some pd ->
  dbs_update_util_handler cpu time s =
  Some (tt,
    mk_kstate (cpu_dbs s) (update_util_data s) (policies s)
      (<[p := fst (util_handler time pd)]> (policy_dbs_objs s))
      (dbs_data_objs s) (gdbs_data s)
      (trace s ++ if snd (util_handler time pd)
                  then [EvIrqWorkQueue p] else [])).
Proof.
  intros Hl Hpd. unfold dbs_update_util_handler. krun.
  destruct (util_handler time pd) as [pd' q]. krun.
  destruct q; kred; [reflexivity |]. rewrite app_nil_r. reflexivity.
Qed.

Lemma hook_calls_run calls : forall s,
  (forall c, c ∈ calls ->
     exists p, cdbs_policy_dbs (per_cpu s (fst c)) = Some p /\
               is_Some (policy_dbs_objs s !! p)) ->
  exists s', hook_calls calls s = Some (tt, s') /\ hook_calls_inv s s'.
Proof.
  induction calls as [| [cpu time] calls IH]; intros s Hlinked.
  - exists s. split; [reflexivity |]. unfold hook_calls_inv.
    repeat split; auto.
  - destruct (Hlinked (cpu, time)) as (p0 & Hl & [pd Hpd]);
      [apply list_elem_of_here |].
    cbn [fst] in Hl.
    unfold hook_calls. cbn [for_each fst snd].
    rewrite (mbind_some _ _ _ _ _ (hook_call_step cpu time s p0 pd Hl Hpd)).
    set (s1 := mk_kstate _ _ _ _ _ _ _).
    destruct (IH s1) as (s' & Hrun & I1 & I2 & I3 & I4 & Ig & I5 & I6).
    { intros c Hc.
      destruct (Hlinked c) as (p & Hp & Hsome);
        [apply list_elem_of_further; exact Hc |].
      exists p. split; [exact Hp |].
      unfold s1. cbn [policy_dbs_objs]. rewrite lookup_insert.
      destruct (decide (p0 = p)); [eexists; reflexivity | exact Hsome]. }
    exists s'. split; [exact Hrun |].
    unfold hook_calls_inv.
    split; [exact I1 |]. split; [exact I2 |]. split; [exact I3 |].
    split; [exact I4 |]. split; [exact Ig |]. split.
    { intros p. rewrite I5. unfold s1. cbn [policy_dbs_objs].
      rewrite lookup_insert. destruct (decide (p0 = p)) as [<- |];
        [| reflexivity].
      rewrite Hpd. split; intros _; eexists; reflexivity. }
    intros p. destruct (I6 p) as [J1 J2].
    assert (Hq1 : queued_for p (trace s1) =
                  (queued_for p (trace s)
                   + if decide (p0 = p)
                     then (if snd (util_handler time pd) then 1 else 0)
                     else 0)%nat).
    { unfold s1. cbn [trace]. rewrite queued_for_app. f_equal.
      destruct (snd (util_handler time pd));
        [| destruct (decide (p0 = p)); reflexivity].
      unfold queued_for. cbn [filter]. rewrite filter_cons.
      destruct (decide (p0 = p)) as [-> | Hne].
      - rewrite decide_True by reflexivity. reflexivity.
      - rewrite decide_False by congruence. reflexivity. }
    assert (Hw1 : work_pending s1 p =
                  if decide (p0 = p)
                  then work_in_progress (fst (util_handler time pd))
                  else work_pending s p).
    { unfold work_pending, s1. cbn [policy_dbs_objs]. rewrite lookup_insert.
      destruct (decide (p0 = p)); reflexivity. }
    destruct (util_handler_progress time pd) as (U1 & U2 & U3).
    destruct (decide (p0 = p)) as [<- | Hne].
    + assert (Hw0 : work_pending s p0 = work_in_progress pd)
        by (unfold work_pending; rewrite Hpd; reflexivity).
      destruct (snd (util_handler time pd)) eqn:Hsnd.
      * destruct (U2 eq_refl) as [Ua Ub].
        rewrite Hw0, Ua. split; [discriminate |].
        destruct (J1 ltac:(rewrite Hw1; exact Ub)) as [K1 K2].
        right. split; [lia | exact K1].
      * rewrite Hw0. specialize (U3 eq_refl). split.
        -- intros Hw.
           destruct J1 as [K1 K2]; [rewrite Hw1, U3; exact Hw |].
           split; [exact K1 | lia].
        -- destruct J2 as [K | [K1 K2]]; [left; lia | right].
           split; [lia | exact K2].
    + rewrite Nat.add_0_r in Hq1. rewrite <- Hq1, <- Hw1.
      split; [exact J1 | exact J2].
Qed.

(** X12 -- However often and at whatever times the scheduler calls the
    hook on processors that are linked to allocated policy data, the calls
    return, and for every policy the irq work is queued at most once over
    all of them: not at all when its work was already in progress, and if
    it is queued the work is marked in progress at the end.  The calls
    change nothing but the [policy_dbs_info] objects and the trace: the
    per-CPU data, the hooks, the policies, the tunables and the governor's
    global pointer are as before, and no [policy_dbs_info] appears or
    disappears. *)
Theorem hook_queues_at_most_once calls s :
  (forall c, c ∈ calls ->
     exists p, cdbs_policy_dbs (per_cpu s (fst c)) = Some p /\
               is_Some (policy_dbs_objs s !! p)) ->
  exists s',
    hook_calls calls s = Some (tt, s') /\
    cpu_dbs s' = cpu_dbs s /\
    update_util_data s' = update_util_data s /\
    policies s' = policies s /\
    dbs_data_objs s' = dbs_data_objs s /\
    gdbs_data s' = gdbs_data s /\
    (forall p, is_Some (policy_dbs_objs s' !! p)
               <-> is_Some (policy_dbs_objs s !! p)) /\
    forall p,
      (queued_for p (trace s') <= S (queued_for p (trace s)))%nat /\
      (work_pending s p = true ->
       queued_for p (trace s') = queued_for p (trace s)) /\
      (queued_for p (trace s') = S (queued_for p (trace s)) ->
       work_pending s' p = true).
Proof.
  intros Hlinked.
  destruct (hook_calls_run calls s Hlinked)
    as (s' & Hrun & I1 & I2 & I3 & I4 & Ig & I5 & I6).
  exists s'. repeat (split; [assumption |]).
  intros p. destruct (I6 p) as [J1 J2]. split; [| split].
  - destruct J2 as [-> | [-> _]]; lia.
  - intros Hw. apply J1. exact Hw.
  - intros Hq. destruct J2 as [E | [_ Hw]]; [lia | exact Hw].
Qed.

(** The three calls on the started example policy. *)
Lemma hook_queues_at_most_once_witness :
  exists s',
    hook_calls ex_calls ex_started = Some (tt, s') /\
    gdbs_data s' = gdbs_data ex_started /\
    (queued_for 0%nat (trace s') <= S (queued_for 0%nat (trace ex_started)))%nat.
Proof.
  destruct (hook_queues_at_most_once ex_calls ex_started)
    as (s' & Hrun & _ & _ & _ & _ & Hg & _ & Hq).
  { intros c Hc. exists 0%nat.
    unfold ex_calls in Hc.
    repeat (apply elem_of_cons in Hc as [-> | Hc]);
      [vm_compute; eauto .. | inversion Hc]. }
  exists s'. split; [exact Hrun |]. split; [exact Hg |]. apply (Hq 0%nat).
Defined.

(** STOP of the started example policy. *)
Lemma governor_stop_quiesces_witness :
  exists s',
    cpufreq_governor_stop 7%nat ex_started = Some (0, s') /\
    policy_dbs_objs s' = {[ 0%nat := ex_pd ]} /\
    trace s' = trace ex_started ++ [EvSynchronizeRcu; EvIrqWorkSync 0%nat;
                                    EvCancelWorkSync 0%nat].
Proof.
  destruct (governor_stop_quiesces 7%nat ex_started ex_pol 0%nat ex_pd)
    as (s' & Hrun & Hobjs & _ & _ & _ & _ & Ht); try reflexivity.
  exists s'. split; [exact Hrun |]. split; [| exact Ht].
  rewrite Hobjs. vm_compute. reflexivity.
Defined.

(** START of the example policy after POLICY_INIT. *)
Lemma governor_start_installs_hooks_witness :
  exists s' pd',
    cpufreq_governor_start (ex_clock 1000 5000) 7%nat ex_inited
      = Some (0, s') /\
    policy_dbs_objs s' !! 0%nat = Some pd' /\
    is_shared pd' = true /\
    (1%nat ∈ update_util_data s').
Proof.
  destruct (governor_start_installs_hooks (ex_clock 1000 5000) 7%nat
              ex_inited ex_pol 0%nat ex_pd_inited 0%nat ex_dbs
              ex_inited_attached eq_refl) as [_ H].
  destruct H as (s' & pd' & Hrun & Hpd & Hsh & _ & _ & _ & Hh & _).
  { cbn. lia. }
  exists s', pd'. split; [exact Hrun |]. split; [exact Hpd |].
  split; [exact Hsh |]. apply Hh. left.
  apply list_elem_of_further, list_elem_of_here.
Defined.

(** The work after the hook escalated at 1 ms, with the sampling rate at
    a second. *)
Lemma dbs_work_handler_rearms_hook_witness :
  exists s',
    dbs_work_handler (ex_gov_dbs_timer (ex_clock 1500 6000)) 0%nat
      (exec (dbs_update_util_handler 0%nat 1000000) ex_rate_1s)
    = Some (tt, s') /\
    (sample_delay_ns <$> policy_dbs_objs s' !! 0%nat) = Some 1000000000.
Proof.
  destruct (dbs_work_handler_rearms_hook
              (ex_gov_dbs_timer (ex_clock 1500 6000)) 0%nat
              (exec (dbs_update_util_handler 0%nat 1000000) ex_rate_1s)
              (mk_policy_dbs_info 7%nat 1000000 0 1 (Some 0%nat) 1 true true)
              1000000
              (exec (ex_gov_dbs_timer (ex_clock 1500 6000) 7%nat)
                 (with_trace
                    (fun t => t ++ [EvMutexLock (timer_mutex 0%nat)])
                    (exec (dbs_update_util_handler 0%nat 1000000)
                       ex_rate_1s)))
              (mk_policy_dbs_info 7%nat 1000000 0 1 (Some 0%nat) 1 true true))
    as (s' & Hrun & Hobjs & _); try (vm_compute; reflexivity).
  exists s'. split; [exact Hrun |]. rewrite Hobjs.
  rewrite lookup_insert_eq. reflexivity.
Defined.

(** * Samples and snapshots *)

Section Current.
Variable cputime_to_usecs : Z -> Z.
Variable src : idle_source.
Variables ignore_nice io_busy sampling_rate : Z.

(** A round on a current snapshot sees no wall time: it is skipped and
    leaves the processor as it is. *)
Lemma dbs_update_cpu_current j c :
  snapshot_current src ignore_nice io_busy j c ->
  dbs_update_cpu cputime_to_usecs src ignore_nice io_busy sampling_rate j c
  = (c, None).
Proof.
  intros (Hw & Hi & Hn). unfold dbs_update_cpu.
  destruct (get_cpu_idle_time src j io_busy) as [cur_idle cur_wall].
  cbn [fst snd] in Hw, Hi. rewrite Hw, Z.sub_diag.
  change (u32 0) with 0.
  destruct (truthy ignore_nice).
  - cbn [orb Z.eqb]. rewrite <- (Hn eq_refl). destruct c. cbn in *.
    subst. reflexivity.
  - cbn [orb Z.eqb]. destruct c. cbn in *. subst. reflexivity.
Qed.

Lemma dbs_update_loop_current js : forall max_load s,
  (forall j, j ∈ js ->
     snapshot_current src ignore_nice io_busy j (per_cpu s j)) ->
  exists s',
    dbs_update_loop cputime_to_usecs src ignore_nice io_busy sampling_rate
      js max_load s = Some (max_load, s') /\
    (forall j, per_cpu s' j = per_cpu s j) /\
    update_util_data s' = update_util_data s /\
    policies s' = policies s /\
    policy_dbs_objs s' = policy_dbs_objs s /\
    dbs_data_objs s' = dbs_data_objs s /\
    gdbs_data s' = gdbs_data s /\
    trace s' = trace s.
Proof.
  induction js as [| j js IH]; intros max_load s Hcur.
  - exists s. repeat split.
  - cbn [dbs_update_loop]. unfold mbind' at 1, load_cpu_dbs at 1.
    rewrite dbs_update_cpu_current
      by (apply Hcur, list_elem_of_here).
    unfold mbind' at 1, store_cpu_dbs at 1.
    set (s1 := with_cpu_dbs (insert j (per_cpu s j)) s).
    assert (Hsame : forall k, per_cpu s1 k = per_cpu s k).
    { intros k. unfold s1. rewrite per_cpu_insert.
      destruct (decide (j = k)) as [-> |]; reflexivity. }
    destruct (IH max_load s1) as (s' & Hrun & Hp & F).
    { intros k Hk. rewrite Hsame. apply Hcur, list_elem_of_further, Hk. }
    exists s'. split; [exact Hrun |]. split; [| exact F].
    intros k. rewrite Hp. apply Hsame.
Qed.

Lemma dbs_update_loop_fixed js : forall max_load s,
  (forall j, j ∈ js ->
     exists c, cpu_dbs s !! j = Some c /\
               snapshot_current src ignore_nice io_busy j c) ->
  dbs_update_loop cputime_to_usecs src ignore_nice io_busy sampling_rate
    js max_load s = Some (max_load, s).
Proof.
  induction js as [| j js IH]; intros max_load s Hcur; [reflexivity |].
  destruct (Hcur j) as (c & Hc & Hsnap); [apply list_elem_of_here |].
  cbn [dbs_update_loop]. unfold mbind' at 1, load_cpu_dbs at 1.
  assert (Hper : per_cpu s j = c) by (unfold per_cpu; rewrite Hc; reflexivity).
  rewrite Hper, (dbs_update_cpu_current j c Hsnap).
  unfold mbind' at 1, store_cpu_dbs at 1.
  assert (Hs : with_cpu_dbs (insert j c) s = s).
  { unfold with_cpu_dbs. rewrite (insert_id _ _ _ Hc). destruct s; reflexivity. }
  rewrite Hs. apply IH.
  intros k Hk. apply Hcur, list_elem_of_further, Hk.
Qed.

Lemma sample_cpus_present js : forall s k,
  k ∈ js \/ is_Some (cpu_dbs s !! k) ->
  is_Some (cpu_dbs (sample_cpus cputime_to_usecs src ignore_nice io_busy
                      sampling_rate js s) !! k).
Proof.
  induction js as [| j js IH]; intros s k Hk.
  - destruct Hk as [Hk | Hk]; [inversion Hk | exact Hk].
  - unfold sample_cpus in *. cbn [foldl]. apply IH.
    destruct Hk as [Hk | Hk].
    + apply elem_of_cons in Hk as [-> | Hk]; [right | left; exact Hk].
      cbn [cpu_dbs with_cpu_dbs]. rewrite lookup_insert_eq.
      eexists; reflexivity.
    + right. cbn [cpu_dbs with_cpu_dbs]. rewrite lookup_insert.
      destruct (decide (j = k)); [eexists; reflexivity | exact Hk].
Qed.

End Current.

Section NoTime.
Variable cputime_to_usecs : Z -> Z.

(** X13 -- A sample taken when no time has passed: if the snapshot of
    every processor of a governed policy holds what the idle time source
    reads now, [dbs_update] returns load 0 (every processor is skipped for
    lack of wall time) and leaves the per-CPU data, cached loads included,
    and everything else as it is: the hooks, the policies, the governor
    data, the governor's global pointer and the trace. *)
Theorem dbs_update_no_time_passed src s policy pol p pd d dbs :
  policy_attached s policy pol p pd d dbs ->
  (forall j, j ∈ for_each_cpu (cpus pol) ->
     snapshot_current src (ignore_nice_load dbs) (io_is_busy dbs) j
       (per_cpu s j)) ->
  exists s',
    dbs_update cputime_to_usecs src policy s = Some (0, s') /\
    (forall j, per_cpu s' j = per_cpu s j) /\
    update_util_data s' = update_util_data s /\
    policies s' = policies s /\
    policy_dbs_objs s' = policy_dbs_objs s /\
    dbs_data_objs s' = dbs_data_objs s /\
    gdbs_data s' = gdbs_data s /\
    trace s' = trace s.
Proof.
  intros Hat Hcur.
  rewrite (dbs_update_attached _ _ _ _ _ _ _ _ _ Hat).
  destruct (dbs_update_loop_current cputime_to_usecs src
              (ignore_nice_load dbs) (io_is_busy dbs)
              (u32 (sampling_rate dbs * rate_mult pd))
              (for_each_cpu (cpus pol)) 0 s Hcur)
    as (s' & Hrun & Hp & F1 & F2 & F3 & F4 & F5 & F6).
  exists s'. repeat (split; [assumption |]). exact F6.
Qed.

(** X14 -- What [dbs_update] touches: on a governed policy it returns,
    and afterwards the snapshot of every processor of the policy holds the
    readings of this sample, also for the processors whose round was
    skipped; processors outside the policy are untouched, no processor's
    link or hook function changes, and the policies, the governor data, the
    hooks and the trace are as before (no lock is taken, no driver
    called).  Hence a second sample at the same readings returns 0 and
    changes nothing at all. *)
Theorem dbs_update_refreshes_snapshots src s policy pol p pd d dbs :
  policy_attached s policy pol p pd d dbs ->
  exists load s',
    dbs_update cputime_to_usecs src policy s = Some (load, s') /\
    (forall j, j ∈ for_each_cpu (cpus pol) ->
       snapshot_current src (ignore_nice_load dbs) (io_is_busy dbs) j
         (per_cpu s' j)) /\
    (forall j, j ∉ for_each_cpu (cpus pol) -> per_cpu s' j = per_cpu s j) /\
    (forall j,
       cdbs_policy_dbs (per_cpu s' j) = cdbs_policy_dbs (per_cpu s j) /\
       update_util_func (per_cpu s' j) = update_util_func (per_cpu s j)) /\
    update_util_data s' = update_util_data s /\
    policies s' = policies s /\
    policy_dbs_objs s' = policy_dbs_objs s /\
    dbs_data_objs s' = dbs_data_objs s /\
    gdbs_data s' = gdbs_data s /\
    trace s' = trace s /\
    dbs_update cputime_to_usecs src policy s' = Some (0, s').
Proof.
  intros Hat.
  set (ign := ignore_nice_load dbs). set (io := io_is_busy dbs).
  set (sr := u32 (sampling_rate dbs * rate_mult pd)).
  set (js := for_each_cpu (cpus pol)).
  destruct (dbs_update_sample cputime_to_usecs src s policy pol p pd d dbs
              Hat)
    as (load & s' & Hrun & Hs' & _ & _ & _ & Hvis & Hoth & Hat' & Ht).
  fold ign io sr js in Hs', Hvis, Hoth.
  destruct (sample_cpus_frame cputime_to_usecs src ign io sr js s)
    as (F1 & F2 & F3 & F4 & F5 & _).
  rewrite <- Hs' in F1, F2, F3, F4, F5.
  assert (Hcur : forall j, j ∈ js ->
            snapshot_current src ign io j (per_cpu s' j)).
  { intros j Hj. rewrite (Hvis j Hj).
    destruct (dbs_update_cpu_snapshot cputime_to_usecs src ign io sr j
                (per_cpu s j)) as (Hw & Hi & Hn).
    split; [exact Hw |]. split; [exact Hi |].
    intros Hign. rewrite Hn, Hign. reflexivity. }
  exists load, s'. split; [exact Hrun |]. split; [exact Hcur |].
  split; [exact Hoth |]. split.
  { intros j. destruct (decide (j ∈ js)) as [Hj | Hj].
    - rewrite (Hvis j Hj). unfold dbs_update_cpu.
      destruct (get_cpu_idle_time src j io) as [cur_idle cur_wall].
      destruct (truthy ign);
        repeat match goal with
               | |- context [if ?b then _ else _] => destruct b
               end; split; reflexivity.
    - rewrite (Hoth j Hj). split; reflexivity. }
  repeat (split; [assumption |]).
  rewrite (dbs_update_attached _ _ _ _ _ _ _ _ _ Hat').
  apply dbs_update_loop_fixed. intros j Hj.
  destruct (sample_cpus_present cputime_to_usecs src ign io sr js s j
              (or_introl Hj)) as [c Hc].
  rewrite <- Hs' in Hc. exists c. split; [exact Hc |].
  specialize (Hcur j Hj). unfold per_cpu in Hcur. rewrite Hc in Hcur.
  exact Hcur.
Qed.

End NoTime.

(** ** [gov_update_cpu_data] *)

Section Refresh.
Variable src : idle_source.
Variables ign io : Z.

Let R := refresh_snapshot src ign io.

Lemma refresh_snapshot_facts j c :
  snapshot_current src ign io j (R j c) /\
  R j (R j c) = R j c /\
  prev_load (R j c) = prev_load c /\
  cdbs_policy_dbs (R j c) = cdbs_policy_dbs c /\
  update_util_func (R j c) = update_util_func c.
Proof.
  unfold R, refresh_snapshot, snapshot_current.
  destruct (truthy ign); cbn; repeat split; intros; try reflexivity;
    discriminate.
Qed.

Lemma refresh_cpus_lookup js : forall m k,
  default cpu_dbs_zero (refresh_cpus src ign io js m !! k) =
  if decide (k ∈ js)
  then R k (default cpu_dbs_zero (m !! k))
  else default cpu_dbs_zero (m !! k).
Proof.
  induction js as [| j js IH]; intros m k.
  - destruct (decide (k ∈ [])) as [H | _]; [inversion H | reflexivity].
  - unfold refresh_cpus in *. cbn [foldl]. rewrite IH, lookup_insert.
    fold R.
    destruct (decide (k ∈ js)) as [Hin | Hout];
      destruct (decide (k ∈ j :: js)) as [Hin' | Hout'];
      destruct (decide (j = k)) as [-> | Hne]; cbn [default];
      try reflexivity;
      try (exfalso; apply Hout'; apply elem_of_cons; auto; fail).
    + apply refresh_snapshot_facts.
    + apply elem_of_cons in Hin' as [-> | Hin']; contradiction.
Qed.

Lemma refresh_cpus_foldl js : forall s,
  foldl (fun s j => with_cpu_dbs (insert j (R j (per_cpu s j))) s) s js =
  with_cpu_dbs (refresh_cpus src ign io js) s.
Proof.
  induction js as [| j js IH]; intros s; cbn [foldl].
  - destruct s; reflexivity.
  - rewrite IH. destruct s; reflexivity.
Qed.

Lemma refresh_cpus_run js s :
  for_each js (fun j =>
    let* j_cdbs := load_cpu_dbs j in
    let '(idle, wall) := get_cpu_idle_time src j io in
    let j_cdbs := set_prev_cpu_idle idle (set_prev_cpu_wall wall j_cdbs) in
    let j_cdbs :=
      if truthy ign
      then set_prev_cpu_nice (kcpustat_nice src j) j_cdbs
      else j_cdbs in
    store_cpu_dbs j j_cdbs) s =
  Some (tt, with_cpu_dbs (refresh_cpus src ign io js) s).
Proof.
  rewrite (for_each_pure
    (fun j s0 => with_cpu_dbs (insert j (R j (per_cpu s0 j))) s0)).
  - rewrite refresh_cpus_foldl. reflexivity.
  - intros j s0. unfold mbind', load_cpu_dbs, store_cpu_dbs, R,
      refresh_snapshot.
    destruct (get_cpu_idle_time src j io) as [idle wall].
    cbn [fst snd]. destruct (truthy ign); reflexivity.
Qed.

(** The loop of [gov_update_cpu_data] over the policies [l]. *)
Lemma gov_update_cpu_data_loop l : forall s,
  (forall p, p ∈ l ->
     exists pd pol, policy_dbs_objs s !! p = Some pd /\
                    policies s !! pd_policy pd = Some pol) ->
  exists s',
    for_each l (fun policy_dbs =>
      let* pd := load_policy_dbs policy_dbs in
      let* policy := load_policy (pd_policy pd) in
      for_each (for_each_cpu (cpus policy)) (fun j =>
        let* j_cdbs := load_cpu_dbs j in
        let '(idle, wall) := get_cpu_idle_time src j io in
        let j_cdbs := set_prev_cpu_idle idle (set_prev_cpu_wall wall j_cdbs) in
        let j_cdbs :=
          if truthy ign
          then set_prev_cpu_nice (kcpustat_nice src j) j_cdbs
          else j_cdbs in
        store_cpu_dbs j j_cdbs)) s = Some (tt, s') /\
    update_util_data s' = update_util_data s /\
    policies s' = policies s /\
    policy_dbs_objs s' = policy_dbs_objs s /\
    dbs_data_objs s' = dbs_data_objs s /\
    gdbs_data s' = gdbs_data s /\
    trace s' = trace s /\
    (forall k, per_cpu s' k = per_cpu s k \/
               per_cpu s' k = R k (per_cpu s k)) /\
    (forall p pd pol k,
       p ∈ l -> policy_dbs_objs s !! p = Some pd ->
       policies s !! pd_policy pd = Some pol ->
       k ∈ for_each_cpu (cpus pol) ->
       per_cpu s' k = R k (per_cpu s k)) /\
    (forall k,
       (forall p pd pol,
          p ∈ l -> policy_dbs_objs s !! p = Some pd ->
          policies s !! pd_policy pd = Some pol ->
          k ∉ for_each_cpu (cpus pol)) ->
       per_cpu s' k = per_cpu s k).
Proof.
  induction l as [| p l IH]; intros s Hall.
  - exists s. repeat split; auto.
    intros p pd pol k Hp. inversion Hp.
  - destruct (Hall p) as (pd & pol & Hpd & Hpol); [apply list_elem_of_here |].
    cbn [for_each].
    rewrite (mbind_some _ _ s tt
               (with_cpu_dbs
                  (refresh_cpus src ign io (for_each_cpu (cpus pol))) s)).
    2: { rewrite (mbind_some _ _ _ _ _ (load_policy_dbs_some _ _ _ Hpd)).
         rewrite (mbind_some _ _ _ _ _ (load_policy_some _ _ _ Hpol)).
         apply refresh_cpus_run. }
    set (s1 := with_cpu_dbs _ s).
    assert (Hs1 : forall k,
      per_cpu s1 k = if decide (k ∈ for_each_cpu (cpus pol))
                     then R k (per_cpu s k) else per_cpu s k).
    { intros k. unfold per_cpu, s1. cbn [cpu_dbs with_cpu_dbs].
      apply refresh_cpus_lookup. }
    destruct (IH s1) as (s' & Hrun & F1 & F2 & F3 & F4 & F5 & F6 & A & B & C).
    { intros q Hq. apply Hall. apply list_elem_of_further, Hq. }
    exists s'. split; [exact Hrun |].
    repeat (split; [assumption |]).
    split; [| split].
    + intros k. specialize (A k). rewrite Hs1 in A.
      destruct (decide (k ∈ for_each_cpu (cpus pol))).
      * right. destruct A as [A | A]; rewrite A; [reflexivity |].
        apply refresh_snapshot_facts.
      * exact A.
    + intros q qd qol k Hq Hqd Hqol Hk.
      apply elem_of_cons in Hq as [-> | Hq].
      * rewrite Hpd in Hqd. injection Hqd as <-.
        rewrite Hpol in Hqol. injection Hqol as <-.
        destruct (A k) as [E | E]; rewrite E, Hs1;
          rewrite decide_True by exact Hk; [reflexivity |].
        apply refresh_snapshot_facts.
      * rewrite (B q qd qol k Hq Hqd Hqol Hk), Hs1.
        destruct (decide (k ∈ for_each_cpu (cpus pol))); [| reflexivity].
        apply refresh_snapshot_facts.
    + intros k Hk. rewrite C, Hs1.
      * rewrite decide_False; [reflexivity |].
        apply (Hk p pd pol); [apply list_elem_of_here | exact Hpd | exact Hpol].
      * intros q qd qol Hq. apply Hk. apply list_elem_of_further, Hq.
Qed.

End Refresh.

Section RefreshThenSample.
Variable cputime_to_usecs : Z -> Z.

(** X15 -- [gov_update_cpu_data] on tunables whose listed policies are
    all in place: it returns; every processor of every listed policy gets
    the current readings as its snapshot (wall and idle time, and nice time
    when it is ignored); the cached load, the link and the hook function of
    every processor are kept; processors of no listed policy are untouched
    and so is the rest of the memory (the hooks, the policies, the governor
    data, the governor's global pointer and the trace).  A sample of a
    listed policy at the same readings then measures no time and
    returns 0. *)
Theorem gov_update_cpu_data_refreshes src d s dbs :
  dbs_data_objs s !! d = Some dbs ->
  (forall p, p ∈ policy_list (attr_set dbs) ->
     exists pd pol, policy_dbs_objs s !! p = Some pd /\
                    policies s !! pd_policy pd = Some pol) ->
  exists s',
    gov_update_cpu_data src d s = Some (tt, s') /\
    (forall p pd pol j,
       p ∈ policy_list (attr_set dbs) ->
       policy_dbs_objs s !! p = Some pd ->
       policies s !! pd_policy pd = Some pol ->
       j ∈ for_each_cpu (cpus pol) ->
       snapshot_current src (ignore_nice_load dbs) (io_is_busy dbs) j
         (per_cpu s' j)) /\
    (forall j,
       prev_load (per_cpu s' j) = prev_load (per_cpu s j) /\
       cdbs_policy_dbs (per_cpu s' j) = cdbs_policy_dbs (per_cpu s j) /\
       update_util_func (per_cpu s' j) = update_util_func (per_cpu s j)) /\
    (forall j,
       (forall p pd pol,
          p ∈ policy_list (attr_set dbs) ->
          policy_dbs_objs s !! p = Some pd ->
          policies s !! pd_policy pd = Some pol ->
          j ∉ for_each_cpu (cpus pol)) ->
       per_cpu s' j = per_cpu s j) /\
    update_util_data s' = update_util_data s /\
    policies s' = policies s /\
    policy_dbs_objs s' = policy_dbs_objs s /\
    dbs_data_objs s' = dbs_data_objs s /\
    gdbs_data s' = gdbs_data s /\
    trace s' = trace s /\
    (forall policy pol p pd,
       policy_attached s policy pol p pd d dbs ->
       p ∈ policy_list (attr_set dbs) ->
       pd_policy pd = policy ->
       exists s'',
         dbs_update cputime_to_usecs src policy s' = Some (0, s'') /\
         forall j, per_cpu s'' j = per_cpu s' j).
Proof.
  intros Hd Hall.
  destruct (gov_update_cpu_data_loop src (ignore_nice_load dbs)
              (io_is_busy dbs) (policy_list (attr_set dbs)) s Hall)
    as (s' & Hrun & F1 & F2 & F3 & F4 & F5 & F6 & A & B & C).
  exists s'. split.
  { unfold gov_update_cpu_data.
    rewrite (mbind_some _ _ _ _ _ (load_dbs_data_some _ _ _ Hd)).
    exact Hrun. }
  assert (Hcur : forall p pd pol j,
    p ∈ policy_list (attr_set dbs) ->
    policy_dbs_objs s !! p = Some pd ->
    policies s !! pd_policy pd = Some pol ->
    j ∈ for_each_cpu (cpus pol) ->
    snapshot_current src (ignore_nice_load dbs) (io_is_busy dbs) j
      (per_cpu s' j)).
  { intros p pd pol j Hp Hpd Hpol Hj.
    rewrite (B p pd pol j Hp Hpd Hpol Hj). apply refresh_snapshot_facts. }
  split; [exact Hcur |]. split.
  { intros j. destruct (A j) as [-> | ->]; [repeat split |].
    destruct (refresh_snapshot_facts src (ignore_nice_load dbs)
                (io_is_busy dbs) j (per_cpu s j)) as (_ & _ & E1 & E2 & E3).
    repeat split; assumption. }
  split; [exact C |].
  repeat (split; [assumption |]).
  intros policy pol p pd Hat Hp Hback.
  assert (Hat' : policy_attached s' policy pol p pd d dbs)
    by (apply (policy_attached_frame s s'); assumption).
  rewrite (dbs_update_attached _ _ _ _ _ _ _ _ _ Hat').
  destruct Hat as (H1 & H2 & H3 & H4 & H5).
  destruct (dbs_update_loop_current cputime_to_usecs src
              (ignore_nice_load dbs) (io_is_busy dbs)
              (u32 (sampling_rate dbs * rate_mult pd))
              (for_each_cpu (cpus pol)) 0 s')
    as (s'' & Hrun' & Hp' & _).
  { intros j Hj. apply (Hcur p pd pol j Hp H3); [| exact Hj].
    rewrite Hback. exact H1. }
  exists s''. split; assumption.
Qed.

End RefreshThenSample.

(** A sample of the example policy at the readings of START. *)
Lemma dbs_update_no_time_passed_witness :
  exists s',
    dbs_update (fun x => x) (ex_clock 1000 5000) 7%nat ex_started
      = Some (0, s') /\
    update_util_data s' = update_util_data ex_started /\
    gdbs_data s' = gdbs_data ex_started /\
    trace s' = trace ex_started.
Proof.
  destruct (dbs_update_no_time_passed (fun x => x) (ex_clock 1000 5000)
              ex_started 7%nat ex_pol 0%nat ex_pd 0%nat ex_dbs
              ex_started_attached)
    as (s' & Hrun & _ & Hu & _ & _ & _ & Hg & Ht).
  { intros j Hj. vm_compute in Hj.
    repeat (apply elem_of_cons in Hj as [-> | Hj]);
      [vm_compute; repeat split; discriminate .. | inversion Hj]. }
  exists s'. repeat (split; [assumption |]). exact Ht.
Defined.

(** The first sample after START and its repetition. *)
Lemma dbs_update_refreshes_snapshots_witness :
  exists load s',
    dbs_update (fun x => x) (ex_clock 3000 15000) 7%nat ex_started
      = Some (load, s') /\
    prev_cpu_wall (per_cpu s' 1%nat) = 15000 /\
    dbs_update (fun x => x) (ex_clock 3000 15000) 7%nat s' = Some (0, s').
Proof.
  destruct (dbs_update_refreshes_snapshots (fun x => x) (ex_clock 3000 15000)
              ex_started 7%nat ex_pol 0%nat ex_pd 0%nat ex_dbs
              ex_started_attached)
    as (load & s' & Hrun & Hcur & _ & _ & _ & _ & _ & _ & _ & _ & Hagain).
  exists load, s'. split; [exact Hrun |]. split; [| exact Hagain].
  apply (Hcur 1%nat). apply list_elem_of_further, list_elem_of_here.
Defined.

(** A refresh of the started example policy at wall time 9000. *)
Lemma gov_update_cpu_data_refreshes_witness :
  exists s',
    gov_update_cpu_data (ex_clock 2000 9000) 0%nat ex_started
      = Some (tt, s') /\
    prev_load (per_cpu s' 0%nat) = prev_load (per_cpu ex_started 0%nat) /\
    gdbs_data s' = gdbs_data ex_started /\
    exists s'',
      dbs_update (fun x => x) (ex_clock 2000 9000) 7%nat s' = Some (0, s'').
Proof.
  destruct (gov_update_cpu_data_refreshes (fun x => x) (ex_clock 2000 9000)
              0%nat ex_started ex_dbs)
    as (s' & Hrun & _ & Hload & _ & _ & _ & _ & _ & Hg & _ & Hsample).
  { vm_compute. reflexivity. }
  { intros p Hp. exists ex_pd, ex_pol.
    apply list_elem_of_singleton in Hp as ->. vm_compute. split; reflexivity. }
  exists s'. split; [exact Hrun |]. split; [apply Hload |].
  split; [exact Hg |].
  destruct (Hsample 7%nat ex_pol 0%nat ex_pd ex_started_attached)
    as (s'' & Hs & _); [apply list_elem_of_here | reflexivity |].
  exists s''. exact Hs.
Defined.

(** * Locking *)

Lemma held_after_app t1 : forall h t2,
  held_after h (t1 ++ t2) =
  match held_after h t1 with
  | Some h1 => held_after h1 t2
  | None => None
  end.
Proof.
  induction t1 as [| e t1 IH]; intros h t2; [reflexivity |].
  destruct e; cbn [held_after app]; try apply IH.
  - destruct (forallb _ h); [apply IH | reflexivity].
  - destruct h as [| x h]; [reflexivity |].
    destruct (decide (x = m)); [apply IH | reflexivity].
Qed.

(** The rules of [locks_nested], one for each operation of the monad. *)
Lemma lk_quiet {A} h (m : M A) :
  (forall s a s', m s = Some (a, s') -> trace s' = trace s) ->
  locks_nested h h m.
Proof.
  intros Hm s a s' Hrun. exists []. rewrite app_nil_r.
  split; [apply (Hm s a s' Hrun) | reflexivity].
Qed.

Lemma lk_ret {A} h (a : A) : locks_nested h h (mreturn a).
Proof. apply lk_quiet. intros s b s' [= _ <-]. reflexivity. Qed.

Lemma lk_fault {A} h h' : locks_nested h h' (@fault A).
Proof. intros s a s' Hrun. discriminate Hrun. Qed.

Lemma lk_bind {A B} h h1 h2 (m : M A) (k : A -> M B) :
  locks_nested h h1 m -> (forall a, locks_nested h1 h2 (k a)) ->
  locks_nested h h2 (mbind' m k).
Proof.
  intros Hm Hk s b s' Hrun. unfold mbind' in Hrun.
  destruct (m s) as [[a s1] |] eqn:E; [| discriminate].
  destruct (Hm s a s1 E) as (e1 & T1 & L1).
  destruct (Hk a s1 b s' Hrun) as (e2 & T2 & L2).
  exists (e1 ++ e2). split.
  - rewrite T2, T1, app_assoc. reflexivity.
  - rewrite held_after_app, L1. exact L2.
Qed.

Lemma lk_lock h m :
  forallb (fun x => (mutex_rank x <? mutex_rank m)%nat) h = true ->
  locks_nested h (m :: h) (mutex_lock m).
Proof.
  intros Hr s a s' [= _ <-]. exists [EvMutexLock m].
  split; [reflexivity |]. cbn [held_after]. rewrite Hr. reflexivity.
Qed.

Lemma lk_unlock h m : locks_nested (m :: h) h (mutex_unlock m).
Proof.
  intros s a s' [= _ <-]. exists [EvMutexUnlock m].
  split; [reflexivity |]. cbn [held_after].
  rewrite decide_True by reflexivity. reflexivity.
Qed.

Lemma lk_emit h e : is_mutex_event e = false -> locks_nested h h (emit e).
Proof.
  intros He s a s' [= _ <-]. exists [e]. split; [reflexivity |].
  destruct e; try discriminate He; reflexivity.
Qed.

Lemma lk_for_each {A} h (l : list A) (body : A -> M unit) :
  (forall x, locks_nested h h (body x)) -> locks_nested h h (for_each l body).
Proof.
  intros Hb. induction l as [| x l IH]; cbn [for_each].
  - apply lk_ret.
  - apply (lk_bind h h h); [apply Hb | intros _; exact IH].
Qed.

Lemma lk_load_policy h p : locks_nested h h (load_policy p).
Proof.
  apply lk_quiet. intros s a s'. unfold load_policy.
  destruct (policies s !! p); intros [= _ <-]. reflexivity.
Qed.

Lemma lk_store_policy h p x : locks_nested h h (store_policy p x).
Proof.
  apply lk_quiet. intros s a s'. unfold store_policy.
  destruct (policies s !! p); intros [= _ <-]. reflexivity.
Qed.

Lemma lk_load_policy_dbs h p : locks_nested h h (load_policy_dbs p).
Proof.
  apply lk_quiet. intros s a s'. unfold load_policy_dbs.
  destruct (policy_dbs_objs s !! p); intros [= _ <-]. reflexivity.
Qed.

Lemma lk_store_policy_dbs h p x : locks_nested h h (store_policy_dbs p x).
Proof.
  apply lk_quiet. intros s a s'. unfold store_policy_dbs.
  destruct (policy_dbs_objs s !! p); intros [= _ <-]. reflexivity.
Qed.

Lemma lk_load_dbs_data h p : locks_nested h h (load_dbs_data p).
Proof.
  apply lk_quiet. intros s a s'. unfold load_dbs_data.
  destruct (dbs_data_objs s !! p); intros [= _ <-]. reflexivity.
Qed.

Lemma lk_store_dbs_data h p x : locks_nested h h (store_dbs_data p x).
Proof.
  apply lk_quiet. intros s a s'. unfold store_dbs_data.
  destruct (dbs_data_objs s !! p); intros [= _ <-]. reflexivity.
Qed.

Lemma lk_nonnull {A} h (o : option A) : locks_nested h h (nonnull o).
Proof. destruct o; [apply lk_ret | apply lk_fault]. Qed.

Lemma lk_load_cpu_dbs h j : locks_nested h h (load_cpu_dbs j).
Proof. apply lk_quiet. intros s a s' [= _ <-]. reflexivity. Qed.

Lemma lk_store_cpu_dbs h j c : locks_nested h h (store_cpu_dbs j c).
Proof. apply lk_quiet. intros s a s' [= _ <-]. reflexivity. Qed.

Lemma lk_read {A} h (f : kstate -> A) :
  locks_nested h h (fun s => Some (f s, s)).
Proof. apply lk_quiet. intros s a s' [= _ <-]. reflexivity. Qed.

Lemma lk_update {A} h (a : A) (f : kstate -> kstate) :
  (forall s, trace (f s) = trace s) ->
  locks_nested h h (fun s => Some (a, f s)).
Proof. intros Hf. apply lk_quiet. intros s b s' [= _ <-]. apply Hf. Qed.

Ltac lk_step :=
  first
    [ apply lk_ret | apply lk_fault
    | apply lk_lock; reflexivity
    | apply lk_unlock
    | apply lk_emit; reflexivity
    | apply lk_load_policy | apply lk_store_policy
    | apply lk_load_policy_dbs | apply lk_store_policy_dbs
    | apply lk_load_dbs_data | apply lk_store_dbs_data
    | apply lk_nonnull | apply lk_load_cpu_dbs | apply lk_store_cpu_dbs
    | progress cbv zeta
    | apply lk_update; intros ?; reflexivity
    | apply lk_read
    | eapply lk_bind; [| intros ?]
    | apply lk_for_each; intros ?
    | match goal with
      | |- locks_nested _ _ (if ?b then _ else _) => destruct b
      | |- locks_nested _ _ (match ?o with _ => _ end) => destruct o
      end ].

Ltac lk_all := repeat lk_step.

Lemma lk_gov_update_sample_delay h pd delay_us :
  locks_nested h h (gov_update_sample_delay pd delay_us).
Proof. unfold gov_update_sample_delay. lk_all. Qed.

Lemma lk_dbs_update_util_handler h cpu time :
  locks_nested h h (dbs_update_util_handler cpu time).
Proof. unfold dbs_update_util_handler. lk_all. Qed.

Lemma lk_store_sampling_rate sscanf_u d buf count :
  locks_nested [update_lock d] [update_lock d]
    (store_sampling_rate sscanf_u d buf count).
Proof.
  unfold store_sampling_rate. destruct (sscanf_u buf) as [ret rate].
  lk_all.
Qed.

Lemma lk_governor_store sscanf_u d buf count :
  locks_nested [] []
    (governor_store d (store_sampling_rate sscanf_u) buf count).
Proof.
  unfold governor_store. lk_all. apply lk_store_sampling_rate.
Qed.

Lemma lk_dbs_update_loop cputime_to_usecs h src ign io sr js : forall m,
  locks_nested h h (dbs_update_loop cputime_to_usecs src ign io sr js m).
Proof.
  induction js as [| j js IH]; intros m; cbn [dbs_update_loop]; lk_all.
  apply IH.
Qed.

Lemma lk_dbs_update cputime_to_usecs h src policy :
  locks_nested h h (dbs_update cputime_to_usecs src policy).
Proof. unfold dbs_update. lk_all. apply lk_dbs_update_loop. Qed.

Lemma lk_gov_update_cpu_data h src d :
  locks_nested h h (gov_update_cpu_data src d).
Proof. unfold gov_update_cpu_data. lk_all. Qed.

Section Locks.
Variable cputime_to_usecs : Z -> Z.
Variable sscanf_u : string -> Z * Z.
Variable have_governor_per_policy : bool.
Variable cpufreq_driver_target :
  cpufreq_policy -> Z -> relation -> cpufreq_policy.
Variable MIN_LATENCY_MULTIPLIER : Z.
Variable LATENCY_MULTIPLIER : Z.
Variable gov_alloc_succeeds : kstate -> bool.
Variable kzalloc_succeeds : kstate -> bool.
Variable kobject_init_and_add : kstate -> Z.
Variable gov_init : dbs_data -> bool -> Z * dbs_data.
Variable gov_dbs_timer : ptr -> M Z.

Lemma lk_alloc_policy_dbs_info h policy :
  locks_nested h h (alloc_policy_dbs_info gov_alloc_succeeds policy).
Proof.
  assert (K : forall s0,
    locks_nested h h
      (let* pol := load_policy policy in
       if negb (gov_alloc_succeeds s0) then mreturn None else
       let policy_dbs := fresh (dom (policy_dbs_objs s0)) in
       (fun s' => Some (tt,
          with_policy_dbs_objs (insert policy_dbs policy_dbs_zero) s'));;;
       store_policy_dbs policy_dbs
         (mk_policy_dbs_info policy 0 0 0 None 0 false false);;;
       for_each (for_each_cpu (related_cpus pol)) (fun j =>
         let* j_cdbs := load_cpu_dbs j in
         store_cpu_dbs j (set_cdbs_link (Some policy_dbs) true j_cdbs));;;
       mreturn (Some policy_dbs))).
  { intros s0. lk_all. }
  intros s a s' Hrun. exact (K s s a s' Hrun).
Qed.

Lemma lk_free_policy_dbs_info h p :
  locks_nested h h (free_policy_dbs_info p).
Proof. unfold free_policy_dbs_info. lk_all. Qed.

Ltac lk_more :=
  repeat first
    [ apply lk_alloc_policy_dbs_info | apply lk_free_policy_dbs_info
    | apply lk_gov_update_sample_delay
    | lk_step ].

Lemma lk_governor_init policy :
  locks_nested [] []
    (cpufreq_governor_init have_governor_per_policy MIN_LATENCY_MULTIPLIER
       LATENCY_MULTIPLIER gov_alloc_succeeds kzalloc_succeeds
       kobject_init_and_add gov_init policy).
Proof.
  unfold cpufreq_governor_init, set_policy_governor_data, set_gdbs_data,
    kfree_dbs_data, gov_attr_set_init, gov_attr_set_get.
  lk_more.
  apply lk_quiet. intros s0 r s1.
  destruct (kzalloc_succeeds s0); intros [= _ <-]; reflexivity.
Qed.

Lemma lk_governor_exit policy :
  locks_nested [] [] (cpufreq_governor_exit have_governor_per_policy policy).
Proof.
  unfold cpufreq_governor_exit, gov_attr_set_put, set_policy_governor_data,
    set_gdbs_data, kfree_dbs_data.
  lk_more.
Qed.

Lemma lk_governor_start src policy :
  locks_nested [] [] (cpufreq_governor_start src policy).
Proof. unfold cpufreq_governor_start, gov_set_update_util. lk_more. Qed.

Lemma lk_governor_stop policy :
  locks_nested [] [] (cpufreq_governor_stop policy).
Proof.
  unfold cpufreq_governor_stop, gov_cancel_work, gov_clear_update_util.
  lk_more.
Qed.

Lemma lk_governor_limits policy :
  locks_nested [] [] (cpufreq_governor_limits cpufreq_driver_target policy).
Proof.
  unfold cpufreq_governor_limits, __cpufreq_driver_target. lk_more.
Qed.

(** X16 -- The locking of the file.  Every governor event, the sysfs
    store of the sampling rate and the deferred work (given a governor
    sample that returns holding just the [timer_mutex] it was called with),
    whenever they return, have released every mutex they took, on every
    path, error paths included; they release in the reverse order of taking
    and take only in the order [gov_dbs_data_mutex], [update_lock],
    [timer_mutex], never two mutexes of one kind at once.  The hook,
    [dbs_update] and [gov_update_cpu_data] take no mutex at all, whatever
    their caller holds. *)
Theorem governor_locks_nested :
  (forall src policy event,
     locks_nested [] []
       (cpufreq_governor_dbs have_governor_per_policy cpufreq_driver_target
          MIN_LATENCY_MULTIPLIER LATENCY_MULTIPLIER gov_alloc_succeeds
          kzalloc_succeeds kobject_init_and_add gov_init src policy event)) /\
  (forall d buf count,
     locks_nested [] []
       (governor_store d (store_sampling_rate sscanf_u) buf count)) /\
  (forall p,
     (forall policy,
        locks_nested [timer_mutex p] [timer_mutex p] (gov_dbs_timer policy)) ->
     locks_nested [] [] (dbs_work_handler gov_dbs_timer p)) /\
  (forall h cpu time, locks_nested h h (dbs_update_util_handler cpu time)) /\
  (forall h src policy,
     locks_nested h h (dbs_update cputime_to_usecs src policy)) /\
  (forall h src d, locks_nested h h (gov_update_cpu_data src d)).
Proof.
  split; [| split; [| split; [| split; [| split]]]].
  - intros src policy event. unfold cpufreq_governor_dbs.
    destruct event; try apply lk_governor_init;
      (eapply lk_bind; [apply lk_load_policy | intros pol]);
      destruct (governor_data pol); try apply lk_ret.
    + apply lk_governor_start.
    + apply lk_governor_stop.
    + apply lk_governor_limits.
    + apply lk_governor_exit.
  - intros d buf count. apply lk_governor_store.
  - intros p Htimer. unfold dbs_work_handler. lk_more. apply Htimer.
  - intros h cpu time. apply lk_dbs_update_util_handler.
  - intros h src policy. apply lk_dbs_update.
  - intros h src d. apply lk_gov_update_cpu_data.
Qed.

End Locks.

(** ** The usage count of the tunables *)

Lemma list_del_length node l :
  NoDup l -> node ∈ l -> S (length (list_del node l)) = length l.
Proof.
  unfold list_del. induction l as [| x l IH]; intros Hnd Hin;
    [inversion Hin |].
  apply NoDup_cons in Hnd as [Hx Hnd]. rewrite filter_cons.
  destruct (decide (x <> node)) as [Hne | He].
  - cbn [length]. f_equal. apply IH; [exact Hnd |].
    apply elem_of_cons in Hin as [-> | Hin]; [contradiction | exact Hin].
  - assert (x = node) as -> by (destruct (decide (x = node)); tauto).
    cbn [length]. f_equal.
    clear IH Hin Hnd. induction l as [| y l IH]; [reflexivity |].
    apply not_elem_of_cons in Hx as [Hy Hx]. rewrite filter_cons.
    rewrite decide_True by congruence. cbn [length]. f_equal. apply IH, Hx.
Qed.

(** X17 -- The usage count counts the listed policies.  On an attribute
    set whose count is the number of policies on its list, each listed
    once: [gov_attr_set_get] of a policy not on the list puts it first and
    adds one to the count; [gov_attr_set_put] of a listed policy takes
    exactly that policy off, returns the number of policies that remain,
    and puts the kobject exactly when none remains.  Both leave the count
    equal to the length of the list, change nothing else of the tunables,
    and work under [update_lock]. *)
Theorem gov_attr_set_counts_policies d node s dbs :
  dbs_data_objs s !! d = Some dbs ->
  attr_set_counted (attr_set dbs) ->
  usage_count (attr_set dbs) < 2 ^ 31 - 1 ->
  let l := policy_list (attr_set dbs) in
  let n := usage_count (attr_set dbs) in
  (node ∉ l ->
   exists s',
     gov_attr_set_get d node s = Some (tt, s') /\
     dbs_data_objs s' =
       <[d := set_attr_set (mk_gov_attr_set (node :: l) (n + 1)) dbs]>
         (dbs_data_objs s) /\
     attr_set_counted (mk_gov_attr_set (node :: l) (n + 1)) /\
     trace s' = trace s ++ [EvMutexLock (update_lock d);
                            EvMutexUnlock (update_lock d)]) /\
  (node ∈ l ->
   exists s',
     gov_attr_set_put d node s = Some (n - 1, s') /\
     dbs_data_objs s' =
       <[d := set_attr_set (mk_gov_attr_set (list_del node l) (n - 1)) dbs]>
         (dbs_data_objs s) /\
     attr_set_counted (mk_gov_attr_set (list_del node l) (n - 1)) /\
     (forall q, q ∈ list_del node l <-> q ∈ l /\ q <> node) /\
     trace s' = trace s ++ [EvMutexLock (update_lock d);
                            EvMutexUnlock (update_lock d)]
                        ++ (if n =? 1 then [EvKobjectPut d] else [])).
Proof.
  intros Hd [Hcount Hnd] Hmax l n. fold l n in Hcount, Hnd, Hmax. split.
  - intros Hnew. unfold gov_attr_set_get, list_add. krun. fold l n.
    rewrite (s32_small (n + 1)) by lia.
    eexists. split; [reflexivity |].
    cbn [dbs_data_objs trace]. rewrite <- app_assoc.
    split; [reflexivity |]. split; [| reflexivity].
    split; cbn [usage_count policy_list length]; [lia |].
    apply NoDup_cons. split; assumption.
  - intros Hin. pose proof (list_del_length node _ Hnd Hin) as Hlen.
    unfold gov_attr_set_put. krun. fold l n.
    rewrite (s32_small (n - 1)) by lia.
    rewrite (u32_small (n - 1)) by lia.
    unfold truthy.
    destruct (Z.eqb_spec (n - 1) 0) as [E | E];
      destruct (Z.eqb_spec n 1) as [E1 | E1];
      try lia; cbn [negb]; kred;
      (eexists; split;
         [first [reflexivity | do 2 f_equal; symmetry; exact E] |]);
      cbn [dbs_data_objs trace];
      rewrite <- ?app_assoc, ?app_nil_r;
      (split; [reflexivity |]);
      (split; [split; [cbn [usage_count policy_list]; lia
                      | cbn [policy_list]; apply NoDup_filter, Hnd] |]);
      (split; [intros q; unfold list_del; rewrite list_elem_of_filter; tauto
              | reflexivity]).
Qed.

(** The second example policy leaves the shared tunables. *)
Lemma gov_attr_set_counts_policies_witness :
  exists s',
    gov_attr_set_put 0%nat 1%nat ex_shared = Some (1, s') /\
    dbs_data_objs s' = {[ 0%nat := ex_dbs ]}.
Proof.
  destruct (gov_attr_set_counts_policies 0%nat 1%nat ex_shared
              (set_attr_set (mk_gov_attr_set [1%nat; 0%nat] 2) ex_dbs))
    as [_ Hput].
  - vm_compute. reflexivity.
  - split; [reflexivity |]. cbn. apply NoDup_cons. split.
    + intros H. apply list_elem_of_singleton in H. discriminate H.
    + apply NoDup_singleton.
  - cbn. lia.
  - destruct Hput as (s' & Hrun & Hobjs & _).
    { cbn. apply list_elem_of_here. }
    exists s'. split; [exact Hrun |].
    rewrite Hobjs. vm_compute. reflexivity.
Defined.

(** POLICY_INIT of the second example policy. *)
Lemma governor_locks_nested_witness :
  exists evs,
    trace ex_shared = trace ex_second ++ evs /\
    held_after [] evs = Some [].
Proof.
  destruct (governor_locks_nested (fun x => x) ex_sscanf_u false
              ex_driver_target 20 1000 (fun _ => true) (fun _ => true)
              (fun _ => 0) ex_gov_init (ex_gov_dbs_timer (ex_clock 0 0)))
    as [Hev _].
  apply (Hev (ex_clock 0 0) 8%nat CPUFREQ_GOV_POLICY_INIT ex_second 0
           ex_shared).
  vm_compute. reflexivity.
Defined.

(** ** Reachable memories *)

(** The started example policy is reached from boot by POLICY_INIT and
    START. *)
Lemma reachable_dbs_update_load_witness :
  exists load s',
    dbs_update (fun x => x) (ex_clock 3000 15000) 7%nat ex_started
      = Some (load, s') /\
    0 <= load <= 100.
Proof.
  destruct (reachable_dbs_update_load (fun x => x) ex_sscanf_u false
              ex_driver_target 20 1000 (fun _ => true) (fun _ => true)
              (fun _ => 0) ex_gov_init (ex_gov_dbs_timer (ex_clock 0 0))
              (ex_gov_dbs_timer_keeps (ex_clock 0 0))
              (ex_clock 3000 15000) ex_started 7%nat ex_pol 0%nat ex_pd
              0%nat ex_dbs)
    as (load & s' & Hrun & Hb & _).
  - exists ex_boot. split; [reflexivity |].
    eapply rtc_l.
    + apply (step_event _ _ _ _ _ _ _ _ _ _ _ (ex_clock 0 0) 7%nat
               CPUFREQ_GOV_POLICY_INIT ex_boot 0 ex_inited).
      vm_compute. reflexivity.
    + eapply rtc_l; [| apply rtc_refl].
      apply (step_event _ _ _ _ _ _ _ _ _ _ _ (ex_clock 1000 5000) 7%nat
               CPUFREQ_GOV_START ex_inited 0 ex_started).
      vm_compute. reflexivity.
  - exact ex_started_attached.
  - exists load, s'. split; assumption.
Defined.

(** * Governor data that hang together *)

Lemma fmap_lookup_transfer {A B} (f : A -> B) (m m' : gmap nat A) k x :
  f <$> (m' !! k) = f <$> (m !! k) ->
  m !! k = Some x -> exists x', m' !! k = Some x' /\ f x' = f x.
Proof.
  intros H Hx. rewrite Hx in H. destruct (m' !! k) as [x' |]; [| discriminate].
  exists x'. split; [reflexivity |]. cbn in H. congruence.
Qed.

(** [governed_ok] looks at the links between the objects only. *)
Lemma governed_ok_shape per N s s' :
  (forall k, governor_data <$> (policies s' !! k)
             = governor_data <$> (policies s !! k)) ->
  (forall k, pd_key <$> (policy_dbs_objs s' !! k)
             = pd_key <$> (policy_dbs_objs s !! k)) ->
  (forall k x, dbs_data_objs s !! k = Some x ->
     exists x', dbs_data_objs s' !! k = Some x' /\ attr_set x' = attr_set x) ->
  gdbs_data s' = gdbs_data s ->
  governed_ok per N s -> governed_ok per N s'.
Proof.
  intros HP HO HD Hg (A & B & C).
  assert (HP' : forall k pol', policies s' !! k = Some pol' ->
            exists pol, policies s !! k = Some pol /\
                        governor_data pol = governor_data pol').
  { intros k pol'. apply fmap_lookup_transfer. symmetry. apply HP. }
  assert (HO' : forall k pd', policy_dbs_objs s' !! k = Some pd' ->
            exists pd, policy_dbs_objs s !! k = Some pd /\
                       pd_key pd = pd_key pd').
  { intros k pd'. apply fmap_lookup_transfer. symmetry. apply HO. }
  assert (HPf : forall k pol, policies s !! k = Some pol ->
            exists pol', policies s' !! k = Some pol' /\
                         governor_data pol' = governor_data pol).
  { intros k pol. apply fmap_lookup_transfer. apply HP. }
  assert (HOf : forall k pd, policy_dbs_objs s !! k = Some pd ->
            exists pd', policy_dbs_objs s' !! k = Some pd' /\
                        pd_key pd' = pd_key pd).
  { intros k pd. apply fmap_lookup_transfer. apply HO. }
  assert (Hlisted : forall d q, listed_ok s d q -> listed_ok s' d q).
  { intros d q (pd & pol & L1 & L2 & L3 & L4).
    destruct (HOf q pd L1) as (pd' & L1' & K). injection K as K1 K2.
    destruct (HPf _ pol L3) as (pol' & L3' & G).
    exists pd', pol'. rewrite K1, K2, G. auto. }
  split; [| split].
  - intros policy pol' p Hpol' Hgd.
    destruct (HP' policy pol' Hpol') as (pol & Hpol & G).
    destruct (A policy pol p Hpol ltac:(congruence))
      as (pd & d & dbs & A1 & A2 & A3 & A4 & A5).
    destruct (HOf p pd A1) as (pd' & A1' & K). injection K as K1 K2.
    destruct (HD d dbs A4) as (dbs' & A4' & E).
    exists pd', d, dbs'. rewrite K1, K2, E. auto.
  - intros d Huse.
    assert (Huse' : tunables_in_use s d).
    { destruct Huse as [Hu | (policy & pol' & p & pd' & U1 & U2 & U3 & U4)].
      - left. congruence.
      - right. destruct (HP' policy pol' U1) as (pol & Hpol & G).
        destruct (HO' p pd' U3) as (pd & Hpd & K). injection K as K1 K2.
        exists policy, pol, p, pd. rewrite G, K2. auto. }
    destruct (B d Huse') as (dbs & B1 & B2 & B3 & B4).
    destruct (HD d dbs B1) as (dbs' & B1' & E).
    exists dbs'. rewrite E. split; [exact B1' |]. split; [exact B2 |].
    split; [exact B3 |]. intros q Hq. apply Hlisted, B4, Hq.
  - intros Hper. rewrite Hg. apply C, Hper.
Qed.

Lemma governed_ok_mono per N s : governed_ok per N s -> governed_ok per (S N) s.
Proof.
  intros (A & B & C). split; [exact A |]. split; [| exact C].
  intros d Hd. destruct (B d Hd) as (dbs & B1 & B2 & B3 & B4).
  exists dbs. repeat split; try assumption; try apply B2. lia.
Qed.

(** Attaching a policy: a new [policy_dbs_info] [p] for the ungoverned
    [policy], put in front of the list [l] of the tunables [d], which are
    new or the global ones. *)
Lemma governed_ok_attach per N s s' policy pol p pd d dbs' l :
  governed_ok per N s ->
  policies s !! policy = Some pol -> governor_data pol = None ->
  policy_dbs_objs s !! p = None ->
  policies s' = <[policy := set_governor_data (Some p) pol]> (policies s) ->
  policy_dbs_objs s' = <[p := pd]> (policy_dbs_objs s) ->
  pd_policy pd = policy -> pd_dbs_data pd = Some d ->
  dbs_data_objs s' = <[d := dbs']> (dbs_data_objs s) ->
  attr_set dbs' = mk_gov_attr_set (p :: l) (Z.of_nat (S (length l))) ->
  (gdbs_data s' = gdbs_data s \/ gdbs_data s' = Some d) ->
  (per = true -> gdbs_data s' = None) ->
  ((dbs_data_objs s !! d = None /\ l = []) \/
   (exists dbs, dbs_data_objs s !! d = Some dbs /\
                l = policy_list (attr_set dbs) /\ gdbs_data s = Some d)) ->
  governed_ok per (S N) s'.
Proof.
  intros (A & B & C) Hpol Hgd Hfp EP EO Hback Hdata ED Hattr Hg Hper Hd.
  (* what the list held before *)
  assert (Hl : NoDup l /\ (length l <= N)%nat /\
               (forall q, q ∈ l -> listed_ok s d q) /\
               (forall x, dbs_data_objs s !! d = Some x ->
                          policy_list (attr_set x) = l)).
  { destruct Hd as [[Hnone ->] | (dbs & Hdbs & -> & Hgd')].
    - split; [constructor |]. split; [cbn; lia |].
      split; [intros q Hq; inversion Hq |]. intros x Hx. congruence.
    - destruct (B d (or_introl Hgd')) as (dbs0 & B1 & [_ B2] & B3 & B4).
      rewrite Hdbs in B1. injection B1 as <-.
      split; [exact B2 |]. split; [exact B3 |]. split; [exact B4 |].
      intros x Hx. congruence. }
  destruct Hl as (Hnd & Hlen & Hmem & Hsame).
  assert (Hlisted : forall d0 q, listed_ok s d0 q -> listed_ok s' d0 q).
  { intros d0 q (pdq & polq & L1 & L2 & L3 & L4).
    exists pdq, polq. rewrite EO, EP.
    rewrite lookup_insert_ne by (intros ->; congruence).
    rewrite lookup_insert_ne by (intros E; rewrite <- E in L3; congruence).
    auto. }
  assert (Hp : p ∉ l).
  { intros Hin. destruct (Hmem p Hin) as (pdq & _ & L1 & _). congruence. }
  split; [| split].
  - intros policy' pol' p' Hpol' Hgd'. rewrite EP in Hpol'.
    rewrite lookup_insert in Hpol'.
    destruct (decide (policy = policy')) as [<- | Hne].
    + injection Hpol' as <-. cbn in Hgd'. injection Hgd' as <-.
      exists pd, d, dbs'. rewrite EO, ED, !lookup_insert_eq, Hattr.
      repeat split; try assumption. apply list_elem_of_here.
    + destruct (A policy' pol' p' Hpol' Hgd')
        as (pd' & d' & dbs0 & A1 & A2 & A3 & A4 & A5).
      assert (p' <> p) by (intros ->; congruence).
      destruct (decide (d' = d)) as [-> | Hd'].
      * exists pd', d, dbs'. rewrite EO, ED, lookup_insert_eq, Hattr.
        rewrite lookup_insert_ne by congruence.
        repeat split; try assumption.
        apply list_elem_of_further. rewrite <- (Hsame dbs0 A4). exact A5.
      * exists pd', d', dbs0. rewrite EO, ED.
        rewrite !lookup_insert_ne by congruence. auto.
  - intros d0 Huse.
    assert (Hcase : d0 = d \/ (d0 <> d /\ tunables_in_use s d0)).
    { destruct (decide (d0 = d)) as [-> | Hne]; [left; reflexivity | right].
      split; [exact Hne |].
      destruct Huse as [Hu | (policy' & pol' & p' & pd' & U1 & U2 & U3 & U4)].
      - left. destruct Hg as [Hg | Hg]; congruence.
      - right. rewrite EP, lookup_insert in U1. rewrite EO in U3.
        destruct (decide (policy = policy')) as [<- | Hne'].
        + injection U1 as <-. cbn in U2. injection U2 as <-.
          rewrite lookup_insert_eq in U3. congruence.
        + destruct (A policy' pol' p' U1 U2) as (pd0 & _ & _ & A1 & _).
          rewrite lookup_insert_ne in U3 by (intros ->; congruence).
          exists policy', pol', p', pd'. auto. }
    destruct Hcase as [-> | [Hne Huse0]].
    + exists dbs'. rewrite ED, lookup_insert_eq, Hattr.
      split; [reflexivity |]. split; [| split].
      * split; [reflexivity |]. apply NoDup_cons. split; assumption.
      * cbn [policy_list length]. lia.
      * intros q Hq. cbn [policy_list] in Hq.
        apply elem_of_cons in Hq as [-> | Hq]; [| apply Hlisted, Hmem, Hq].
        exists pd, (set_governor_data (Some p) pol).
        rewrite EO, EP, Hback, !lookup_insert_eq. auto.
    + destruct (B d0 Huse0) as (dbs0 & B1 & B2 & B3 & B4).
      exists dbs0. rewrite ED, lookup_insert_ne by congruence.
      split; [exact B1 |]. split; [exact B2 |]. split; [lia |].
      intros q Hq. apply Hlisted, B4, Hq.
  - exact Hper.
Qed.

(** Detaching a policy: its [policy_dbs_info] is freed and taken off the
    list of its tunables, which are freed when the list becomes empty. *)
Lemma governed_ok_detach per N s s' policy pol p pd d dbs :
  governed_ok per N s ->
  policies s !! policy = Some pol -> governor_data pol = Some p ->
  policy_dbs_objs s !! p = Some pd -> pd_dbs_data pd = Some d ->
  dbs_data_objs s !! d = Some dbs ->
  policies s' = <[policy := set_governor_data None pol]> (policies s) ->
  policy_dbs_objs s' = delete p (policy_dbs_objs s) ->
  let l := policy_list (attr_set dbs) in
  ((length l = 1%nat /\
    dbs_data_objs s' = delete d (dbs_data_objs s) /\
    gdbs_data s' = None) \/
   (exists dbs',
      dbs_data_objs s' = <[d := dbs']> (dbs_data_objs s) /\
      attr_set dbs' = mk_gov_attr_set (list_del p l)
                        (Z.of_nat (length (list_del p l))) /\
      gdbs_data s' = gdbs_data s)) ->
  governed_ok per N s'.
Proof.
  intros (A & B & C) Hpol Hgd Hpd Hdata Hdbs EP EO l Hcase.
  destruct (A policy pol p Hpol Hgd) as (pd0 & d0 & dbs0 & A1 & Hback & A3
                                          & A4 & Hin).
  rewrite Hpd in A1. injection A1 as <-.
  rewrite Hdata in A3. injection A3 as <-.
  rewrite Hdbs in A4. injection A4 as <-. fold l in Hin.
  assert (Huse : tunables_in_use s d).
  { right. exists policy, pol, p, pd. auto. }
  destruct (B d Huse) as (dbs0 & B1 & [Hcount Hnd] & Hlen & Hmem).
  rewrite Hdbs in B1. injection B1 as <-. fold l in Hcount, Hnd, Hlen, Hmem.
  assert (Hone : length l = 1%nat -> forall q, q ∈ l -> q = p).
  { intros H1 q Hq. destruct l as [| x [| y l']]; try discriminate H1.
    apply list_elem_of_singleton in Hq, Hin. congruence. }
  assert (Hother : forall policy' pol' p',
    policy' <> policy -> policies s !! policy' = Some pol' ->
    governor_data pol' = Some p' -> p' <> p).
  { intros policy' pol' p' Hne Hpol' Hgd' ->.
    destruct (A policy' pol' p Hpol' Hgd') as (pd' & _ & _ & A1 & A2 & _).
    congruence. }
  assert (Hlisted : forall d0 q,
    q <> p -> listed_ok s d0 q -> listed_ok s' d0 q).
  { intros d0 q Hq (pdq & polq & L1 & L2 & L3 & L4).
    exists pdq, polq. rewrite EO, EP.
    rewrite lookup_delete_ne by congruence.
    rewrite lookup_insert_ne by (intros E; rewrite <- E in L3; congruence).
    auto. }
  split; [| split].
  - intros policy' pol' p' Hpol' Hgd'. rewrite EP, lookup_insert in Hpol'.
    destruct (decide (policy = policy')) as [<- | Hne];
      [injection Hpol' as <-; discriminate Hgd' |].
    destruct (A policy' pol' p' Hpol' Hgd')
      as (pd' & d' & dbs1 & A1 & A2 & A3 & A4 & A5).
    assert (Hp' : p' <> p) by (apply (Hother policy' pol'); auto).
    destruct Hcase as [(H1 & ED & _) | (dbs' & ED & Hattr & _)].
    + assert (d' <> d).
      { intros ->. rewrite Hdbs in A4. injection A4 as <-.
        apply Hp', Hone; assumption. }
      exists pd', d', dbs1. rewrite EO, ED.
      rewrite !lookup_delete_ne by congruence. auto.
    + destruct (decide (d' = d)) as [-> | Hd'].
      * rewrite Hdbs in A4. injection A4 as <-.
        exists pd', d, dbs'. rewrite EO, ED, lookup_insert_eq, Hattr.
        rewrite lookup_delete_ne by congruence.
        repeat split; try assumption.
        cbn [policy_list]. unfold list_del. apply list_elem_of_filter.
        split; assumption.
      * exists pd', d', dbs1. rewrite EO, ED.
        rewrite lookup_delete_ne, lookup_insert_ne by congruence. auto.
  - intros d0 Huse0.
    assert (Hatt : forall policy' pol' p' pd',
      policies s' !! policy' = Some pol' -> governor_data pol' = Some p' ->
      policy_dbs_objs s' !! p' = Some pd' -> pd_dbs_data pd' = Some d0 ->
      tunables_in_use s d0 /\ p' <> p /\
      exists dbs1, dbs_data_objs s !! d0 = Some dbs1 /\
                   p' ∈ policy_list (attr_set dbs1)).
    { intros policy' pol' p' pd' U1 U2 U3 U4.
      rewrite EP, lookup_insert in U1.
      destruct (decide (policy = policy')) as [<- | Hne];
        [injection U1 as <-; discriminate U2 |].
      assert (Hp' : p' <> p) by (apply (Hother policy' pol'); auto).
      rewrite EO, lookup_delete_ne in U3 by congruence.
      split; [right; exists policy', pol', p', pd'; auto |].
      split; [exact Hp' |].
      destruct (A policy' pol' p' U1 U2)
        as (pd1 & d1 & dbs1 & A1 & _ & A3 & A4 & A5).
      rewrite U3 in A1. injection A1 as <-.
      rewrite U4 in A3. injection A3 as <-.
      exists dbs1. auto. }
    destruct Hcase as [(H1 & ED & Hg) | (dbs' & ED & Hattr & Hg)].
    + destruct Huse0
        as [Hu | (policy' & pol' & p' & pd' & U1 & U2 & U3 & U4)];
        [congruence |].
      destruct (Hatt policy' pol' p' pd' U1 U2 U3 U4)
        as (Huse1 & Hp' & dbs1 & D1 & D2).
      assert (Hne : d0 <> d).
      { intros ->. rewrite Hdbs in D1. injection D1 as <-.
        apply Hp', Hone; assumption. }
      destruct (B d0 Huse1) as (dbs2 & B1 & B2 & B3 & B4).
      exists dbs2. rewrite ED, lookup_delete_ne by congruence.
      split; [exact B1 |]. split; [exact B2 |]. split; [exact B3 |].
      intros q Hq. apply Hlisted; [| apply B4, Hq].
      intros ->. destruct (B4 p Hq) as (pdq & _ & L1 & L2 & _). congruence.
    + assert (Huse1 : tunables_in_use s d0).
      { destruct Huse0
          as [Hu | (policy' & pol' & p' & pd' & U1 & U2 & U3 & U4)].
        - left. congruence.
        - apply (Hatt policy' pol' p' pd' U1 U2 U3 U4). }
      destruct (decide (d0 = d)) as [-> | Hne].
      * exists dbs'. rewrite ED, lookup_insert_eq, Hattr.
        split; [reflexivity |]. split; [| split].
        -- split; [reflexivity |]. cbn [policy_list].
           apply NoDup_filter, Hnd.
        -- cbn [policy_list]. unfold list_del.
           pose proof (length_filter (fun x => x <> p) l). lia.
        -- intros q Hq. cbn [policy_list] in Hq. unfold list_del in Hq.
           apply list_elem_of_filter in Hq as [Hq1 Hq2].
           apply Hlisted; [exact Hq1 | apply Hmem, Hq2].
      * destruct (B d0 Huse1) as (dbs2 & B1 & B2 & B3 & B4).
        exists dbs2. rewrite ED, lookup_insert_ne by congruence.
        split; [exact B1 |]. split; [exact B2 |]. split; [exact B3 |].
        intros q Hq. apply Hlisted; [| apply B4, Hq].
        intros ->. destruct (B4 p Hq) as (pdq & _ & L1 & L2 & _). congruence.
  - intros Hper.
    destruct Hcase as [(_ & _ & Hg) | (_ & _ & _ & Hg)]; [exact Hg |].
    rewrite Hg. apply C, Hper.
Qed.

Lemma governed_ok_frame per N s s' :
  policies s' = policies s ->
  policy_dbs_objs s' = policy_dbs_objs s ->
  (forall k x, dbs_data_objs s !! k = Some x ->
               dbs_data_objs s' !! k = Some x) ->
  gdbs_data s' = gdbs_data s ->
  governed_ok per N s -> governed_ok per N s'.
Proof.
  intros EP EO HD Hg. apply governed_ok_shape.
  - intros k. rewrite EP. reflexivity.
  - intros k. rewrite EO. reflexivity.
  - intros k x Hx. exists x. split; [apply HD, Hx | reflexivity].
  - exact Hg.
Qed.

Lemma insert_same_key {A B} (f : A -> B) (m : gmap nat A) k x x' :
  m !! k = Some x -> f x' = f x ->
  forall j, f <$> (<[k := x']> m !! j) = f <$> (m !! j).
Proof.
  intros Hx Hf j. rewrite lookup_insert.
  destruct (decide (k = j)) as [<- |]; [| reflexivity].
  rewrite Hx. cbn. congruence.
Qed.

(** ** The governor events on a sound memory *)

Section Sound.
Variable cputime_to_usecs : Z -> Z.
Variable sscanf_u : string -> Z * Z.
Variable have_governor_per_policy : bool.
Variable cpufreq_driver_target :
  cpufreq_policy -> Z -> relation -> cpufreq_policy.
Variable MIN_LATENCY_MULTIPLIER : Z.
Variable LATENCY_MULTIPLIER : Z.
Variable gov_alloc_succeeds : kstate -> bool.
Variable kzalloc_succeeds : kstate -> bool.
Variable kobject_init_and_add : kstate -> Z.
Variable gov_init : dbs_data -> bool -> Z * dbs_data.

(** [gov->init] sets tunables and leaves the attribute set alone; the
    frequency driver leaves [governor_data] alone. *)
Hypothesis gov_init_keeps_attr_set :
  forall d notify, attr_set (snd (gov_init d notify)) = attr_set d.
Hypothesis driver_keeps_governor_data :
  forall pol target rel,
    governor_data (cpufreq_driver_target pol target rel) = governor_data pol.

Let ok := governed_ok have_governor_per_policy.

Lemma governor_init_sound policy s pol N :
  ok N s -> Z.of_nat N < 2 ^ 31 - 1 ->
  policies s !! policy = Some pol ->
  exists r s',
    cpufreq_governor_init have_governor_per_policy MIN_LATENCY_MULTIPLIER
      LATENCY_MULTIPLIER gov_alloc_succeeds kzalloc_succeeds
      kobject_init_and_add gov_init policy s = Some (r, s') /\
    ok (S N) s'.
Proof.
  intros Hok HN Hpol.
  pose proof (governed_ok_mono _ _ _ Hok) as Hok'.
  unfold cpufreq_governor_init.
  rewrite (mbind_some _ _ _ _ _ (load_policy_some _ _ _ Hpol)).
  destruct (governor_data pol) as [p0 |] eqn:Hgd.
  { eexists _, _. split; [reflexivity | exact Hok']. }
  destruct (gov_alloc_succeeds s) eqn:Ha.
  2: { rewrite (mbind_some _ _ _ _ _
                  (alloc_policy_dbs_info_fails gov_alloc_succeeds _ _ _
                     Hpol Ha)).
       eexists _, _. split; [reflexivity | exact Hok']. }
  rewrite (mbind_some _ _ _ _ _
             (alloc_policy_dbs_info_run gov_alloc_succeeds _ _ _ Hpol Ha)).
  set (p := fresh (dom (policy_dbs_objs s))).
  assert (Hfp : policy_dbs_objs s !! p = None)
    by (apply not_elem_of_dom, is_fresh).
  (* the failure paths leave the links as they are *)
  assert (Hfail : forall cpu h m' t',
    (forall k x, dbs_data_objs s !! k = Some x -> m' !! k = Some x) ->
    ok (S N) (mk_kstate cpu h (policies s) (policy_dbs_objs s) m'
                (gdbs_data s) t')).
  { intros cpu h m' t' Hm. apply (governed_ok_frame _ _ s); auto. }
  unfold gov_attr_set_init, gov_attr_set_get, set_policy_governor_data,
    set_gdbs_data, kfree_dbs_data, list_add.
  kred.
  destruct (gdbs_data s) as [d |] eqn:Hg.
  - destruct have_governor_per_policy eqn:Hper.
    + free_run p. kred. rewrite delete_insert_id by exact Hfp.
      eexists _, _. split; [reflexivity |]. apply Hfail. auto.
    + pose proof Hok as (A & B & C).
      destruct (B d (or_introl Hg)) as (dbs & Hd & [Hcount Hnd] & Hlen & Hmem).
      krun. eexists _, _. split; [reflexivity |].
      refine (governed_ok_attach _ N s _ policy pol p _ d _
                (policy_list (attr_set dbs)) Hok Hpol Hgd Hfp
                _ _ _ _ _ _ _ _ _);
        cbn [policies policy_dbs_objs dbs_data_objs gdbs_data].
      * reflexivity.
      * rewrite insert_insert_eq. reflexivity.
      * reflexivity.
      * reflexivity.
      * reflexivity.
      * cbn [attr_set set_attr_set]. rewrite Hcount, s32_small by lia.
        f_equal. lia.
      * right. reflexivity.
      * discriminate.
      * right. exists dbs. auto.
  - destruct (kzalloc_succeeds _) eqn:Hz.
    2: { kred. free_run p. kred. rewrite delete_insert_id by exact Hfp.
         eexists _, _. split; [reflexivity |]. apply Hfail. auto. }
    krun.
    set (d := fresh (dom (dbs_data_objs s))).
    assert (Hfd : dbs_data_objs s !! d = None)
      by (apply not_elem_of_dom, is_fresh).
    pose proof (gov_init_keeps_attr_set
                  (set_attr_set (mk_gov_attr_set [p] 1) dbs_data_zero)
                  (negb (truthy (governor_initialized pol)))) as Hkeep.
    destruct (gov_init _ _) as [ret d1] eqn:Hinit. cbn [snd] in Hkeep. krun.
    destruct (truthy ret) eqn:Hret.
    { kred. free_run p. kred. rewrite delete_insert_id by exact Hfp.
      eexists _, _. split; [reflexivity |]. apply Hfail.
      intros k x Hx. rewrite !insert_insert_eq.
      rewrite lookup_insert_ne by congruence. exact Hx. }
    destruct have_governor_per_policy eqn:Hper; cbn [negb]; krun;
      match goal with
      | |- context [kobject_init_and_add ?x] =>
        generalize (kobject_init_and_add x)
      end; intros r;
      destruct (truthy r) eqn:Hk; cbn [negb]; krun.
    1, 3: free_run p; kred;
      rewrite (restore_policy _ _ _ _ _ Hpol Hgd), !insert_insert_eq,
        !delete_insert_id by assumption;
      (eexists _, _; split; [reflexivity |]);
      apply Hfail; auto.
    all: eexists _, _; split; [reflexivity |];
      refine (governed_ok_attach _ N s _ policy pol p _ d _ [] Hok Hpol Hgd
                Hfp _ _ _ _ _ _ _ _ _);
      cbn [policies policy_dbs_objs dbs_data_objs gdbs_data].
    all: try reflexivity.
    all: try (rewrite !insert_insert_eq; reflexivity).
    all: try (cbn [attr_set set_sampling_rate set_min_sampling_rate];
              rewrite Hkeep; reflexivity).
    all: try (left; reflexivity).
    all: try (right; reflexivity).
    all: try discriminate.
    all: try (left; split; [exact Hfd | reflexivity]).
    all: try reflexivity.
    left. symmetry. exact Hg.
Qed.

Lemma governor_exit_sound policy s pol p N :
  ok N s -> Z.of_nat N < 2 ^ 31 - 1 ->
  policies s !! policy = Some pol -> governor_data pol = Some p ->
  exists s',
    cpufreq_governor_exit have_governor_per_policy policy s = Some (0, s') /\
    ok N s'.
Proof.
  intros Hok HN Hpol Hgd. pose proof Hok as (A & B & C).
  destruct (A policy pol p Hpol Hgd)
    as (pd & d & dbs & Hpd & Hback & Hdata & Hdbs & Hin).
  assert (Huse : tunables_in_use s d).
  { right. exists policy, pol, p, pd. auto. }
  destruct (B d Huse) as (dbs0 & B1 & [Hcount Hnd] & Hlen & Hmem).
  rewrite Hdbs in B1. injection B1 as <-.
  set (l := policy_list (attr_set dbs)) in *.
  assert (Hpos : (1 <= length l)%nat).
  { destruct l; [inversion Hin | cbn; lia]. }
  pose proof (list_del_length p l Hnd Hin) as Hdel.
  unfold cpufreq_governor_exit, gov_attr_set_put, set_policy_governor_data,
    set_gdbs_data, kfree_dbs_data.
  krun. fold l. rewrite Hcount.
  rewrite (s32_small (Z.of_nat (length l) - 1)) by lia.
  rewrite (u32_small (Z.of_nat (length l) - 1)) by lia.
  unfold truthy.
  destruct (Z.eqb_spec (Z.of_nat (length l) - 1) 0) as [E | E];
    cbn [negb]; krun.
  - (* the last policy of the tunables *)
    change (0 =? 0) with true. cbn [negb].
    assert (Hg : have_governor_per_policy = true -> gdbs_data s = None)
      by exact C.
    destruct have_governor_per_policy; cbn [negb]; krun;
      (erewrite (free_policy_dbs_info_run p);
       [ | cbn [policy_dbs_objs]; exact Hpd
         | cbn [policies]; rewrite Hback; apply lookup_insert_eq ]);
      kred; (eexists; split; [reflexivity |]);
      refine (governed_ok_detach _ N s _ policy pol p pd d dbs Hok Hpol Hgd
                Hpd Hdata Hdbs _ _ _);
      cbn [policies policy_dbs_objs dbs_data_objs gdbs_data];
      try reflexivity;
      left; fold l; (split; [lia |]);
      rewrite delete_insert_eq; (split; [reflexivity |]);
      first [reflexivity | apply Hg; reflexivity].
  - destruct (Z.eqb_spec (Z.of_nat (length l) - 1) 0) as [E' | _];
      [contradiction |].
    cbn [negb]. krun.
    erewrite (free_policy_dbs_info_run p);
      [ | cbn [policy_dbs_objs]; exact Hpd
        | cbn [policies]; rewrite Hback; apply lookup_insert_eq ].
    kred. eexists; split; [reflexivity |].
    refine (governed_ok_detach _ N s _ policy pol p pd d dbs Hok Hpol Hgd
              Hpd Hdata Hdbs _ _ _);
      cbn [policies policy_dbs_objs dbs_data_objs gdbs_data];
      try reflexivity.
    right. eexists. split; [reflexivity |].
    split; [| reflexivity].
    cbn [attr_set set_attr_set]. fold l. f_equal. lia.
Qed.


(** X19 -- The governor events never follow a dangling pointer.  On a
    memory whose governor data hang together ([governed_ok]: every governed
    policy has its [policy_dbs_info] and tunables, which list and count
    their policies), with fewer than [2^31 - 1] policies per tunables, a
    [gov->init] that leaves the attribute set alone and a driver that
    leaves [governor_data] alone, every event of [cpufreq_governor_dbs] on
    an existing policy returns (no read or write through NULL or a freed
    object, on any path and whatever the allocator and the kobject layer
    answer) and leaves such a memory again.  In particular POLICY_EXIT
    frees tunables only when no other policy uses them. *)
Theorem governor_events_keep_memory_sound src policy event s pol N :
  ok N s -> Z.of_nat N < 2 ^ 31 - 1 ->
  policies s !! policy = Some pol ->
  exists r s',
    cpufreq_governor_dbs have_governor_per_policy cpufreq_driver_target
      MIN_LATENCY_MULTIPLIER LATENCY_MULTIPLIER gov_alloc_succeeds
      kzalloc_succeeds kobject_init_and_add gov_init src policy event s
    = Some (r, s') /\
    ok (S N) s'.
Proof.
  intros Hok HN Hpol.
  pose proof (governed_ok_mono _ _ _ Hok) as Hok'.
  pose proof (governor_init_sound policy s pol N Hok HN Hpol) as Hinit.
  destruct (governor_data pol) as [p |] eqn:Hgd.
  2: { destruct event; try exact Hinit;
         exists (- EINVAL), s; (split; [| exact Hok']);
         unfold cpufreq_governor_dbs;
         rewrite (mbind_some _ _ _ _ _ (load_policy_some _ _ _ Hpol)), Hgd;
         reflexivity. }
  pose proof Hok as (A & B & C).
  destruct (A policy pol p Hpol Hgd)
    as (pd & d & dbs & Hpd & Hback & Hdata & Hdbs & Hin).
  destruct (governor_dbs_dispatch have_governor_per_policy
              cpufreq_driver_target MIN_LATENCY_MULTIPLIER
              LATENCY_MULTIPLIER gov_alloc_succeeds kzalloc_succeeds
              kobject_init_and_add gov_init src policy s pol p Hpol Hgd)
    as (Estart & Estop & Elimits & Eexit).
  destruct event; try exact Hinit.
  - (* START *)
    rewrite Estart.
    destruct (Z.eq_dec (cur pol) 0) as [Hcur | Hcur].
    + exists (- EINVAL), s. split; [| exact Hok'].
      unfold cpufreq_governor_start. krun. rewrite Hcur. reflexivity.
    + assert (Hat : policy_attached s policy pol p pd d dbs)
        by (unfold policy_attached; auto).
      rewrite (governor_start_run src policy s pol p pd d dbs Hat Hback Hcur).
      eexists _, _. split; [reflexivity |].
      destruct (start_cpus_frame src (ignore_nice_load dbs) (io_is_busy dbs)
                  (for_each_cpu (cpus pol))
                  (with_policy_dbs_objs
                     (insert p (set_rate_mult 1
                                  (set_is_shared (policy_is_shared pol) pd)))
                     s))
        as (_ & F2 & F3 & F4 & F5 & _).
      apply (governed_ok_shape _ _ s); [.. | exact Hok'];
        cbn [policies policy_dbs_objs dbs_data_objs gdbs_data
             with_update_util_data with_policy_dbs_objs with_trace].
      * intros k. rewrite F2. reflexivity.
      * rewrite F3. cbn [policy_dbs_objs with_policy_dbs_objs].
        rewrite !insert_insert_eq.
        apply (insert_same_key pd_key _ _ pd); [exact Hpd | reflexivity].
      * intros k x Hx. rewrite F4. exists x. split; [exact Hx | reflexivity].
      * rewrite F5. reflexivity.
  - (* STOP *)
    rewrite Estop.
    unfold cpufreq_governor_stop, gov_cancel_work, gov_clear_update_util.
    krun. rewrite Hback. krun.
    rewrite (for_each_pure
      (fun i s0 => with_update_util_data (fun h => h ∖ {[i]}) s0))
      by reflexivity.
    rewrite (with_update_util_data_foldl (fun i h => h ∖ {[i]})).
    krun. eexists _, _. split; [reflexivity |].
    apply (governed_ok_shape _ _ s); [.. | exact Hok'];
      cbn [policies policy_dbs_objs dbs_data_objs gdbs_data].
    + reflexivity.
    + apply (insert_same_key pd_key _ _ pd); [exact Hpd | reflexivity].
    + intros k x Hx. exists x. split; [exact Hx | reflexivity].
    + reflexivity.
  - (* LIMITS *)
    rewrite Elimits.
    rewrite (governor_limits_run cpufreq_driver_target policy s pol p pd
               Hpol Hgd Hpd).
    eexists _, _. split; [reflexivity |].
    apply (governed_ok_shape _ _ s); [.. | exact Hok'];
      destruct (policy_max pol <? cur pol);
      [| destruct (policy_min pol >? cur pol) | |
       destruct (policy_min pol >? cur pol) | |
       destruct (policy_min pol >? cur pol) | |
       destruct (policy_min pol >? cur pol)];
      cbn [policies policy_dbs_objs dbs_data_objs gdbs_data
           with_policies with_policy_dbs_objs with_trace];
      try reflexivity;
      try (apply (insert_same_key pd_key _ _ pd); [exact Hpd | reflexivity]);
      try (apply (insert_same_key governor_data _ _ pol);
           [exact Hpol | apply driver_keeps_governor_data]);
      intros k x Hx; exists x; (split; [exact Hx | reflexivity]).
  - (* POLICY_EXIT *)
    rewrite Eexit.
    destruct (governor_exit_sound policy s pol p N Hok HN Hpol Hgd)
      as (s' & Hrun & Hok1).
    exists 0, s'. split; [exact Hrun |]. apply governed_ok_mono, Hok1.
  - (* any other event *)
    exists (- EINVAL), s. split; [| exact Hok'].
    unfold cpufreq_governor_dbs.
    rewrite (mbind_some _ _ _ _ _ (load_policy_some _ _ _ Hpol)), Hgd.
    reflexivity.
Qed.

End Sound.

(** ** The tunables of a sound memory *)

Section SoundUse.
Variable cputime_to_usecs : Z -> Z.
Variable sscanf_u : string -> Z * Z.

(** X20 -- On such a memory the users of the tunables are safe: a write
    of the sampling rate through [governor_store] to tunables in use and a
    [gov_update_cpu_data] on them return, because every policy on their
    list is allocated and governed, and [dbs_update] on every governed
    policy returns; all three leave the memory sound. *)
Theorem governed_memory_serves_tunables per N s d buf count src :
  governed_ok per N s ->
  tunables_in_use s d ->
  (exists r s',
     governor_store d (store_sampling_rate sscanf_u) buf count s
       = Some (r, s') /\
     governed_ok per N s') /\
  (exists s',
     gov_update_cpu_data src d s = Some (tt, s') /\ governed_ok per N s') /\
  (forall policy pol p,
     policies s !! policy = Some pol -> governor_data pol = Some p ->
     exists load s',
       dbs_update cputime_to_usecs src policy s = Some (load, s') /\
       governed_ok per N s').
Proof.
  intros Hok Huse. pose proof Hok as (A & B & C).
  destruct (B d Huse) as (dbs & Hd & Hcounted & Hlen & Hmem).
  split; [| split].
  - unfold governor_store.
    unfold mbind' at 1, mutex_lock at 1, emit at 1.
    set (s1 := with_trace _ s).
    assert (Hd1 : dbs_data_objs s1 !! d = Some dbs) by exact Hd.
    rewrite (mbind_some _ _ _ _ _ (load_dbs_data_some _ _ _ Hd1)).
    destruct (truthy (usage_count (attr_set dbs))).
    2: { eexists _, _. split; [reflexivity |].
         apply (governed_ok_frame _ _ s); auto. }
    assert (Hst : exists r s2,
      store_sampling_rate sscanf_u d buf count s1 = Some (r, s2) /\
      governed_ok per N s2).
    { unfold store_sampling_rate.
      destruct (sscanf_u buf) as [ret rate].
      destruct (negb (ret =? 1)).
      { eexists _, _. split; [reflexivity |].
        apply (governed_ok_frame _ _ s); auto. }
      rewrite (mbind_some _ _ _ _ _ (load_dbs_data_some _ _ _ Hd1)).
      unfold mbind' at 1.
      rewrite (store_dbs_data_some _ _ _ _ Hd1).
      unfold mbind' at 1.
      rewrite reset_sample_delay_loop.
      2: { intros q Hq. destruct (Hmem q Hq) as (pdq & _ & L1 & _).
           exists pdq. exact L1. }
      eexists _, _. split; [reflexivity |].
      apply (governed_ok_shape _ _ s); [.. | exact Hok];
        cbn [policies policy_dbs_objs dbs_data_objs gdbs_data
             with_trace with_policy_dbs_objs with_dbs_data_objs s1].
      + reflexivity.
      + intros k. rewrite reset_sample_delay_lookup.
        destruct (decide (k ∈ policy_list (attr_set dbs))); [| reflexivity].
        destruct (policy_dbs_objs s !! k); reflexivity.
      + intros k x Hx. rewrite lookup_insert.
        destruct (decide (d = k)) as [<- |]; [| eauto].
        rewrite Hd in Hx. injection Hx as <-. eexists. split; reflexivity.
      + reflexivity. }
    destruct Hst as (r & s2 & Hst & Hok2).
    rewrite (mbind_some _ _ s1 (s32 r) s2)
      by (rewrite (mbind_some _ _ _ _ _ Hst); reflexivity).
    eexists _, _. split; [reflexivity |].
    apply (governed_ok_frame _ _ s2); auto.
  - destruct (gov_update_cpu_data_loop src (ignore_nice_load dbs)
                (io_is_busy dbs) (policy_list (attr_set dbs)) s)
      as (s' & Hrun & _ & F2 & F3 & F4 & F5 & _).
    { intros q Hq. destruct (Hmem q Hq) as (pdq & polq & L1 & _ & L3 & _).
      exists pdq, polq. auto. }
    exists s'. split.
    + unfold gov_update_cpu_data.
      rewrite (mbind_some _ _ _ _ _ (load_dbs_data_some _ _ _ Hd)).
      exact Hrun.
    + apply (governed_ok_frame _ _ s); auto.
      intros k x. rewrite F4. auto.
  - intros policy pol p Hpol Hgd.
    destruct (A policy pol p Hpol Hgd)
      as (pd & d' & dbs' & A1 & A2 & A3 & A4 & A5).
    assert (Hat : policy_attached s policy pol p pd d' dbs')
      by (unfold policy_attached; auto).
    destruct (dbs_update_sample cputime_to_usecs src s policy pol p pd d' dbs'
                Hat) as (load & s' & Hrun & Hs' & _).
    destruct (sample_cpus_frame cputime_to_usecs src (ignore_nice_load dbs')
                (io_is_busy dbs') (u32 (sampling_rate dbs' * rate_mult pd))
                (for_each_cpu (cpus pol)) s)
      as (_ & F2 & F3 & F4 & F5 & _).
    rewrite <- Hs' in F2, F3, F4, F5.
    exists load, s'. split; [exact Hrun |].
    apply (governed_ok_frame _ _ s); auto.
    intros k x. rewrite F4. auto.
Qed.

End SoundUse.

(** The example memories are sound. *)
Lemma ex_boot_ok : governed_ok false 0 ex_boot.
Proof.
  assert (Hnone : forall policy pol p,
    policies ex_boot !! policy = Some pol -> governor_data pol <> Some p).
  { intros policy pol p Hpol. unfold ex_boot in Hpol. cbn [policies] in Hpol.
    apply lookup_singleton_Some in Hpol as [_ <-]. discriminate. }
  split; [| split].
  - intros policy pol p Hpol Hgd. destruct (Hnone policy pol p Hpol Hgd).
  - intros d [Hg | (policy & pol & p & pd & U1 & U2 & _)].
    + discriminate Hg.
    + destruct (Hnone policy pol p U1 U2).
  - discriminate.
Qed.

Lemma ex_gov_init_keeps_attr_set d notify :
  attr_set (snd (ex_gov_init d notify)) = attr_set d.
Proof. reflexivity. Qed.

Lemma ex_driver_keeps_governor_data pol target rel :
  governor_data (ex_driver_target pol target rel) = governor_data pol.
Proof. reflexivity. Qed.

Lemma ex_inited_ok : governed_ok false 1 ex_inited.
Proof.
  destruct (governor_init_sound false 20 1000 (fun _ => true) (fun _ => true)
              (fun _ => 0) ex_gov_init ex_gov_init_keeps_attr_set 7%nat
              ex_boot ex_policy 0 ex_boot_ok)
    as (r & s' & Hrun & Hok); [cbn; lia | reflexivity |].
  assert (E : cpufreq_governor_init false 20 1000 (fun _ => true)
                (fun _ => true) (fun _ => 0) ex_gov_init 7%nat ex_boot
              = Some (0, ex_inited)) by (vm_compute; reflexivity).
  rewrite E in Hrun. injection Hrun as <- <-. exact Hok.
Qed.

(** POLICY_EXIT of the example policy after POLICY_INIT. *)
Lemma governor_events_keep_memory_sound_witness :
  exists r s',
    ex_governor_dbs (ex_clock 0 0) 7%nat CPUFREQ_GOV_POLICY_EXIT ex_inited
      = Some (r, s') /\
    governed_ok false 2 s'.
Proof.
  apply (governor_events_keep_memory_sound false ex_driver_target 20 1000
           (fun _ => true) (fun _ => true) (fun _ => 0) ex_gov_init
           ex_gov_init_keeps_attr_set ex_driver_keeps_governor_data
           (ex_clock 0 0) 7%nat CPUFREQ_GOV_POLICY_EXIT ex_inited ex_pol 1
           ex_inited_ok).
  - cbn. lia.
  - vm_compute. reflexivity.
Defined.

(** A write of the sampling rate after POLICY_INIT. *)
Lemma governed_memory_serves_tunables_witness :
  exists r s',
    governor_store 0%nat (store_sampling_rate ex_sscanf_u) "20000" 5 ex_inited
      = Some (r, s') /\
    governed_ok false 1 s'.
Proof.
  apply (governed_memory_serves_tunables (fun x => x) ex_sscanf_u false 1
           ex_inited 0%nat "20000" 5 (ex_clock 0 0) ex_inited_ok).
  left. vm_compute. reflexivity.
Defined.

(** * The load of one processor *)

Section Exact.
Variable cputime_to_usecs : Z -> Z.

(** X21 -- The load of one processor in a sample, when its round is
    neither skipped nor answered from the cache (positive wall time, idle
    time not above it, and a wall time of at most two sampling periods or
    an empty cache): it is [u32 (100 * busy) / wall] for the busy time
    [wall - idle].  While [100 * busy] fits 32 bits (a busy time below
    42949673 microseconds) this is the percentage of busy time, rounded
    down; beyond that the [unsigned int] product wraps and the load is
    strictly below that percentage. *)
Theorem cpu_load_exact_unless_product_wraps src ign io sr s j :
  let w := wall_delta src io j (per_cpu s j) in
  let i := idle_delta cputime_to_usecs src ign io j (per_cpu s j) in
  0 < w -> i <= w ->
  (w <= u32 (2 * sr) \/ prev_load (per_cpu s j) = 0) ->
  exists l,
    cpu_load cputime_to_usecs src ign io sr s j = Some l /\
    l = u32 (100 * (w - i)) / w /\
    (100 * (w - i) < 2 ^ 32 -> w * l <= 100 * (w - i) < w * (l + 1)) /\
    (2 ^ 32 <= 100 * (w - i) -> w * (l + 1) < 100 * (w - i)).
Proof.
  intros w i Hw Hi Hfresh.
  pose proof (dbs_update_cpu_cases cputime_to_usecs src ign io sr j
                (per_cpu s j)) as Hc.
  pose proof (wall_delta_range src io j (per_cpu s j)) as Hwr.
  fold w i in Hc, Hwr.
  destruct (Z.eqb_spec w 0) as [E | _]; [lia |].
  destruct (Z.ltb_spec w i) as [L | _]; [lia |].
  cbn [orb] in Hc.
  assert (Hno : (w >? u32 (2 * sr)) && truthy (prev_load (per_cpu s j))
                = false).
  { destruct Hfresh as [Hle | Hz].
    - rewrite Z.gtb_ltb. destruct (Z.ltb_spec (u32 (2 * sr)) w); [lia |].
      reflexivity.
    - rewrite Hz. apply andb_false_r. }
  rewrite Hno in Hc. injection Hc as _ Hl.
  exists (u32 (100 * (w - i)) / w). split; [exact Hl |].
  split; [reflexivity |].
  set (z := 100 * (w - i)).
  assert (Hz : 0 <= z) by (unfold z; lia).
  split.
  - intros Hsmall. rewrite u32_small by lia.
    pose proof (Z.mul_div_le z w Hw).
    pose proof (Z.mul_succ_div_gt z w Hw). lia.
  - intros Hbig.
    assert (Hm : u32 z <= z - 2 ^ 32).
    { unfold u32.
      pose proof (Z.mod_pos_bound (z - 2 ^ 32) (2 ^ 32) ltac:(lia)).
      replace z with ((z - 2 ^ 32) + 1 * 2 ^ 32) at 1 by lia.
      rewrite Z.mod_add by lia.
      apply Z.mod_le; lia. }
    pose proof (Z.mul_div_le (u32 z) w Hw). lia.
Qed.

End Exact.

(** Processor 0 in the first sample after START: 8000 of 10000
    microseconds busy. *)
Lemma cpu_load_exact_unless_product_wraps_witness :
  cpu_load (fun x => x) (ex_clock 3000 15000) 0 0 50000 ex_started 0%nat
    = Some 80.
Proof.
  destruct (cpu_load_exact_unless_product_wraps (fun x => x)
              (ex_clock 3000 15000) 0 0 50000 ex_started 0%nat)
    as (l & Hl & -> & _).
  - vm_compute. reflexivity.
  - vm_compute. intros H. discriminate H.
  - right. vm_compute. reflexivity.
  - exact Hl.
Defined.

Section Nice.
Variable cputime_to_usecs : Z -> Z.

(** X22 -- Ignoring nice time never raises the load.  With
    [ignore_nice_load] set, the nice time since the snapshot counts as idle
    time; so, when the sum and the product do not wrap, a processor that
    has a load in a sample also has one in the same sample taken with nice
    time counted as busy, and the former is at most the latter. *)
Theorem ignoring_nice_never_raises_load src ign io sr s j l' :
  let c := per_cpu s j in
  let w := wall_delta src io j c in
  let i := idle_delta cputime_to_usecs src 0 io j c in
  let nice := cputime_to_usecs (u64 (kcpustat_nice src j - prev_cpu_nice c)) in
  truthy ign = true ->
  0 <= nice -> i + nice < 2 ^ 32 -> 100 * (w - i) < 2 ^ 32 ->
  cpu_load cputime_to_usecs src ign io sr s j = Some l' ->
  idle_delta cputime_to_usecs src ign io j c = i + nice /\
  exists l,
    cpu_load cputime_to_usecs src 0 io sr s j = Some l /\ l' <= l.
Proof.
  intros c w i nice Hign Hnice Hsum Hprod Hl'.
  pose proof (dbs_update_cpu_cases cputime_to_usecs src ign io sr j c) as H1.
  pose proof (dbs_update_cpu_cases cputime_to_usecs src 0 io sr j c) as H0.
  pose proof (wall_delta_range src io j c) as Hw.
  pose proof (idle_delta_range cputime_to_usecs src 0 io j c) as Hi.
  fold w i in H0, H1, Hw, Hi.
  assert (Hidle : idle_delta cputime_to_usecs src ign io j c = i + nice).
  { unfold idle_delta at 1. rewrite Hign. unfold i, idle_delta, nice.
    change (truthy 0) with false. cbv iota. apply u32_small.
    unfold i, idle_delta, nice in Hsum, Hi.
    change (truthy 0) with false in Hsum, Hi. cbv iota in Hsum, Hi. lia. }
  split; [exact Hidle |].
  rewrite Hidle in H1. unfold cpu_load in *. fold c in Hl' |- *.
  rewrite Hl' in H1.
  destruct (Z.eqb_spec w 0) as [E | E]; [discriminate H1 |].
  destruct (Z.ltb_spec w (i + nice)) as [L | L]; [discriminate H1 |].
  destruct (Z.ltb_spec w i) as [L0 | L0]; [lia |].
  cbn [orb] in H0, H1.
  destruct ((w >? u32 (2 * sr)) && truthy (prev_load c)).
  - injection H1 as _ H1. injection H0 as _ H0.
    exists (prev_load c). split; [exact H0 | lia].
  - injection H1 as _ H1. injection H0 as _ H0.
    eexists. split; [exact H0 |]. rewrite H1.
    rewrite !u32_small by lia.
    apply Z.div_le_mono; lia.
Qed.

End Nice.

(** * STOP followed by START *)

(** X23 -- STOP followed by START arms the hook afresh whatever state the
    sampling was in: both return 0, afterwards no work is in progress and
    the escalation counter is 0, and the first call of the hook at least
    one sampling period after time 0 queues the irq work, also when the
    work was in progress or the counter held when STOP came. *)
Theorem governor_restart_rearms_hook src policy s pol p pd d dbs time :
  policy_attached s policy pol p pd d dbs ->
  pd_policy pd = policy ->
  cur pol <> 0 ->
  0 <= sampling_rate dbs < 2 ^ 32 ->
  sampling_rate dbs * NSEC_PER_USEC <= time < 2 ^ 63 ->
  exists s1 s2 pd2,
    cpufreq_governor_stop policy s = Some (0, s1) /\
    cpufreq_governor_start src policy s1 = Some (0, s2) /\
    policy_dbs_objs s2 !! p = Some pd2 /\
    work_in_progress pd2 = false /\
    work_count pd2 = 0 /\
    snd (util_handler time pd2) = true.
Proof.
  intros (H1 & H2 & H3 & H4 & H5) Hback Hcur Hrate Htime.
  set (pd1 := set_work_in_progress false (set_work_count 0 pd)).
  assert (Hstop : exists s1,
    cpufreq_governor_stop policy s = Some (0, s1) /\
    policy_attached s1 policy pol p pd1 d dbs).
  { unfold cpufreq_governor_stop, gov_cancel_work, gov_clear_update_util.
    krun. rewrite Hback. krun.
    rewrite (for_each_pure
      (fun i s0 => with_update_util_data (fun h => h ∖ {[i]}) s0))
      by reflexivity.
    rewrite (with_update_util_data_foldl (fun i h => h ∖ {[i]})).
    krun. eexists. split; [reflexivity |].
    unfold policy_attached. cbn [policies policy_dbs_objs dbs_data_objs].
    rewrite lookup_insert_eq. auto. }
  destruct Hstop as (s1 & Hstop & Hat1).
  exists s1. 
  rewrite (governor_start_run src policy s1 pol p pd1 d dbs Hat1 Hback Hcur).
  eexists _, _. split; [exact Hstop |]. split; [reflexivity |].
  cbn [policy_dbs_objs with_update_util_data with_policy_dbs_objs].
  split; [apply lookup_insert_eq |].
  split; [reflexivity |]. split; [reflexivity |].
  apply util_handler_queues; [reflexivity | | intros _; cbn; discriminate].
  unfold too_early.
  cbn [last_sample_time sample_delay_ns set_last_sample_time
       set_sample_delay_ns].
  rewrite Z.sub_0_r, s64_small by (unfold NSEC_PER_USEC in Htime; lia).
  destruct (Z.ltb_spec time (sampling_rate dbs * NSEC_PER_USEC));
    [lia | reflexivity].
Qed.

(** Processor 0 in the first sample after START, with 2500 of its 10000
    microseconds spent on nice tasks and 2000 idle: the load is 55 when
    nice time is ignored (4500 count as idle) and not below it when nice
    time counts as busy. *)
Lemma ignoring_nice_never_raises_load_witness :
  idle_delta (fun x => x) (ex_clock_nice 3000 15000 2500) 1 0 0%nat
    (per_cpu ex_started 0%nat) = 2000 + 2500 /\
  cpu_load (fun x => x) (ex_clock_nice 3000 15000 2500) 1 0 50000
    ex_started 0%nat = Some 55 /\
  exists l,
    cpu_load (fun x => x) (ex_clock_nice 3000 15000 2500) 0 0 50000
      ex_started 0%nat = Some l /\ 55 <= l.
Proof.
  assert (Hl : cpu_load (fun x => x) (ex_clock_nice 3000 15000 2500) 1 0 50000
                 ex_started 0%nat = Some 55) by (vm_compute; reflexivity).
  destruct (ignoring_nice_never_raises_load (fun x => x)
              (ex_clock_nice 3000 15000 2500) 1 0 50000 ex_started 0%nat 55)
    as [Hi H]; try (vm_compute; reflexivity).
  - vm_compute. intros H. discriminate H.
  - split; [exact Hi |]. split; [exact Hl |]. exact H.
Defined.

(** STOP and START of the started example policy. *)
Lemma governor_restart_rearms_hook_witness :
  exists s1 s2 pd2,
    cpufreq_governor_stop 7%nat ex_started = Some (0, s1) /\
    cpufreq_governor_start (ex_clock 2000 9000) 7%nat s1 = Some (0, s2) /\
    policy_dbs_objs s2 !! 0%nat = Some pd2 /\
    snd (util_handler 50000000 pd2) = true.
Proof.
  destruct (governor_restart_rearms_hook (ex_clock 2000 9000) 7%nat
              ex_started ex_pol 0%nat ex_pd 0%nat ex_dbs 50000000
              ex_started_attached eq_refl)
    as (s1 & s2 & pd2 & H1 & H2 & H3 & _ & _ & H4).
  - cbn. lia.
  - cbn. lia.
  - split; [vm_compute; intros H; discriminate H | reflexivity].
  - exists s1, s2, pd2. auto.
Defined.
